(** * Dark-pattern detector: rule engine, heuristic scorer and aggregator

    A shallow embedding of [darkPatternRules.js], [aiDetector.js] and
    [darkPatternDetector.js].

    - JavaScript numbers are modelled by exact rationals ([Q]); the decimal
      literals of the source ([0.6], [0.9], ...) denote the corresponding
      fractions.  IEEE-754 rounding is not modelled.  [NaN] is modelled by
      [None] in [option Q] where the source can produce it.
    - Strings are [string]s of 8-bit code units.
    - The host document is abstracted to the observations the code makes on
      an element (record [Element]).
    - The engine object is a record threaded through a small state monad
      that also carries the console. *)

From Stdlib Require Import Ascii String NArith QArith Lqa Sorting.Permutation.
From Stdlib Require Import Qminmax Sorting.Sorted Qabs Qround.
From stdpp Require Import pretty.
From stdpp Require Import base decidable option list strings gmap.

Local Open Scope string_scope.
Local Open Scope list_scope.

(** ** Regular expressions

    The subset of the JavaScript regular-expression syntax used by the
    rule table and by the heuristic detector, with a derivative-based
    matcher.  [RegExp.test] is the unanchored search of
    [RegExp.prototype.test]. *)
Module RegExp.

Inductive re : Type :=
| Void                      (* matches nothing *)
| Eps                       (* the empty string *)
| Chr (c : ascii)           (* a literal character *)
| Digit                     (* \d *)
| Space                     (* \s *)
| Dot                       (* . *)
| Cat (r s : re)
| Alt (r s : re)
| Star (r : re).

(** A regular-expression literal: its body and the [i] flag. *)
Record t : Type := mk { body : re; ignoreCase : bool }.

Definition code (c : ascii) : N := N_of_ascii c.

Definition isDigit (c : ascii) : bool :=
  ((48 <=? code c) && (code c <=? 57))%N.

(** White space and line terminators among the 8-bit code units. *)
Definition isSpace (c : ascii) : bool :=
  let n := code c in
  ((9 <=? n) && (n <=? 13) || (n =? 32) || (n =? 160))%N.

Definition isLineTerminator (c : ascii) : bool :=
  ((code c =? 10) || (code c =? 13))%N.

(** [String.prototype.toLowerCase] on one code unit (Latin-1 range). *)
Definition lowerChar (c : ascii) : ascii :=
  let n := code c in
  if ((65 <=? n) && (n <=? 90))%N then ascii_of_N (n + 32)
  else if ((192 <=? n) && (n <=? 222) && negb (n =? 215))%N
       then ascii_of_N (n + 32)
  else c.

(** Canonicalisation used by the [i] flag: only ASCII letters fold. *)
Definition canon (c : ascii) : ascii :=
  let n := code c in
  if ((65 <=? n) && (n <=? 90))%N then ascii_of_N (n + 32) else c.

Definition chrMatches (ci : bool) (p c : ascii) : bool :=
  if ci then (code (canon p) =? code (canon c))%N
  else (code p =? code c)%N.

Fixpoint nullable (r : re) : bool :=
  match r with
  | Void | Chr _ | Digit | Space | Dot => false
  | Eps | Star _ => true
  | Cat r s => nullable r && nullable s
  | Alt r s => nullable r || nullable s
  end.

Definition cat (r s : re) : re :=
  match r, s with
  | Void, _ | _, Void => Void
  | Eps, _ => s
  | _, Eps => r
  | _, _ => Cat r s
  end.

Definition alt (r s : re) : re :=
  match r, s with
  | Void, _ => s
  | _, Void => r
  | _, _ => Alt r s
  end.

Definition ofBool (b : bool) : re := if b then Eps else Void.

(** Brzozowski derivative of [r] by the character [c]. *)
Fixpoint deriv (ci : bool) (c : ascii) (r : re) : re :=
  match r with
  | Void | Eps => Void
  | Chr p => ofBool (chrMatches ci p c)
  | Digit => ofBool (isDigit c)
  | Space => ofBool (isSpace c)
  | Dot => ofBool (negb (isLineTerminator c))
  | Cat r s =>
      let d := cat (deriv ci c r) s in
      if nullable r then alt d (deriv ci c s) else d
  | Alt r s => alt (deriv ci c r) (deriv ci c s)
  | Star r' => cat (deriv ci c r') (Star r')
  end.

(** Does some prefix of [s] match [r]? *)
Fixpoint matchesPrefix (ci : bool) (r : re) (s : string) : bool :=
  nullable r ||
  match s with
  | EmptyString => false
  | String c s' =>
      match deriv ci c r with
      | Void => false
      | d => matchesPrefix ci d s'
      end
  end.

(** Does some substring of [s] match [r]? *)
Fixpoint search (ci : bool) (r : re) (s : string) : bool :=
  matchesPrefix ci r s ||
  match s with
  | EmptyString => false
  | String _ s' => search ci r s'
  end.

Definition test (p : t) (s : string) : bool :=
  search (ignoreCase p) (body p) s.

(** Syntax helpers. *)
Fixpoint lit (s : string) : re :=
  match s with
  | EmptyString => Eps
  | String c EmptyString => Chr c
  | String c s' => Cat (Chr c) (lit s')
  end.

Definition opt (r : re) : re := Alt r Eps.
Definition plus (r : re) : re := Cat r (Star r).

Fixpoint seq (rs : list re) : re :=
  match rs with
  | [] => Eps
  | [r] => r
  | r :: rs' => Cat r (seq rs')
  end.

Fixpoint alts (rs : list re) : re :=
  match rs with
  | [] => Void
  | [r] => r
  | r :: rs' => Alt r (alts rs')
  end.

Definition ws : re := plus Space.               (* \s+ *)
Definition num : re := plus Digit.              (* \d+ *)
Definition any : re := Star Dot.                (* .*  *)
Definition words (ws' : list string) : re := alts (map lit ws').

Definition i (r : re) : t := mk r true.         (* /r/i *)
Definition cs (r : re) : t := mk r false.       (* /r/  *)

End RegExp.

Import RegExp(lit, opt, plus, seq, alts, ws, num, any, words).

(** ** String helpers *)

Definition toLowerCase (s : string) : string :=
  string_of_list_ascii (map RegExp.lowerChar (list_ascii_of_string s)).

Fixpoint trimStart (s : string) : string :=
  match s with
  | String c s' => if RegExp.isSpace c then trimStart s' else s
  | EmptyString => EmptyString
  end.

Definition rev_string (s : string) : string :=
  string_of_list_ascii (rev (list_ascii_of_string s)).

Definition trim (s : string) : string :=
  rev_string (trimStart (rev_string (trimStart s))).

(** [String.prototype.includes]. *)
Fixpoint includes (hay needle : string) : bool :=
  String.prefix needle hay ||
  match hay with
  | EmptyString => false
  | String _ hay' => includes hay' needle
  end.

(** [[...new Set(l)]]: the distinct elements in order of first occurrence. *)
Fixpoint uniqFrom (seen l : list string) : list string :=
  match l with
  | [] => []
  | x :: l' =>
      if bool_decide (x ∈ seen) then uniqFrom seen l'
      else x :: uniqFrom (x :: seen) l'
  end.

Definition uniq (l : list string) : list string := uniqFrom [] l.

(** [l.reduce((a, b) => a + b, 0)] *)
Definition sum (l : list Q) : Q := fold_left Qplus l 0%Q.

(** [l.length], as a number. *)
Definition lengthQ {A : Type} (l : list A) : Q :=
  inject_Z (Z.of_nat (List.length l)).

(** ** JavaScript values *)

(** Result of calling a JavaScript function: normal completion or a thrown
    exception. *)
Inductive Completion (A : Type) : Type :=
| Normal (a : A)
| Throw (error : string).
Arguments Normal {A} a.
Arguments Throw {A} error.

(** The values stored in the configuration object. *)
Inductive JSValue : Type :=
| VUndefined
| VBool (b : bool)
| VNum (q : Q)
| VStr (s : string)
| VArr (l : list string).

(** [ToBoolean]. *)
Definition truthy (v : JSValue) : bool :=
  match v with
  | VUndefined => false
  | VBool b => b
  | VNum q => negb (Qeq_bool q 0)
  | VStr s => negb (String.eqb s "")
  | VArr _ => true
  end.

Definition Qltb (x y : Q) : bool := negb (Qle_bool y x).

(** Comparisons of a possibly-[NaN] number with a literal: [NaN] compares
    false with everything. *)
Definition numLt (x : option Q) (y : Q) : bool :=
  match x with Some q => Qltb q y | None => false end.

Definition numGt (x : option Q) (y : Q) : bool :=
  match x with Some q => Qltb y q | None => false end.

Definition numEq (x : option Q) (y : Q) : bool :=
  match x with Some q => Qeq_bool q y | None => false end.

(** ** The host element, as observed by the detector *)

(** [window.getComputedStyle(element)], with the numeric properties already
    parsed: [opacity] and [fontSize] are [parseFloat] of the property,
    [zIndex] is [parseInt] of it ([None] is [NaN], as for ['auto']). *)
Record ComputedStyle : Type := {
  opacity : option Q;
  fontSize : option Q;
  color : string;
  backgroundColor : string;
  zIndex : option Z;
  position : string
}.

Record Element : Type := {
  tagName : string;
  textContent : string;
  className : string;
  attributes : list string;              (* names of the attributes present *)
  href : option string;                  (* element.href *)
  inputType : string;                    (* element.type *)
  checked : bool;                        (* element.checked *)
  labelText : option string;             (* element.labels?.[0]?.textContent *)
  styleCursor : string;                  (* element.style.cursor *)
  stylePointerEvents : string;           (* element.style.pointerEvents *)
  computedStyle : ComputedStyle;
  (* element.querySelector(selector) !== null; attribute values in the
     selectors are written with single quotes *)
  querySelector : string -> bool;
  (* for each descendant input of type checkbox or radio:
     (input.checked, input.hasAttribute('checked')) *)
  checkableInputs : list (bool * bool);
  ancestorClassNames : list string       (* className of each ancestor, nearest first *)
}.

Definition hasAttribute (e : Element) (name : string) : bool :=
  bool_decide (name ∈ attributes e).

(** [styles.fontSize === '10px']: a computed font size is a pixel length. *)
Definition fontSizeIs10px (st : ComputedStyle) : bool := numEq (fontSize st) 10.

(** ** darkPatternRules.js *)

Module Rule.
Record t : Type := {
  id : string;
  category : string;
  name : string;
  severity : string;
  patterns : list RegExp.t;
  (* absent for a rule without structural predicate *)
  checkElement : option (Element -> Completion bool)
}.
End Rule.

Module RuleSet.
Record t : Type := {
  categories : list (string * string);
  rules : list Rule.t
}.
End RuleSet.

Definition isButtonOrLink (e : Element) : bool :=
  String.eqb (tagName e) "BUTTON" || String.eqb (tagName e) "A".

Definition lowerText (e : Element) : string := toLowerCase (textContent e).

Definition dont : RegExp.re := seq [lit "don"; opt (lit "'"); lit "t"].

Definition urgencyCountdown : Rule.t := {|
  Rule.id := "urgency-countdown"; Rule.category := "URGENCY";
  Rule.name := "Fake Urgency Timer"; Rule.severity := "high";
  Rule.patterns := [
    RegExp.i (seq [lit "only"; ws; num; ws; words ["left"; "remaining"]]);
    RegExp.i (alts [lit "hurry"; seq [lit "act"; ws; lit "now"];
                    seq [lit "limited"; ws; lit "time"]]);
    RegExp.i (seq [lit "expire"; opt (lit "s"); ws; words ["in"; "within"]]);
    RegExp.cs (seq [num; lit ":"; num; lit ":"; num]);
    RegExp.i (seq [lit "sale"; ws; lit "ends"; ws; words ["soon"; "today"]])
  ];
  Rule.checkElement := Some (fun element =>
    let text := lowerText element in
    let hasTimer := querySelector element "[class*='timer'], [class*='countdown']" in
    let hasUrgentText :=
      RegExp.test (RegExp.i (words ["only"; "hurry"; "limited"; "expires"])) text in
    Normal (hasTimer && hasUrgentText))
|}.

Definition scarcityStock : Rule.t := {|
  Rule.id := "scarcity-stock"; Rule.category := "URGENCY";
  Rule.name := "Fake Scarcity"; Rule.severity := "high";
  Rule.patterns := [
    RegExp.i (seq [lit "only"; ws; num; ws; lit "left"; ws; lit "in"; ws; lit "stock"]);
    RegExp.i (seq [num; ws; lit "people"; ws; words ["viewing"; "watching"]]);
    RegExp.i (seq [lit "almost"; ws; lit "gone"]);
    RegExp.i (seq [lit "selling"; ws; lit "fast"])
  ];
  Rule.checkElement := Some (fun element =>
    let text := lowerText element in
    Normal (RegExp.test
      (RegExp.i (seq [lit "only"; ws; num; ws;
                      alts [lit "left"; lit "remaining"; seq [lit "in"; ws; lit "stock"]]]))
      text))
|}.

Definition confirmshaming : Rule.t := {|
  Rule.id := "confirmshaming"; Rule.category := "CONFIRMSHAMING";
  Rule.name := "Confirmshaming"; Rule.severity := "medium";
  Rule.patterns := [
    RegExp.i (seq [lit "no"; opt (lit ","); ws; lit "i"; ws; dont; ws; lit "want"]);
    RegExp.i (seq [lit "no"; ws; lit "thanks"; opt (lit ","); ws; lit "i"; ws;
                   words ["prefer"; "like"]; ws; lit "to"]);
    RegExp.i (seq [lit "i"; ws; lit "hate"; ws; words ["money"; "savings"; "deals"]]);
    RegExp.i (seq [lit "no"; opt (lit ","); ws; lit "i"; opt (lit "'"); lit "ll"; ws;
                   lit "pay"; ws; words ["full"; "more"]]);
    RegExp.i (seq [lit "i"; ws; dont; ws; lit "want"; ws; lit "to"; ws;
                   words ["save"; "win"]])
  ];
  Rule.checkElement := Some (fun element =>
    let text := lowerText element in
    let isButton := isButtonOrLink element in
    let hasShaming :=
      RegExp.test
        (RegExp.i (seq [lit "no"; opt (lit ","); ws; lit "i"; ws;
                        alts [dont; lit "hate"; lit "prefer"]]))
        text in
    Normal (isButton && hasShaming))
|}.

Definition forcedContinuity : Rule.t := {|
  Rule.id := "forced-continuity"; Rule.category := "SNEAKING";
  Rule.name := "Forced Continuity"; Rule.severity := "high";
  Rule.patterns := [
    RegExp.i (seq [lit "free"; ws; lit "trial"; any; lit "automatically"; ws; lit "charged"]);
    RegExp.i (seq [lit "cancel"; ws; lit "anytime"; any; lit "billing"; ws; lit "starts"]);
    RegExp.i (seq [lit "trial"; any; lit "card"; ws; lit "required"])
  ];
  Rule.checkElement := Some (fun element =>
    let text := lowerText element in
    Normal (RegExp.test (RegExp.i (seq [lit "free"; any; lit "trial"])) text
            && RegExp.test (RegExp.i (words ["card"; "billing"; "charge"])) text))
|}.

Definition hiddenCosts : Rule.t := {|
  Rule.id := "hidden-costs"; Rule.category := "HIDDEN_COSTS";
  Rule.name := "Hidden Costs"; Rule.severity := "high";
  Rule.patterns := [
    RegExp.i (seq [lit "+"; RegExp.Star RegExp.Space; lit "fee"; opt (lit "s")]);
    RegExp.i (seq [lit "additional"; ws; lit "charges"]);
    RegExp.i (seq [lit "taxe"; opt (lit "s"); ws; lit "and"; ws; lit "fees"]);
    RegExp.i (seq [lit "handling"; ws; lit "fee"])
  ];
  Rule.checkElement := Some (fun element =>
    let hasHiddenFees := querySelector element "[class*='fee'], [class*='charge']" in
    let styles := computedStyle element in
    let isHidden := fontSizeIs10px styles || numLt (fontSize styles) 12 in
    Normal (hasHiddenFees && isHidden))
|}.

Definition preselection : Rule.t := {|
  Rule.id := "preselection"; Rule.category := "SNEAKING";
  Rule.name := "Preselected Options"; Rule.severity := "medium";
  Rule.patterns := [];
  Rule.checkElement := Some (fun element =>
    if String.eqb (tagName element) "INPUT"
       && (String.eqb (inputType element) "checkbox"
           || String.eqb (inputType element) "radio")
    then
      let isChecked := checked element || hasAttribute element "checked" in
      let label := toLowerCase (default "" (labelText element)) in
      let isNegative :=
        RegExp.test
          (RegExp.i (alts [lit "newsletter"; lit "marketing"; lit "promotional";
                           seq [lit "third"; RegExp.Dot; lit "party"];
                           seq [lit "share"; any; words ["data"; "info"]]]))
          label in
      Normal (isChecked && isNegative)
    else Normal false)
|}.

Definition disguisedAds : Rule.t := {|
  Rule.id := "disguised-ads"; Rule.category := "MISDIRECTION";
  Rule.name := "Disguised Ads"; Rule.severity := "medium";
  Rule.patterns := [
    RegExp.i (lit "download");
    RegExp.i (lit "continue");
    RegExp.i (lit "next")
  ];
  Rule.checkElement := Some (fun element =>
    let isButton := isButtonOrLink element in
    let text := lowerText element in
    let hasAdClass := includes (toLowerCase (className element)) "ad" in
    let hasSuspiciousText :=
      RegExp.test (RegExp.i (words ["download"; "continue"; "next"])) text in
    Normal (isButton && negb hasAdClass && hasSuspiciousText
            && match href element with
               | Some h => includes h "ad"
               | None => false
               end))
|}.

Definition trickQuestion : Rule.t := {|
  Rule.id := "trick-question"; Rule.category := "MISDIRECTION";
  Rule.name := "Trick Questions"; Rule.severity := "high";
  Rule.patterns := [
    RegExp.i (seq [dont; ws; lit "send"]);
    RegExp.i (seq [lit "unsubscribe"; any; lit "no"]);
    RegExp.i (seq [lit "opt"; opt RegExp.Dot; lit "out"; any; lit "unchecked"])
  ];
  Rule.checkElement := Some (fun element =>
    let text := lowerText element in
    let hasNegation :=
      RegExp.test
        (RegExp.i (alts [dont; lit "no"; lit "not"; lit "never"; lit "unsubscribe"]))
        text in
    let hasCheckbox := querySelector element "input[type='checkbox']" in
    Normal (hasNegation && hasCheckbox))
|}.

Definition roachMotel : Rule.t := {|
  Rule.id := "roach-motel"; Rule.category := "OBSTRUCTION";
  Rule.name := "Roach Motel"; Rule.severity := "high";
  Rule.patterns := [
    RegExp.i (seq [lit "contact"; any; lit "cancel"]);
    RegExp.i (seq [lit "call"; any; lit "cancel"]);
    RegExp.i (seq [lit "email"; any; lit "cancel"])
  ];
  Rule.checkElement := Some (fun element =>
    let text := lowerText element in
    let isCancellation :=
      RegExp.test
        (RegExp.i (alts [lit "cancel"; lit "unsubscribe";
                         seq [lit "delete"; any; lit "account"]]))
        text in
    let requiresContact :=
      RegExp.test (RegExp.i (words ["contact"; "call"; "email"; "phone"])) text in
    Normal (isCancellation && requiresContact))
|}.

Definition hardToCancel : Rule.t := {|
  Rule.id := "hard-to-cancel"; Rule.category := "OBSTRUCTION";
  Rule.name := "Hard to Cancel"; Rule.severity := "high";
  Rule.patterns := [];
  Rule.checkElement := Some (fun element =>
    let text := lowerText element in
    let isCancelLink :=
      RegExp.test
        (RegExp.i (alts [lit "cancel"; seq [lit "close"; any; lit "account"];
                         lit "unsubscribe"]))
        text in
    if isCancelLink
       && (String.eqb (tagName element) "A" || String.eqb (tagName element) "BUTTON")
    then
      let styles := computedStyle element in
      let isHidden :=
        numLt (opacity styles) 0.5 || fontSizeIs10px styles
        || numLt (fontSize styles) 11 in
      Normal isHidden
    else Normal false)
|}.

Definition fakeSocialProof : Rule.t := {|
  Rule.id := "fake-social-proof"; Rule.category := "SOCIAL_PROOF";
  Rule.name := "Fake Social Proof"; Rule.severity := "medium";
  Rule.patterns := [
    RegExp.i (seq [num; ws; words ["people"; "users"; "customers"]; ws;
                   words ["bought"; "purchased"; "viewing"]]);
    RegExp.i (seq [lit "join"; ws; num; ws; words ["million"; "thousand"]]);
    RegExp.i (seq [lit "trending"; ws; lit "now"]);
    RegExp.i (seq [lit "#1"; ws; lit "best"; opt RegExp.Dot; lit "seller"])
  ];
  Rule.checkElement := Some (fun element =>
    let text := lowerText element in
    Normal (RegExp.test
      (RegExp.i (seq [num; ws; words ["people"; "users"]; any;
                      words ["bought"; "viewing"; "joined"]]))
      text))
|}.

Definition visualProminence : Rule.t := {|
  Rule.id := "visual-prominence"; Rule.category := "VISUAL_INTERFERENCE";
  Rule.name := "Visual Prominence Imbalance"; Rule.severity := "low";
  Rule.patterns := [];
  Rule.checkElement := Some (fun element =>
    if String.eqb (tagName element) "BUTTON" || String.eqb (tagName element) "A"
    then
      let styles := computedStyle element in
      let text := lowerText element in
      let isDecline :=
        RegExp.test (RegExp.i (words ["decline"; "no"; "skip"; "cancel"])) text in
      if isDecline then
        let isLowContrast := numLt (opacity styles) 0.6 in
        let isSmall := numLt (fontSize styles) 14 in
        Normal (isLowContrast || isSmall)
      else Normal false
    else Normal false)
|}.

Definition forcedEnrollment : Rule.t := {|
  Rule.id := "forced-enrollment"; Rule.category := "FORCED_ACTION";
  Rule.name := "Forced Account Creation"; Rule.severity := "medium";
  Rule.patterns := [
    RegExp.i (seq [lit "create"; any; lit "account"; any; lit "continue"]);
    RegExp.i (seq [lit "sign"; any; lit "up"; any; lit "to"; any; lit "view"]);
    RegExp.i (seq [lit "register"; any; lit "required"])
  ];
  Rule.checkElement := Some (fun element =>
    let text := lowerText element in
    let hasForced :=
      RegExp.test
        (RegExp.i (alts [seq [lit "create"; any; lit "account"];
                         seq [lit "sign"; any; lit "up"]; lit "register"]))
        text in
    let hasRequired :=
      RegExp.test (RegExp.i (words ["required"; "must"; "continue"; "view"])) text in
    Normal (hasForced && hasRequired))
|}.

Definition DarkPatternRules : RuleSet.t := {|
  RuleSet.categories := [
    ("URGENCY", "Urgency & Scarcity");
    ("MISDIRECTION", "Misdirection");
    ("SNEAKING", "Sneaking");
    ("OBSTRUCTION", "Obstruction");
    ("FORCED_ACTION", "Forced Action");
    ("SOCIAL_PROOF", "Social Proof");
    ("VISUAL_INTERFERENCE", "Visual Interference");
    ("CONFIRMSHAMING", "Confirmshaming");
    ("BAIT_AND_SWITCH", "Bait and Switch");
    ("HIDDEN_COSTS", "Hidden Costs")
  ];
  RuleSet.rules := [
    urgencyCountdown; scarcityStock; confirmshaming; forcedContinuity;
    hiddenCosts; preselection; disguisedAds; trickQuestion; roachMotel;
    hardToCancel; fakeSocialProof; visualProminence; forcedEnrollment
  ]
|}.

(** [obj[key]] on an object literal with string keys. *)
Fixpoint lookupKey {A : Type} (key : string) (l : list (string * A)) : option A :=
  match l with
  | [] => None
  | (k, v) :: l' => if String.eqb k key then Some v else lookupKey key l'
  end.

(** ** aiDetector.js *)

(** Only the features read by [makePredictions] and their direct inputs are
    modelled; the remaining fields of the source's feature object
    (readability, geometry, proximity, page context) are never read by the
    scorer. *)
Module Features.

Record TextFeatures : Type := {
  length : nat;
  hasNegativeLanguage : bool;
  hasUrgentLanguage : bool;
  hasManipulativeLanguage : bool;
  sentimentScore : Q;
  hasNumberClaims : bool;
  hasPercentageClaims : bool
}.

Record VisualFeatures : Type := {
  opacity : option Q;
  zIndex : Z;
  position : string;
  isOverlay : bool;
  contrastRatio : option Q
}.

Record BehavioralFeatures : Type := {
  isInteractive : bool;
  isForm : bool;
  hasPreselection : bool;
  hasHiddenInputs : bool;
  hasTimeConstraint : bool;
  blocksUserAction : bool
}.

Record ContextualFeatures : Type := {
  isInModal : bool;
  isInPopup : bool;
  appearsOnLoad : bool;
  hasExitIntent : bool
}.

Record t : Type := {
  text : TextFeatures;
  visual : VisualFeatures;
  behavioral : BehavioralFeatures;
  contextual : ContextualFeatures
}.

End Features.

Module AIDetector.

Record t : Type := { suspicionThreshold : Q }.

Definition constructor : t := {| suspicionThreshold := 0.6 |}.

Definition some (ps : list RegExp.t) (s : string) : bool :=
  existsb (fun pattern => RegExp.test pattern s) ps.

Definition calculateSentiment (s : string) : Q :=
  let manipulativePatterns := [
    RegExp.i (seq [dont; lit " miss"]); RegExp.i (lit "lose out");
    RegExp.i (lit "regret"); RegExp.i (lit "mistake");
    RegExp.i (lit "foolish"); RegExp.i (lit "stupid"); RegExp.i (lit "hate")
  ] in
  let score :=
    fold_left (fun (score : Q) pattern =>
                 if RegExp.test pattern s then (score - 0.2)%Q else score)
              manipulativePatterns 0%Q in
  Qmax (-1) (Qmin 1 score).

Definition hasNegativeLanguage (s : string) : bool :=
  some [
    RegExp.i (seq [lit "no"; ws; lit "thanks"]);
    RegExp.i (seq [dont; ws; lit "want"]);
    RegExp.i (seq [lit "i"; ws; lit "hate"]);
    RegExp.i (seq [lit "not"; ws; lit "interested"]);
    RegExp.i (lit "decline"); RegExp.i (lit "refuse")
  ] s.

Definition hasUrgentLanguage (s : string) : bool :=
  some [
    RegExp.i (lit "now"); RegExp.i (lit "today"); RegExp.i (lit "hurry");
    RegExp.i (lit "quick"); RegExp.i (lit "limited");
    RegExp.i (seq [lit "expire"; opt (lit "s")]); RegExp.i (lit "ending");
    RegExp.i (seq [lit "last"; ws; lit "chance"]);
    RegExp.i (seq [lit "act"; ws; lit "fast"])
  ] s.

Definition hasManipulativeLanguage (s : string) : bool :=
  some [
    RegExp.i (seq [lit "only"; ws; num; ws; lit "left"]);
    RegExp.i (seq [num; ws; lit "people"; ws; lit "watching"]);
    RegExp.i (seq [dont; ws; lit "miss"; ws; lit "out"]);
    RegExp.i (seq [lit "everyone"; ws; lit "is"]);
    RegExp.i (seq [lit "you"; opt (lit "'"); lit "ll"; ws; lit "regret"])
  ] s.

Definition extractTextFeatures (element : Element) : Features.TextFeatures :=
  let text := textContent element in
  let normalizedText := trim (toLowerCase text) in
  {| Features.length := String.length text;
     Features.hasNegativeLanguage := hasNegativeLanguage normalizedText;
     Features.hasUrgentLanguage := hasUrgentLanguage normalizedText;
     Features.hasManipulativeLanguage := hasManipulativeLanguage normalizedText;
     Features.sentimentScore := calculateSentiment normalizedText;
     Features.hasNumberClaims := RegExp.test (RegExp.cs num) normalizedText;
     Features.hasPercentageClaims := RegExp.test (RegExp.cs (lit "%")) normalizedText |}.

(** [color.match(/\d+/g)] followed by [parseInt] of each group. *)
Fixpoint digitRuns (cur : option N) (s : string) : list N :=
  match s with
  | EmptyString => match cur with Some n => [n] | None => [] end
  | String c s' =>
      if RegExp.isDigit c
      then digitRuns (Some (10 * default 0%N cur + (RegExp.code c - 48))%N) s'
      else match cur with
           | Some n => n :: digitRuns None s'
           | None => digitRuns None s'
           end
  end.

Definition ofN (n : N) : Q := inject_Z (Z.of_N n).

Definition getBrightness (color : string) : option Q :=
  match digitRuns None color with
  | [] => Some 128%Q
  | r :: g :: b :: _ =>
      Some ((ofN r * 299 + ofN g * 587 + ofN b * 114) / 1000)%Q
  | _ => None
  end.

Definition calculateContrastRatio (styles : ComputedStyle) : option Q :=
  match getBrightness (backgroundColor styles), getBrightness (color styles) with
  | Some bgBrightness, Some fgBrightness =>
      let lighter := Qmax bgBrightness fgBrightness in
      let darker := Qmin bgBrightness fgBrightness in
      Some ((lighter + 0.05) / (darker + 0.05))%Q
  | _, _ => None
  end.

Definition isFixedOrAbsolute (styles : ComputedStyle) : bool :=
  String.eqb (position styles) "fixed" || String.eqb (position styles) "absolute".

Definition isOverlay (styles : ComputedStyle) : bool :=
  let zIndex := default 0%Z (zIndex styles) in
  isFixedOrAbsolute styles && (1000 <? zIndex)%Z.

Definition extractVisualFeatures (element : Element) : Features.VisualFeatures :=
  let styles := computedStyle element in
  {| Features.opacity := opacity styles;
     Features.zIndex := default 0%Z (zIndex styles);
     Features.position := position styles;
     Features.isOverlay := isOverlay styles;
     Features.contrastRatio := calculateContrastRatio styles |}.

Definition isInteractive (element : Element) : bool :=
  let interactiveTags := ["BUTTON"; "A"; "INPUT"; "SELECT"; "TEXTAREA"] in
  bool_decide (tagName element ∈ interactiveTags)
  || hasAttribute element "onclick"
  || String.eqb (styleCursor element) "pointer".

Definition isForm (element : Element) : bool :=
  String.eqb (tagName element) "FORM"
  || querySelector element "form"
  || querySelector element "input, select, textarea".

Definition hasPreselection (element : Element) : bool :=
  existsb (fun input => fst input || snd input) (checkableInputs element).

Definition hasTimeConstraint (element : Element) : bool :=
  let text := lowerText element in
  RegExp.test (RegExp.cs (seq [num; lit ":"; num])) text
  || querySelector element "[class*='timer'], [class*='countdown']".

Definition blocksUserAction (element : Element) : bool :=
  let styles := computedStyle element in
  isFixedOrAbsolute styles
  && negb (String.eqb (stylePointerEvents element) "none")
  && match zIndex styles with Some z => (100 <? z)%Z | None => false end.

Definition extractBehavioralFeatures (element : Element) : Features.BehavioralFeatures :=
  {| Features.isInteractive := isInteractive element;
     Features.isForm := isForm element;
     Features.hasPreselection := hasPreselection element;
     Features.hasHiddenInputs := querySelector element "input[type='hidden']";
     Features.hasTimeConstraint := hasTimeConstraint element;
     Features.blocksUserAction := blocksUserAction element |}.

(** The walk up the parent chain of [isInModal] and [isInPopup]. *)
Definition ancestorHasClass (element : Element) (a b : string) : bool :=
  existsb (fun c => let classes := toLowerCase c in
                    includes classes a || includes classes b)
          (ancestorClassNames element).

Definition extractContextualFeatures (element : Element) : Features.ContextualFeatures :=
  {| Features.isInModal := ancestorHasClass element "modal" "dialog";
     Features.isInPopup := ancestorHasClass element "popup" "overlay";
     Features.appearsOnLoad := hasAttribute element "data-onload";
     Features.hasExitIntent := hasAttribute element "data-exit-intent" |}.

Definition extractFeatures (element : Element) : Features.t :=
  {| Features.text := extractTextFeatures element;
     Features.visual := extractVisualFeatures element;
     Features.behavioral := extractBehavioralFeatures element;
     Features.contextual := extractContextualFeatures element |}.

(** The three arrays filled by [makePredictions]. *)
Module Triggered.
Record t : Type := {
  scores : list Q;
  patterns : list string;
  reasoning : list string
}.
End Triggered.

(** [if (cond) { scores.push(score); patterns.push(pattern);
    reasoning.push(reason); }] *)
Definition pushIf (cond : bool) (score : Q) (pattern reason : string)
    (acc : Triggered.t) : Triggered.t :=
  if cond then
    {| Triggered.scores := Triggered.scores acc ++ [score];
       Triggered.patterns := Triggered.patterns acc ++ [pattern];
       Triggered.reasoning := Triggered.reasoning acc ++ [reason] |}
  else acc.

Module Predictions.
Record t : Type := {
  confidence : Q;
  patterns : list string;
  reasoning : list string
}.
End Predictions.

(** The body of [makePredictions] up to the confidence calculation: the
    sequence of conditional pushes. *)
Definition collect (features : Features.t) : Triggered.t :=
  let ft := Features.text features in
  let fv := Features.visual features in
  let fb := Features.behavioral features in
  let fc := Features.contextual features in
  let acc := {| Triggered.scores := []; Triggered.patterns := [];
                Triggered.reasoning := [] |} in
  (* Text-based predictions *)
  let acc :=
    pushIf (Features.hasNegativeLanguage ft
            && Qltb (Features.sentimentScore ft) (-0.3))
      0.8 "manipulative-language" "Uses negative/guilt-inducing language" acc in
  let acc :=
    pushIf (Features.hasUrgentLanguage ft && Features.hasNumberClaims ft)
      0.7 "false-urgency"
      "Creates false sense of urgency with specific numbers" acc in
  (* Visual manipulation predictions *)
  let acc :=
    pushIf (numLt (Features.opacity fv) 0.5 && Features.isInteractive fb)
      0.85 "visual-obstruction"
      "Important interactive element has low visibility" acc in
  let acc :=
    pushIf (numLt (Features.contrastRatio fv) 3 && Features.isInteractive fb)
      0.75 "low-contrast-deception"
      "Low contrast used to hide important options" acc in
  let acc :=
    pushIf (Features.isOverlay fv && Features.isInModal fc)
      0.65 "forced-interaction" "Overlay forces user interaction" acc in
  (* Behavioral predictions *)
  let acc :=
    pushIf (Features.hasPreselection fb && Features.isForm fb)
      0.8 "sneaky-preselection"
      "Form has pre-selected options that benefit the company" acc in
  let acc :=
    pushIf (Features.blocksUserAction fb)
      0.9 "forced-continuity"
      "Element blocks user from completing desired action" acc in
  let acc :=
    pushIf (Features.hasTimeConstraint fb && Features.hasUrgentLanguage ft)
      0.85 "pressure-tactics"
      "Combines time pressure with urgent language" acc in
  (* Contextual predictions *)
  pushIf (Features.isInPopup fc && Features.appearsOnLoad fc)
    0.6 "intrusive-popup" "Popup appears immediately on page load" acc.

Definition makePredictions (features : Features.t) : Predictions.t :=
  let acc := collect features in
  let scores := Triggered.scores acc in
  (* Calculate overall confidence *)
  let confidence :=
    if (0 <? List.length scores)%nat
    then (sum scores / lengthQ scores)%Q
    else 0%Q in
  {| Predictions.confidence := confidence;
     Predictions.patterns := uniq (Triggered.patterns acc);
     Predictions.reasoning := Triggered.reasoning acc |}.

(** The object returned by [detect]. *)
Module Result.
Record t : Type := {
  isDarkPattern : bool;
  confidence : Q;
  detectedPatterns : list string;
  features : Features.t;
  reasoning : list string
}.
End Result.

Definition detect (this : t) (element : Element) : Result.t :=
  let features := extractFeatures element in
  let predictions := makePredictions features in
  {| Result.isDarkPattern :=
       Qle_bool (suspicionThreshold this) (Predictions.confidence predictions);
     Result.confidence := Predictions.confidence predictions;
     Result.detectedPatterns := Predictions.patterns predictions;
     Result.features := features;
     Result.reasoning := Predictions.reasoning predictions |}.

Definition setSuspicionThreshold (threshold : Q) (this : t) : t :=
  {| suspicionThreshold := Qmax 0 (Qmin 1 threshold) |}.

End AIDetector.

(** ** darkPatternDetector.js *)

Module RuleMatch.
Record t : Type := {
  ruleId : string;
  ruleName : string;
  category : string;
  severity : string;
  confidence : Q
}.
End RuleMatch.

(** The object returned by [analyzeElement] when [detected] is true.  The
    [elementInfo] snapshot is presentational and is left out. *)
Module Detection.
Record t : Type := {
  element : Element;
  ruleMatches : list RuleMatch.t;
  aiDetection : option AIDetector.Result.t;
  confidence : Q;
  severity : string;
  recommendations : list string
}.
End Detection.

(** [{ detected: false }] or [{ detected: true, ... }]. *)
Inductive Analysis : Type :=
| NotDetected
| Detected (result : Detection.t).

Definition detected (a : Analysis) : bool :=
  match a with NotDetected => false | Detected _ => true end.

Module BySeverity.
Record t : Type := { high : nat; medium : nat; low : nat }.
End BySeverity.

Module Issue.
Record t : Type := { category : string; count : nat; categoryName : string }.
End Issue.

Module Summary.
Record t : Type := {
  totalDetections : nat;
  bySeverity : BySeverity.t;
  byCategory : list (string * nat);    (* keys in insertion order *)
  topIssues : list Issue.t
}.
End Summary.

(** The report of [scanPage], without its time stamps. *)
Module Report.
Record t : Type := {
  totalElements : nat;
  detections : list Detection.t;
  summary : Summary.t
}.
End Report.

(** A [console.warn] line: the message and the error passed with it. *)
Record Warning : Type := { message : string; error : string }.

Module DarkPatternDetector.

Record t : Type := {
  aiDetector : AIDetector.t;
  rules : RuleSet.t;
  detectionResults : list Detection.t;
  config : gmap string JSValue
}.

Definition constructor : t := {|
  aiDetector := AIDetector.constructor;
  rules := DarkPatternRules;
  detectionResults := [];
  config :=
    <["enableRuleBased" := VBool true]>
    (<["enableAIBased" := VBool true]>
    (<["minConfidence" := VNum 0.5]>
    (<["scanDepth" := VStr "full"]>
    (<["excludeSelectors" := VArr [".dark-pattern-badge"]]> ∅))))
|}.

(** [config.key]: a missing property reads as [undefined]. *)
Definition prop (config : gmap string JSValue) (key : string) : JSValue :=
  default VUndefined (config !! key).

(** *** The state monad of the methods: the engine object and the console. *)
Record World : Type := { this : t; console : list Warning }.

Definition M (A : Type) : Type := World -> A * World.

Definition ret {A : Type} (a : A) : M A := fun w => (a, w).

Definition bind {A B : Type} (m : M A) (k : A -> M B) : M B :=
  fun w => let (a, w') := m w in k a w'.

Definition getThis : M t := fun w => (this w, w).

Definition setThis (d : t) : M unit :=
  fun w => (tt, {| this := d; console := console w |}).

Definition warn (msg err : string) : M unit :=
  fun w => (tt, {| this := this w;
                   console := console w ++ [{| message := msg; error := err |}] |}).

Notation "x <- m ;; k" := (bind m (fun x => k))
  (at level 100, m at next level, right associativity).
Notation "m ;;; k" := (bind m (fun _ => k))
  (at level 100, right associativity).

(** *** applyRules *)

(** The body of the loop of [applyRules] that decides [isMatch]. *)
Definition matchRule (rule : Rule.t) (element : Element) : M bool :=
  (* Check text patterns *)
  let text := textContent element in
  let isMatch := existsb (fun pattern => RegExp.test pattern text)
                         (Rule.patterns rule) in
  (* Check custom element function *)
  if isMatch then ret true
  else match Rule.checkElement rule with
       | Some check =>
           match check element with
           | Normal b => ret b
           | Throw err =>
               warn (String.append "Error checking rule " (String.append (Rule.id rule) ":"))
                    err ;;;
               ret false
           end
       | None => ret false
       end.

Definition toMatch (rule : Rule.t) : RuleMatch.t := {|
  RuleMatch.ruleId := Rule.id rule;
  RuleMatch.ruleName := Rule.name rule;
  RuleMatch.category := Rule.category rule;
  RuleMatch.severity := Rule.severity rule;
  RuleMatch.confidence := 0.9       (* Rule-based has high confidence *)
|}.

Fixpoint applyRulesFrom (rs : list Rule.t) (element : Element)
    (matches : list RuleMatch.t) : M (list RuleMatch.t) :=
  match rs with
  | [] => ret matches
  | rule :: rs' =>
      isMatch <- matchRule rule element ;;
      applyRulesFrom rs' element
        (if isMatch then matches ++ [toMatch rule] else matches)
  end.

Definition applyRules (element : Element) : M (list RuleMatch.t) :=
  d <- getThis ;;
  applyRulesFrom (RuleSet.rules (rules d)) element [].

(** *** Fusion *)

Definition aiPositive (aiResult : option AIDetector.Result.t) : bool :=
  match aiResult with
  | Some r => AIDetector.Result.isDarkPattern r
  | None => false
  end.

Definition calculateOverallConfidence (ruleResults : list RuleMatch.t)
    (aiResult : option AIDetector.Result.t) : Q :=
  let confidence := 0%Q in
  let count := 0%nat in
  (* Rule-based confidence *)
  let '(confidence, count) :=
    if (0 <? List.length ruleResults)%nat then
      let ruleConfidence :=
        (fold_left (fun sum r => sum + RuleMatch.confidence r) ruleResults 0
         / lengthQ ruleResults)%Q in
      ((confidence + ruleConfidence * 0.6)%Q, S count)
    else (confidence, count) in
  (* AI-based confidence *)
  let '(confidence, count) :=
    match aiResult with
    | Some r =>
        if AIDetector.Result.isDarkPattern r
        then ((confidence + AIDetector.Result.confidence r * 0.4)%Q, S count)
        else (confidence, count)
    | None => (confidence, count)
    end in
  if (0 <? count)%nat then confidence else 0%Q.

Definition listIncludes (l : list string) (x : string) : bool :=
  bool_decide (x ∈ l).

Definition determineSeverity (ruleResults : list RuleMatch.t)
    (aiResult : option AIDetector.Result.t) : string :=
  (* Priority: high > medium > low *)
  let severities := map RuleMatch.severity ruleResults in
  if listIncludes severities "high" then "high"
  else if listIncludes severities "medium" then "medium"
  else if listIncludes severities "low" then "low"
  else
    (* Use AI confidence if no rules matched *)
    match aiResult with
    | Some r =>
        if AIDetector.Result.isDarkPattern r then
          if Qltb 0.8 (AIDetector.Result.confidence r) then "high"
          else if Qltb 0.6 (AIDetector.Result.confidence r) then "medium"
          else "low"
        else "low"
    | None => "low"
    end.

Definition adviceFor (categories : list string) (category : string)
    (advice : list string) : list string :=
  if listIncludes categories category then advice else [].

Definition generateRecommendations (ruleResults : list RuleMatch.t)
    (aiResult : option AIDetector.Result.t) : list string :=
  (* Get categories from rule matches *)
  let categories := map RuleMatch.category ruleResults in
  (* Generate recommendations based on categories *)
  let recommendations :=
    adviceFor categories "URGENCY"
      ["Remove or verify artificial urgency claims";
       "Ensure scarcity claims are accurate and not misleading"]
    ++ adviceFor categories "CONFIRMSHAMING"
      ["Use neutral language for decline options";
       "Respect user choice without guilt-inducing language"]
    ++ adviceFor categories "SNEAKING"
      ["Make all costs and terms transparent upfront";
       "Remove pre-selected options that benefit the company"]
    ++ adviceFor categories "OBSTRUCTION"
      ["Make cancellation as easy as subscription";
       "Provide clear, accessible exit options"]
    ++ adviceFor categories "VISUAL_INTERFERENCE"
      ["Ensure equal visual prominence for all options";
       "Maintain adequate contrast and readability"]
    (* Add AI-based recommendations *)
    ++ match aiResult with
       | Some r => map (fun reason => String.append "AI detected: " reason)
                       (AIDetector.Result.reasoning r)
       | None => []
       end in
  uniq recommendations.                (* Remove duplicates *)

(** *** analyzeElement *)

Definition analyzeElement (element : Element) : M Analysis :=
  d <- getThis ;;
  ruleResults <-
    (if truthy (prop (config d) "enableRuleBased")
     then applyRules element else ret []) ;;
  let aiResult :=
    if truthy (prop (config d) "enableAIBased")
    then Some (AIDetector.detect (aiDetector d) element) else None in
  (* Combine results *)
  let detected := (0 <? List.length ruleResults)%nat || aiPositive aiResult in
  if negb detected then ret NotDetected
  else ret (Detected {|
    Detection.element := element;
    Detection.ruleMatches := ruleResults;
    Detection.aiDetection := aiResult;
    Detection.confidence := calculateOverallConfidence ruleResults aiResult;
    Detection.severity := determineSeverity ruleResults aiResult;
    Detection.recommendations := generateRecommendations ruleResults aiResult
  |}).

(** *** generateSummary *)

(** [summary.bySeverity[severity]++]; a key other than the three counters
    would add a property of its own and leave the counters alone. *)
Definition incrSeverity (severity : string) (c : BySeverity.t) : BySeverity.t :=
  if String.eqb severity "high" then
    {| BySeverity.high := S (BySeverity.high c);
       BySeverity.medium := BySeverity.medium c;
       BySeverity.low := BySeverity.low c |}
  else if String.eqb severity "medium" then
    {| BySeverity.high := BySeverity.high c;
       BySeverity.medium := S (BySeverity.medium c);
       BySeverity.low := BySeverity.low c |}
  else if String.eqb severity "low" then
    {| BySeverity.high := BySeverity.high c;
       BySeverity.medium := BySeverity.medium c;
       BySeverity.low := S (BySeverity.low c) |}
  else c.

(** [byCategory[category] = (byCategory[category] || 0) + 1] *)
Fixpoint incrCategory (category : string) (byCategory : list (string * nat))
    : list (string * nat) :=
  match byCategory with
  | [] => [(category, 1%nat)]
  | (k, n) :: rest =>
      if String.eqb k category then (k, S n) :: rest
      else (k, n) :: incrCategory category rest
  end.

Definition countResult (acc : BySeverity.t * list (string * nat))
    (result : Detection.t) : BySeverity.t * list (string * nat) :=
  ((* Count by severity *)
   incrSeverity (Detection.severity result) (fst acc),
   (* Count by category *)
   fold_left (fun byCategory m => incrCategory (RuleMatch.category m) byCategory)
             (Detection.ruleMatches result) (snd acc)).

(** [entries.sort((a, b) => b[1] - a[1])]: a stable sort by decreasing
    count. *)
Fixpoint insertDesc (x : string * nat) (l : list (string * nat))
    : list (string * nat) :=
  match l with
  | [] => [x]
  | y :: l' =>
      if (snd x <? snd y)%nat then y :: insertDesc x l' else x :: y :: l'
  end.

Definition sortDesc (l : list (string * nat)) : list (string * nat) :=
  foldr insertDesc [] l.

(** [categories[category] || category] *)
Definition displayName (categories : list (string * string)) (category : string)
    : string :=
  match lookupKey category categories with
  | Some n => if String.eqb n "" then category else n
  | None => category
  end.

Definition generateSummary : M Summary.t :=
  d <- getThis ;;
  let '(bySeverity, byCategory) :=
    fold_left countResult (detectionResults d)
      ({| BySeverity.high := 0; BySeverity.medium := 0; BySeverity.low := 0 |}, []) in
  (* Get top issues *)
  let categoryEntries := take 5 (sortDesc byCategory) in
  ret {|
    Summary.totalDetections := List.length (detectionResults d);
    Summary.bySeverity := bySeverity;
    Summary.byCategory := byCategory;
    Summary.topIssues :=
      map (fun entry => {|
             Issue.category := fst entry;
             Issue.count := snd entry;
             Issue.categoryName :=
               displayName (RuleSet.categories (rules d)) (fst entry)
           |}) categoryEntries
  |}.

(** *** scanPage *)

Definition setDetectionResults (l : list Detection.t) : M unit :=
  d <- getThis ;;
  setThis {| aiDetector := aiDetector d; rules := rules d;
             detectionResults := l; config := config d |}.

Fixpoint scanLoop (allElements : list Element) : M unit :=
  match allElements with
  | [] => ret tt
  | element :: rest =>
      result <- analyzeElement element ;;
      (match result with
       | Detected r =>
           d <- getThis ;; setDetectionResults (detectionResults d ++ [r])
       | NotDetected => ret tt
       end) ;;;
      scanLoop rest
  end.

(** [scanPage], on the candidate list that [getAllRelevantElements] reads
    from the host document. *)
Definition scanPage (allElements : list Element) : M Report.t :=
  setDetectionResults [] ;;;
  scanLoop allElements ;;;
  summary <- generateSummary ;;
  d <- getThis ;;
  ret {| Report.totalElements := List.length allElements;
         Report.detections := detectionResults d;
         Report.summary := summary |}.

(** *** setConfig: [this.config = { ...this.config, ...newConfig }] *)
Definition setConfig (newConfig : gmap string JSValue) : M unit :=
  d <- getThis ;;
  setThis {| aiDetector := aiDetector d; rules := rules d;
             detectionResults := detectionResults d;
             config := newConfig ∪ config d |}.

End DarkPatternDetector.

(** * Properties *)

Import DarkPatternDetector.

(** ** The regular-expression matcher

    The matcher is compared with the usual language of a regular
    expression: [RegExp.test p s] holds exactly when some substring of [s]
    belongs to the language of the body of [p]. *)

Inductive Matches (ci : bool) : RegExp.re -> string -> Prop :=
| MEps : Matches ci RegExp.Eps ""
| MChr p c : RegExp.chrMatches ci p c = true ->
             Matches ci (RegExp.Chr p) (String c "")
| MDigit c : RegExp.isDigit c = true -> Matches ci RegExp.Digit (String c "")
| MSpace c : RegExp.isSpace c = true -> Matches ci RegExp.Space (String c "")
| MDot c : RegExp.isLineTerminator c = false ->
           Matches ci RegExp.Dot (String c "")
| MCat r s x y : Matches ci r x -> Matches ci s y ->
                 Matches ci (RegExp.Cat r s) (String.append x y)
| MAltL r s x : Matches ci r x -> Matches ci (RegExp.Alt r s) x
| MAltR r s x : Matches ci s x -> Matches ci (RegExp.Alt r s) x
| MStarNil r : Matches ci (RegExp.Star r) ""
| MStarCons r x y : Matches ci r x -> Matches ci (RegExp.Star r) y ->
                    Matches ci (RegExp.Star r) (String.append x y).

Lemma append_nil_l (s : string) : String.append "" s = s.
Proof. reflexivity. Qed.

Lemma append_cons (c : ascii) (s t : string) :
  String.append (String c s) t = String c (String.append s t).
Proof. reflexivity. Qed.

Lemma append_nil_r (s : string) : String.append s "" = s.
Proof.
  induction s as [|c s IH]; [reflexivity | by rewrite append_cons, IH].
Qed.

Lemma append_eq_nil (a b : string) : String.append a b = "" -> a = "" /\ b = "".
Proof.
  destruct a; [rewrite append_nil_l; auto | rewrite append_cons; discriminate].
Qed.

Section Matcher.
Variable ci : bool.

Lemma nullable_spec (r : RegExp.re) :
  RegExp.nullable r = true <-> Matches ci r "".
Proof.
  split.
  - induction r; simpl; intros H; try discriminate.
    + constructor.
    + apply andb_true_iff in H as [H1 H2].
      change "" with (String.append "" ""). constructor; auto.
    + apply orb_true_iff in H as [H | H]; [apply MAltL | apply MAltR]; auto.
    + constructor.
  - intros H. remember "" as s eqn:Hs. induction H; simpl; try discriminate; auto.
    + apply append_eq_nil in Hs as [-> ->]. by rewrite IHMatches1, IHMatches2.
    + by rewrite IHMatches.
    + rewrite IHMatches by assumption. apply orb_true_r.
Qed.

Lemma Matches_Void (s : string) : ~ Matches ci RegExp.Void s.
Proof. intros H. inversion H. Qed.

Lemma Matches_Eps (s : string) : Matches ci RegExp.Eps s -> s = "".
Proof. intros H. by inversion H. Qed.

Lemma cat_spec (r s : RegExp.re) (x : string) :
  Matches ci (RegExp.cat r s) x <-> Matches ci (RegExp.Cat r s) x.
Proof.
  assert (Hl : forall y, Matches ci (RegExp.Cat RegExp.Eps s) y <-> Matches ci s y).
  { intros y. split.
    - intros H. inversion H as [| | | | |? ? a b Ha Hb| | | |]; subst.
      apply Matches_Eps in Ha as ->. exact Hb.
    - intros H. change y with (String.append "" y). constructor; [constructor | auto]. }
  assert (Hr : forall y, Matches ci (RegExp.Cat r RegExp.Eps) y <-> Matches ci r y).
  { intros y. split.
    - intros H. inversion H as [| | | | |? ? a b Ha Hb| | | |]; subst.
      apply Matches_Eps in Hb as ->. by rewrite append_nil_r.
    - intros H. rewrite <- (append_nil_r y). constructor; [auto | constructor]. }
  assert (Hv1 : forall y, Matches ci (RegExp.Cat RegExp.Void s) y <-> False).
  { intros y. split; [| tauto]. intros H.
    inversion H as [| | | | |? ? a b Ha Hb| | | |]; subst. by apply Matches_Void in Ha. }
  assert (Hv2 : forall y, Matches ci (RegExp.Cat r RegExp.Void) y <-> False).
  { intros y. split; [| tauto]. intros H.
    inversion H as [| | | | |? ? a b Ha Hb| | | |]; subst. by apply Matches_Void in Hb. }
  assert (HV : Matches ci RegExp.Void x <-> False).
  { split; [apply Matches_Void | tauto]. }
  destruct r; try (destruct s; simpl; rewrite ?Hl, ?Hr, ?Hv1, ?Hv2, ?HV; tauto).
Qed.

Lemma alt_spec (r s : RegExp.re) (x : string) :
  Matches ci (RegExp.alt r s) x <-> Matches ci (RegExp.Alt r s) x.
Proof.
  assert (HA : forall a b, Matches ci (RegExp.Alt a b) x
                           <-> Matches ci a x \/ Matches ci b x).
  { intros a b. split.
    - intros H. inversion H; subst; auto.
    - intros [H | H]; [by apply MAltL | by apply MAltR]. }
  assert (HV : Matches ci RegExp.Void x <-> False).
  { split; [apply Matches_Void | tauto]. }
  destruct r; try (destruct s; simpl; rewrite ?HA, ?HV; tauto).
Qed.

Lemma ofBool_spec (b : bool) (s : string) :
  Matches ci (RegExp.ofBool b) s <-> b = true /\ s = "".
Proof.
  destruct b; simpl; split.
  - intros H. apply Matches_Eps in H. auto.
  - intros [_ ->]. constructor.
  - intros H. by apply Matches_Void in H.
  - intros [H _]. discriminate.
Qed.

(** Splitting a match of a concatenation or of a star at its first
    character. *)
Lemma Matches_Cat_cons (r s : RegExp.re) (c : ascii) (t : string) :
  Matches ci (RegExp.Cat r s) (String c t) ->
  (exists x y, t = String.append x y /\ Matches ci r (String c x) /\ Matches ci s y)
  \/ (Matches ci r "" /\ Matches ci s (String c t)).
Proof.
  intros H.
  assert (Hinv : exists a b, String c t = String.append a b
                             /\ Matches ci r a /\ Matches ci s b).
  { inversion H; subst; eauto. }
  destruct Hinv as (a & b & Heq & Ha & Hb).
  destruct a as [|c' a].
  - rewrite append_nil_l in Heq. subst b. right. auto.
  - rewrite append_cons in Heq. injection Heq as -> ->. left. eauto.
Qed.

Lemma Matches_Star_cons (r : RegExp.re) (c : ascii) (t : string) :
  Matches ci (RegExp.Star r) (String c t) ->
  exists x y, t = String.append x y /\ Matches ci r (String c x)
              /\ Matches ci (RegExp.Star r) y.
Proof.
  intros H. remember (RegExp.Star r) as r' eqn:Hr.
  remember (String c t) as s eqn:Hs.
  induction H as [| | | | | | | | |r0 x y Hx _ Hy IH]; try discriminate.
  injection Hr as ->.
  destruct x as [|c' x].
  - rewrite append_nil_l in Hs. apply IH; auto.
  - rewrite append_cons in Hs. injection Hs as -> <-. eauto.
Qed.

Lemma deriv_spec (c : ascii) (r : RegExp.re) (s : string) :
  Matches ci (RegExp.deriv ci c r) s <-> Matches ci r (String c s).
Proof.
  revert s. induction r as [| |p| | | |r1 IH1 r2 IH2|r1 IH1 r2 IH2|r IH];
    intros s; simpl.
  - split; intros H; inversion H.
  - split; intros H; inversion H.
  - rewrite ofBool_spec. split.
    + intros [H ->]. by constructor.
    + intros H. inversion H; subst. auto.
  - rewrite ofBool_spec. split.
    + intros [H ->]. by constructor.
    + intros H. inversion H; subst. auto.
  - rewrite ofBool_spec. split.
    + intros [H ->]. by constructor.
    + intros H. inversion H; subst. auto.
  - rewrite ofBool_spec, negb_true_iff. split.
    + intros [H ->]. by constructor.
    + intros H. inversion H; subst. auto.
  - assert (Hd : Matches ci (RegExp.cat (RegExp.deriv ci c r1) r2) s
                 <-> exists x y, s = String.append x y
                                 /\ Matches ci r1 (String c x) /\ Matches ci r2 y).
    { rewrite cat_spec. split.
      - intros H. inversion H as [| | | | |? ? a b Ha Hb| | | |]; subst.
        apply IH1 in Ha. eauto.
      - intros (x & y & -> & Hx & Hy). constructor; [by apply IH1 | assumption]. }
    split.
    + intros H.
      assert (H' : (exists x y, s = String.append x y
                      /\ Matches ci r1 (String c x) /\ Matches ci r2 y)
                   \/ (RegExp.nullable r1 = true /\ Matches ci r2 (String c s))).
      { destruct (RegExp.nullable r1) eqn:Hn.
        - apply alt_spec in H. inversion H; subst.
          + left. by apply Hd.
          + right. split; [reflexivity | by apply IH2].
        - left. by apply Hd. }
      destruct H' as [(x & y & -> & Hx & Hy) | [Hn Hs]].
      * change (String c (String.append x y)) with (String.append (String c x) y).
        by constructor.
      * change (String c s) with (String.append "" (String c s)).
        constructor; [by apply nullable_spec | assumption].
    + intros H. apply Matches_Cat_cons in H as [Hsplit | [Hn Hs]].
      * destruct (RegExp.nullable r1); [apply alt_spec, MAltL |]; by apply Hd.
      * apply nullable_spec in Hn. rewrite Hn.
        apply alt_spec, MAltR. by apply IH2.
  - rewrite alt_spec. split.
    + intros H. inversion H; subst; [apply MAltL; by apply IH1 | apply MAltR; by apply IH2].
    + intros H. inversion H; subst; [apply MAltL; by apply IH1 | apply MAltR; by apply IH2].
  - rewrite cat_spec. split.
    + intros H. inversion H as [| | | | |? ? a b Ha Hb| | | |]; subst.
      apply IH in Ha.
      change (String c (String.append a b)) with (String.append (String c a) b).
      by constructor.
    + intros H. apply Matches_Star_cons in H as (x & y & -> & Hx & Hy).
      constructor; [by apply IH | assumption].
Qed.

Lemma matchesPrefix_cons (r : RegExp.re) (c : ascii) (s : string) :
  RegExp.matchesPrefix ci r (String c s) =
  RegExp.nullable r || RegExp.matchesPrefix ci (RegExp.deriv ci c r) s.
Proof.
  cbn [RegExp.matchesPrefix].
  destruct (RegExp.deriv ci c r); try reflexivity.
  destruct s; reflexivity.
Qed.

Lemma matchesPrefix_spec (r : RegExp.re) (s : string) :
  RegExp.matchesPrefix ci r s = true
  <-> exists p q, s = String.append p q /\ Matches ci r p.
Proof.
  revert r. induction s as [|c s IH]; intros r.
  - cbn [RegExp.matchesPrefix]. rewrite orb_false_r, nullable_spec. split.
    + intros H. exists "", "". auto.
    + intros (p & q & Hs & Hp). symmetry in Hs.
      apply append_eq_nil in Hs as [-> _]. assumption.
  - rewrite matchesPrefix_cons, orb_true_iff, nullable_spec, IH. split.
    + intros [H | (p & q & -> & Hp)].
      * exists "", (String c s). auto.
      * exists (String c p), q. split; [reflexivity | by apply deriv_spec].
    + intros (p & q & Hs & Hp). destruct p as [|c' p].
      * left. assumption.
      * rewrite append_cons in Hs. injection Hs as <- ->. right. exists p, q.
        split; [reflexivity | by apply deriv_spec].
Qed.

Lemma search_spec (r : RegExp.re) (s : string) :
  RegExp.search ci r s = true
  <-> exists a m b, s = String.append a (String.append m b) /\ Matches ci r m.
Proof.
  induction s as [|c s IH]; cbn [RegExp.search];
    rewrite orb_true_iff, matchesPrefix_spec.
  - split.
    + intros [(p & q & Hs & Hp) | H]; [| discriminate]. exists "", p, q. auto.
    + intros (a & m & b & Hs & Hm). left.
      destruct a; [| rewrite append_cons in Hs; discriminate].
      exists m, b. auto.
  - rewrite IH. split.
    + intros [(p & q & Hs & Hp) | (a & m & b & -> & Hm)].
      * exists "", p, q. auto.
      * exists (String c a), m, b. auto.
    + intros (a & m & b & Hs & Hm). destruct a as [|c' a].
      * left. exists m, b. auto.
      * rewrite append_cons in Hs. injection Hs as <- ->. right.
        exists a, m, b. auto.
Qed.

End Matcher.

(** [RegExp.prototype.test]: some substring is in the language. *)
Lemma test_spec (p : RegExp.t) (s : string) :
  RegExp.test p s = true
  <-> exists a m b, s = String.append a (String.append m b)
                    /\ Matches (RegExp.ignoreCase p) (RegExp.body p) m.
Proof. apply search_spec. Qed.

(** ** Lists and numbers *)

Lemma uniqFrom_elem (seen l : list string) (x : string) :
  x ∈ uniqFrom seen l <-> x ∈ l /\ x ∉ seen.
Proof.
  revert seen. induction l as [|y l IH]; intros seen; simpl.
  - rewrite elem_of_nil. tauto.
  - case_bool_decide as Hy.
    + rewrite IH, elem_of_cons. split.
      * intros [? ?]. auto.
      * intros [[-> | ?] ?]; [contradiction | auto].
    + rewrite elem_of_cons, IH, !elem_of_cons. split.
      * intros [-> | [? Hn]]; [auto |]. split; [auto |].
        intros ?. apply Hn. auto.
      * intros [[-> | Hin] Hn]; [auto |].
        destruct (decide (x = y)) as [-> | Hne]; [auto |].
        right. split; [assumption |]. intros [? | ?]; contradiction.
Qed.

Lemma uniqFrom_NoDup (seen l : list string) : NoDup (uniqFrom seen l).
Proof.
  revert seen. induction l as [|y l IH]; intros seen; simpl.
  - constructor.
  - case_bool_decide; [apply IH |].
    constructor; [| apply IH].
    rewrite uniqFrom_elem, elem_of_cons. intros [_ Hn]. apply Hn. auto.
Qed.

Lemma uniq_elem (l : list string) (x : string) : x ∈ uniq l <-> x ∈ l.
Proof.
  unfold uniq. rewrite uniqFrom_elem, elem_of_nil. tauto.
Qed.

Lemma uniq_NoDup (l : list string) : NoDup (uniq l).
Proof. apply uniqFrom_NoDup. Qed.

(** A list without repetition is left as it is. *)
Lemma uniqFrom_id (seen l : list string) :
  NoDup l -> (forall x, x ∈ l -> x ∉ seen) -> uniqFrom seen l = l.
Proof.
  revert seen. induction l as [|y l IH]; intros seen Hnd Hs; simpl; [done |].
  apply NoDup_cons in Hnd as [Hy Hnd].
  case_bool_decide as Hin.
  - exfalso. apply (Hs y); [left | assumption].
  - f_equal. apply IH; [assumption |].
    intros x Hx. rewrite elem_of_cons. intros [-> | Hx'].
    + contradiction.
    + apply (Hs x); [right; assumption | assumption].
Qed.

Lemma Qltb_lt (x y : Q) : Qltb x y = true <-> (x < y)%Q.
Proof.
  unfold Qltb. rewrite negb_true_iff, <- not_true_iff_false, Qle_bool_iff.
  split; [apply Qnot_le_lt | apply Qlt_not_le].
Qed.

Lemma fold_left_Qplus_shift (l : list Q) (a : Q) :
  (fold_left Qplus l a == a + sum l)%Q.
Proof.
  unfold sum. revert a. induction l as [|x l IH]; intros a; simpl.
  - ring.
  - rewrite (IH (a + x)%Q), (IH (0 + x)%Q). ring.
Qed.

Lemma sum_cons (x : Q) (l : list Q) : (sum (x :: l) == x + sum l)%Q.
Proof.
  unfold sum at 1. simpl. rewrite fold_left_Qplus_shift. ring.
Qed.

Lemma lengthQ_cons {A : Type} (x : A) (l : list A) :
  (lengthQ (x :: l) == 1 + lengthQ l)%Q.
Proof.
  unfold lengthQ. simpl List.length. rewrite Nat2Z.inj_succ, <- Z.add_1_l.
  rewrite inject_Z_plus. reflexivity.
Qed.

Lemma lengthQ_nonneg {A : Type} (l : list A) : (0 <= lengthQ l)%Q.
Proof.
  unfold lengthQ. change 0%Q with (inject_Z 0). rewrite <- Zle_Qle. lia.
Qed.

(** The sum of a list whose elements lie in [[a, b]] lies in
    [[n * a, n * b]]. *)
Lemma sum_bounds (a b : Q) (l : list Q) :
  Forall (fun x => a <= x /\ x <= b)%Q l ->
  (lengthQ l * a <= sum l /\ sum l <= lengthQ l * b)%Q.
Proof.
  induction 1 as [|x l [Hax Hxb] _ [IHa IHb]].
  - change (lengthQ (@nil Q)) with 0%Q. change (sum []) with 0%Q. split; lra.
  - rewrite sum_cons, lengthQ_cons. split; lra.
Qed.

(** [sum l / l.length] *)
Definition mean (l : list Q) : Q := (sum l / lengthQ l)%Q.

Lemma mean_bounds (a b : Q) (l : list Q) :
  l <> [] -> Forall (fun x => a <= x /\ x <= b)%Q l ->
  (a <= mean l /\ mean l <= b)%Q.
Proof.
  intros Hne Hall. destruct (sum_bounds a b l Hall) as [Hlo Hhi].
  assert (Hpos : (0 < lengthQ l)%Q).
  { destruct l as [|x l]; [done |]. rewrite lengthQ_cons.
    pose proof (lengthQ_nonneg l). lra. }
  unfold mean. split.
  - apply Qle_shift_div_l; [assumption |]. lra.
  - apply Qle_shift_div_r; [assumption |]. lra.
Qed.

(** ** Rule evaluation *)

(** Does some text pattern of the rule match the element's text? *)
Definition textMatches (rule : Rule.t) (element : Element) : bool :=
  existsb (fun pattern => RegExp.test pattern (textContent element))
          (Rule.patterns rule).

(** The structural predicate is called and throws. *)
Definition predicateThrows (rule : Rule.t) (element : Element) (err : string) : Prop :=
  textMatches rule element = false /\
  exists check, Rule.checkElement rule = Some check /\ check element = Throw err.

(** The value of [isMatch] at the end of one iteration of [applyRules]. *)
Definition isMatch (rule : Rule.t) (element : Element) : bool :=
  textMatches rule element ||
  match Rule.checkElement rule with
  | Some check =>
      match check element with Normal b => b | Throw _ => false end
  | None => false
  end.

(** The warnings of one iteration. *)
Definition warningsOf (rule : Rule.t) (element : Element) : list Warning :=
  if textMatches rule element then []
  else match Rule.checkElement rule with
       | Some check =>
           match check element with
           | Normal _ => []
           | Throw err =>
               [{| message := String.append "Error checking rule "
                                (String.append (Rule.id rule) ":");
                   error := err |}]
           end
       | None => []
       end.

Definition logged (ws : list Warning) (w : World) : World :=
  {| this := this w; console := console w ++ ws |}.

Lemma logged_nil (w : World) : logged [] w = w.
Proof. destruct w. unfold logged. simpl. by rewrite app_nil_r. Qed.

Lemma logged_app (ws1 ws2 : list Warning) (w : World) :
  logged ws2 (logged ws1 w) = logged (ws1 ++ ws2) w.
Proof. unfold logged. simpl. by rewrite app_assoc. Qed.

Lemma matchRule_run (rule : Rule.t) (element : Element) (w : World) :
  matchRule rule element w =
  (isMatch rule element, logged (warningsOf rule element) w).
Proof.
  unfold matchRule, isMatch, warningsOf, textMatches.
  destruct (existsb _ _); simpl.
  - unfold ret. by rewrite logged_nil.
  - destruct (Rule.checkElement rule) as [check|]; simpl.
    + destruct (check element); unfold ret, bind, warn; simpl;
        [by rewrite logged_nil | reflexivity].
    + unfold ret. by rewrite logged_nil.
Qed.

Definition matchesOf (rs : list Rule.t) (element : Element) : list RuleMatch.t :=
  map toMatch (filter (fun rule => isMatch rule element = true) rs).

Definition warningsOfAll (rs : list Rule.t) (element : Element) : list Warning :=
  flat_map (fun rule => warningsOf rule element) rs.

Lemma applyRulesFrom_run (rs : list Rule.t) (element : Element)
    (acc : list RuleMatch.t) (w : World) :
  applyRulesFrom rs element acc w =
  (acc ++ matchesOf rs element, logged (warningsOfAll rs element) w).
Proof.
  revert acc w. induction rs as [|rule rs IH]; intros acc w; simpl.
  - unfold ret, matchesOf. simpl. by rewrite app_nil_r, logged_nil.
  - unfold bind. rewrite matchRule_run, IH, logged_app.
    unfold matchesOf. rewrite filter_cons.
    destruct (isMatch rule element) eqn:Hm.
    + rewrite decide_True by done. simpl. by rewrite <- app_assoc.
    + rewrite decide_False by done. reflexivity.
Qed.

Lemma applyRules_run (element : Element) (w : World) :
  applyRules element w =
  (matchesOf (RuleSet.rules (rules (this w))) element,
   logged (warningsOfAll (RuleSet.rules (rules (this w))) element) w).
Proof.
  unfold applyRules, bind, getThis. by rewrite applyRulesFrom_run.
Qed.

Lemma matchesOf_app (rs1 rs2 : list Rule.t) (element : Element) :
  matchesOf (rs1 ++ rs2) element = matchesOf rs1 element ++ matchesOf rs2 element.
Proof. unfold matchesOf. by rewrite filter_app, map_app. Qed.

Lemma warningsOfAll_app (rs1 rs2 : list Rule.t) (element : Element) :
  warningsOfAll (rs1 ++ rs2) element =
  warningsOfAll rs1 element ++ warningsOfAll rs2 element.
Proof. unfold warningsOfAll. by rewrite flat_map_app. Qed.


Lemma matchesOf_elem (rs : list Rule.t) (element : Element) (rule : Rule.t) :
  rule ∈ rs -> isMatch rule element = true -> toMatch rule ∈ matchesOf rs element.
Proof.
  intros Hin Hm. unfold matchesOf. apply list_elem_of_fmap_2.
  apply list_elem_of_filter. auto.
Qed.

(** ** The analysis of one element *)

(** The two inputs of the fusion, as [analyzeElement] computes them. *)
Definition ruleResultsOf (d : DarkPatternDetector.t) (element : Element)
    : list RuleMatch.t :=
  if truthy (prop (config d) "enableRuleBased")
  then matchesOf (RuleSet.rules (rules d)) element else [].

Definition aiResultOf (d : DarkPatternDetector.t) (element : Element)
    : option AIDetector.Result.t :=
  if truthy (prop (config d) "enableAIBased")
  then Some (AIDetector.detect (aiDetector d) element) else None.

Definition analysisWarnings (d : DarkPatternDetector.t) (element : Element)
    : list Warning :=
  if truthy (prop (config d) "enableRuleBased")
  then warningsOfAll (RuleSet.rules (rules d)) element else [].

Definition fuse (element : Element) (ruleResults : list RuleMatch.t)
    (aiResult : option AIDetector.Result.t) : Analysis :=
  if (0 <? List.length ruleResults)%nat || aiPositive aiResult then
    Detected {|
      Detection.element := element;
      Detection.ruleMatches := ruleResults;
      Detection.aiDetection := aiResult;
      Detection.confidence := calculateOverallConfidence ruleResults aiResult;
      Detection.severity := determineSeverity ruleResults aiResult;
      Detection.recommendations := generateRecommendations ruleResults aiResult
    |}
  else NotDetected.

Lemma analyzeElement_run (element : Element) (w : World) :
  analyzeElement element w =
  (fuse element (ruleResultsOf (this w) element) (aiResultOf (this w) element),
   logged (analysisWarnings (this w) element) w).
Proof.
  unfold analyzeElement, bind, getThis, ruleResultsOf, aiResultOf,
    analysisWarnings, fuse.
  destruct (truthy (prop (config (this w)) "enableRuleBased")).
  - rewrite applyRules_run.
    destruct (_ || _); reflexivity.
  - unfold ret at 1. rewrite logged_nil.
    destruct (_ || _); reflexivity.
Qed.

(** ** The heuristic scorer *)

(** One row of the condition table of the scorer. *)
Record Condition : Type := {
  holds : Features.t -> bool;
  score : Q;
  patternName : string;
  rationale : string
}.

(** The condition table as the specification gives it (condition, score,
    pattern), with the rationale strings of the scorer; it is compared with
    the pushes of [makePredictions] in [collect_table]. *)
Definition conditionTable : list Condition := [
  {| holds := fun f =>
       Features.hasNegativeLanguage (Features.text f)
       && Qltb (Features.sentimentScore (Features.text f)) (-0.3);
     score := 0.8; patternName := "manipulative-language";
     rationale := "Uses negative/guilt-inducing language" |};
  {| holds := fun f =>
       Features.hasUrgentLanguage (Features.text f)
       && Features.hasNumberClaims (Features.text f);
     score := 0.7; patternName := "false-urgency";
     rationale := "Creates false sense of urgency with specific numbers" |};
  {| holds := fun f =>
       numLt (Features.opacity (Features.visual f)) 0.5
       && Features.isInteractive (Features.behavioral f);
     score := 0.85; patternName := "visual-obstruction";
     rationale := "Important interactive element has low visibility" |};
  {| holds := fun f =>
       numLt (Features.contrastRatio (Features.visual f)) 3
       && Features.isInteractive (Features.behavioral f);
     score := 0.75; patternName := "low-contrast-deception";
     rationale := "Low contrast used to hide important options" |};
  {| holds := fun f =>
       Features.isOverlay (Features.visual f)
       && Features.isInModal (Features.contextual f);
     score := 0.65; patternName := "forced-interaction";
     rationale := "Overlay forces user interaction" |};
  {| holds := fun f =>
       Features.hasPreselection (Features.behavioral f)
       && Features.isForm (Features.behavioral f);
     score := 0.8; patternName := "sneaky-preselection";
     rationale := "Form has pre-selected options that benefit the company" |};
  {| holds := fun f => Features.blocksUserAction (Features.behavioral f);
     score := 0.9; patternName := "forced-continuity";
     rationale := "Element blocks user from completing desired action" |};
  {| holds := fun f =>
       Features.hasTimeConstraint (Features.behavioral f)
       && Features.hasUrgentLanguage (Features.text f);
     score := 0.85; patternName := "pressure-tactics";
     rationale := "Combines time pressure with urgent language" |};
  {| holds := fun f =>
       Features.isInPopup (Features.contextual f)
       && Features.appearsOnLoad (Features.contextual f);
     score := 0.6; patternName := "intrusive-popup";
     rationale := "Popup appears immediately on page load" |}
].

(** The rows whose condition holds, in table order. *)
Definition triggered (f : Features.t) : list Condition :=
  filter (fun c => holds c f = true) conditionTable.

Definition pushRow (f : Features.t) (acc : AIDetector.Triggered.t) (c : Condition)
    : AIDetector.Triggered.t :=
  AIDetector.pushIf (holds c f) (score c) (patternName c) (rationale c) acc.

Lemma pushRows_filter (f : Features.t) (rows : list Condition)
    (acc : AIDetector.Triggered.t) :
  let rows' := filter (fun c => holds c f = true) rows in
  fold_left (pushRow f) rows acc =
  {| AIDetector.Triggered.scores :=
       AIDetector.Triggered.scores acc ++ map score rows';
     AIDetector.Triggered.patterns :=
       AIDetector.Triggered.patterns acc ++ map patternName rows';
     AIDetector.Triggered.reasoning :=
       AIDetector.Triggered.reasoning acc ++ map rationale rows' |}.
Proof.
  revert acc. induction rows as [|c rows IH]; intros acc; simpl.
  - destruct acc. simpl. by rewrite !app_nil_r.
  - rewrite filter_cons. unfold pushRow at 2, AIDetector.pushIf.
    destruct (holds c f) eqn:Hc.
    + rewrite decide_True by done. rewrite IH. simpl.
      by rewrite <- !app_assoc.
    + rewrite decide_False by done. apply IH.
Qed.

(** The pushes of [makePredictions] are the rows of the table, in order. *)
Lemma collect_table (f : Features.t) :
  AIDetector.collect f =
  {| AIDetector.Triggered.scores := map score (triggered f);
     AIDetector.Triggered.patterns := map patternName (triggered f);
     AIDetector.Triggered.reasoning := map rationale (triggered f) |}.
Proof.
  transitivity (fold_left (pushRow f) conditionTable
    {| AIDetector.Triggered.scores := []; AIDetector.Triggered.patterns := [];
       AIDetector.Triggered.reasoning := [] |}).
  - reflexivity.
  - rewrite pushRows_filter. reflexivity.
Qed.

Lemma conditionTable_scores :
  Forall (fun c => 0.6 <= score c /\ score c <= 0.9)%Q conditionTable.
Proof.
  unfold conditionTable. repeat constructor; simpl; unfold Qle; simpl; lia.
Qed.

Lemma conditionTable_names_NoDup : NoDup (map patternName conditionTable).
Proof.
  apply (bool_decide_unpack _). vm_compute. exact I.
Qed.

Lemma triggered_scores (f : Features.t) :
  Forall (fun x => 0.6 <= x /\ x <= 0.9)%Q (map score (triggered f)).
Proof.
  apply Forall_map. unfold triggered.
  apply Forall_forall. intros c Hc. apply list_elem_of_filter in Hc as [_ Hc].
  pose proof conditionTable_scores as H.
  rewrite Forall_forall in H. exact (H c Hc).
Qed.

Lemma triggered_names_NoDup (f : Features.t) :
  NoDup (map patternName (triggered f)).
Proof.
  unfold triggered. generalize conditionTable_names_NoDup.
  generalize conditionTable. intros l. induction l as [|c l IH]; simpl; intros Hnd.
  - constructor.
  - apply NoDup_cons in Hnd as [Hc Hnd]. rewrite filter_cons.
    destruct (decide _); [| auto].
    simpl. constructor; [| auto].
    intros Hin. apply Hc.
    apply list_elem_of_fmap in Hin as [c' [-> Hin]].
    apply list_elem_of_filter in Hin as [_ Hin].
    by apply list_elem_of_fmap_2.
Qed.

Lemma makePredictions_confidence (f : Features.t) :
  AIDetector.Predictions.confidence (AIDetector.makePredictions f) =
  match triggered f with
  | [] => 0%Q
  | _ :: _ => mean (map score (triggered f))
  end.
Proof.
  unfold AIDetector.makePredictions. rewrite collect_table. simpl.
  destruct (triggered f); reflexivity.
Qed.

Lemma makePredictions_confidence_bounds (f : Features.t) :
  (0 <= AIDetector.Predictions.confidence (AIDetector.makePredictions f) <= 0.9)%Q.
Proof.
  rewrite makePredictions_confidence.
  pose proof (triggered_scores f) as Hs.
  destruct (triggered f) as [|c l] eqn:Ht; [lra |].
  destruct (mean_bounds 0.6 0.9 (map score (c :: l))) as [Hlo Hhi];
    [done | assumption | lra].
Qed.

(** ** Fusion of the two sources *)










(** C5. For every feature set the aggregate confidence of the scorer is the
    arithmetic mean of the scores of the triggered conditions, 0 when none
    triggers; [isDarkPattern] holds exactly when the confidence reaches the
    suspicion threshold, which is 0.6 by default; the detected pattern names
    are free of repetition and are exactly the names of the triggered
    conditions; the reasoning strings are the ordered list of their
    rationales. *)
Theorem C5_heuristic_scorer :
  (forall f : Features.t,
     let p := AIDetector.makePredictions f in
     AIDetector.Predictions.confidence p =
       match triggered f with
       | [] => 0%Q
       | _ :: _ => mean (map score (triggered f))
       end
     /\ NoDup (AIDetector.Predictions.patterns p)
     /\ (forall x, x ∈ AIDetector.Predictions.patterns p
                   <-> x ∈ map patternName (triggered f))
     /\ AIDetector.Predictions.reasoning p = map rationale (triggered f))
  /\ (forall (this : AIDetector.t) (element : Element),
        let p := AIDetector.makePredictions (AIDetector.extractFeatures element) in
        let r := AIDetector.detect this element in
        AIDetector.Result.confidence r = AIDetector.Predictions.confidence p
        /\ AIDetector.Result.detectedPatterns r = AIDetector.Predictions.patterns p
        /\ AIDetector.Result.reasoning r = AIDetector.Predictions.reasoning p
        /\ (AIDetector.Result.isDarkPattern r = true
            <-> (AIDetector.suspicionThreshold this
                 <= AIDetector.Result.confidence r)%Q))
  /\ AIDetector.suspicionThreshold AIDetector.constructor = 0.6%Q.
Proof.
  split; [| split; [| reflexivity]].
  - intros f p. split; [apply makePredictions_confidence |].
    unfold p, AIDetector.makePredictions. rewrite collect_table. simpl.
    split; [apply uniq_NoDup |]. split; [apply uniq_elem | reflexivity].
  - intros this element p r. repeat split.
    + unfold r, AIDetector.detect. simpl. apply Qle_bool_iff.
    + unfold r, AIDetector.detect. simpl. apply Qle_bool_iff.
Qed.

(** C9. Every score of the condition table is at least 0.6; so whenever a
    condition triggers the aggregate confidence is at least 0.6 and, under
    the default threshold, the verdict is positive; the scorer never yields
    a confidence strictly between 0 and 0.6. *)
Theorem C9_confidence_floor :
  Forall (fun c => 0.6 <= score c)%Q conditionTable
  /\ (forall f : Features.t,
        AIDetector.Triggered.scores (AIDetector.collect f) = map score (triggered f)
        /\ match triggered f with
           | [] =>
               AIDetector.Predictions.confidence (AIDetector.makePredictions f) = 0%Q
           | _ :: _ =>
               (0.6 <= AIDetector.Predictions.confidence
                         (AIDetector.makePredictions f))%Q
           end
        /\ ~ (0 < AIDetector.Predictions.confidence (AIDetector.makePredictions f)
              /\ AIDetector.Predictions.confidence (AIDetector.makePredictions f)
                 < 0.6)%Q)
  /\ (forall element : Element,
        AIDetector.Result.isDarkPattern
          (AIDetector.detect AIDetector.constructor element) =
        match triggered (AIDetector.extractFeatures element) with
        | [] => false
        | _ :: _ => true
        end).
Proof.
  assert (Hfloor : forall f : Features.t,
            match triggered f with
            | [] =>
                AIDetector.Predictions.confidence (AIDetector.makePredictions f) = 0%Q
            | _ :: _ =>
                (0.6 <= AIDetector.Predictions.confidence
                          (AIDetector.makePredictions f))%Q
            end).
  { intros f. rewrite makePredictions_confidence.
    pose proof (triggered_scores f) as Hs.
    destruct (triggered f) as [|c l]; [reflexivity |].
    destruct (mean_bounds 0.6 0.9 (map score (c :: l))); [done | assumption |].
    assumption. }
  split; [| split].
  - eapply Forall_impl; [apply conditionTable_scores |]. simpl. tauto.
  - intros f. split; [by rewrite collect_table |]. split; [apply Hfloor |].
    specialize (Hfloor f). destruct (triggered f).
    + rewrite Hfloor. intros [H _]. revert H. apply Qlt_irrefl.
    + intros [_ H]. apply Qlt_not_le in H. contradiction.
  - intros element. specialize (Hfloor (AIDetector.extractFeatures element)).
    change (AIDetector.Result.isDarkPattern
              (AIDetector.detect AIDetector.constructor element))
      with (Qle_bool 0.6 (AIDetector.Predictions.confidence
              (AIDetector.makePredictions (AIDetector.extractFeatures element)))).
    destruct (triggered (AIDetector.extractFeatures element)).
    + rewrite Hfloor. reflexivity.
    + apply Qle_bool_iff. assumption.
Qed.

(** ** Severity *)

(** The order high > medium > low. *)
Definition rank (severity : string) : nat :=
  if String.eqb severity "high" then 3
  else if String.eqb severity "medium" then 2
  else if String.eqb severity "low" then 1
  else 0.

Definition validSeverity (severity : string) : Prop :=
  severity = "high" \/ severity = "medium" \/ severity = "low".

(** The severity derived from the heuristic confidence. *)
Definition heuristicSeverity (confidence : Q) : string :=
  if Qltb 0.8 confidence then "high"
  else if Qltb 0.6 confidence then "medium"
  else "low".

Lemma determineSeverity_valid (ruleResults : list RuleMatch.t)
    (aiResult : option AIDetector.Result.t) :
  validSeverity (determineSeverity ruleResults aiResult).
Proof.
  unfold determineSeverity, validSeverity, listIncludes.
  repeat case_bool_decide; auto.
  destruct aiResult as [r|]; [| auto].
  destruct (AIDetector.Result.isDarkPattern r); [| auto].
  destruct (Qltb 0.8 _); [auto |].
  destruct (Qltb 0.6 _); auto.
Qed.

Lemma determineSeverity_high (ruleResults : list RuleMatch.t)
    (aiResult : option AIDetector.Result.t) :
  "high" ∈ map RuleMatch.severity ruleResults ->
  determineSeverity ruleResults aiResult = "high".
Proof.
  intros Hin. unfold determineSeverity, listIncludes.
  by rewrite bool_decide_eq_true_2.
Qed.

Lemma determineSeverity_max (ruleResults : list RuleMatch.t)
    (aiResult : option AIDetector.Result.t) :
  ruleResults <> [] ->
  Forall validSeverity (map RuleMatch.severity ruleResults) ->
  determineSeverity ruleResults aiResult ∈ map RuleMatch.severity ruleResults
  /\ forall s, s ∈ map RuleMatch.severity ruleResults ->
               (rank s <= rank (determineSeverity ruleResults aiResult))%nat.
Proof.
  intros Hne Hvalid. unfold determineSeverity, listIncludes.
  set (severities := map RuleMatch.severity ruleResults) in *.
  assert (Hrank : forall s, s ∈ severities ->
            s = "high" \/ s = "medium" \/ s = "low").
  { intros s Hs. rewrite Forall_forall in Hvalid. exact (Hvalid s Hs). }
  case_bool_decide as Hh.
  - split; [assumption |]. intros s Hs.
    destruct (Hrank s Hs) as [-> | [-> | ->]]; vm_compute; lia.
  - case_bool_decide as Hm.
    + split; [assumption |]. intros s Hs.
      destruct (Hrank s Hs) as [-> | [-> | ->]];
        [contradiction | vm_compute; lia | vm_compute; lia].
    + case_bool_decide as Hl.
      * split; [assumption |]. intros s Hs.
        destruct (Hrank s Hs) as [-> | [-> | ->]];
          [contradiction | contradiction | vm_compute; lia].
      * exfalso. destruct ruleResults as [|m l]; [done |].
        assert (Hs : RuleMatch.severity m ∈ severities) by (left).
        destruct (Hrank _ Hs) as [He | [He | He]]; rewrite He in Hs; contradiction.
Qed.

Lemma determineSeverity_heuristic (r : AIDetector.Result.t) :
  AIDetector.Result.isDarkPattern r = true ->
  determineSeverity [] (Some r) = heuristicSeverity (AIDetector.Result.confidence r).
Proof.
  intros Hp. unfold determineSeverity, heuristicSeverity. simpl.
  rewrite Hp. reflexivity.
Qed.

Lemma determineSeverity_medium (ruleResults : list RuleMatch.t)
    (aiResult : option AIDetector.Result.t) :
  "medium" ∈ map RuleMatch.severity ruleResults ->
  (2 <= rank (determineSeverity ruleResults aiResult))%nat.
Proof.
  intros Hin. unfold determineSeverity, listIncludes.
  case_bool_decide; [vm_compute; lia |].
  rewrite bool_decide_eq_true_2 by assumption. vm_compute. lia.
Qed.

(** What claim C4 says of a detection. *)
Definition severityRule (r : Detection.t) : Prop :=
  let severities := map RuleMatch.severity (Detection.ruleMatches r) in
  match Detection.ruleMatches r with
  | _ :: _ =>
      Detection.severity r ∈ severities
      /\ Forall (fun s => (rank s <= rank (Detection.severity r))%nat) severities
  | [] =>
      match Detection.aiDetection r with
      | Some ai =>
          AIDetector.Result.isDarkPattern ai = true
          /\ Detection.severity r =
               heuristicSeverity (AIDetector.Result.confidence ai)
      | None => False
      end
  end.

Lemma matchesOf_severities (rs : list Rule.t) (element : Element) :
  Forall (fun rule => validSeverity (Rule.severity rule)) rs ->
  Forall validSeverity (map RuleMatch.severity (matchesOf rs element)).
Proof.
  intros Hall. unfold matchesOf. rewrite <- list_fmap_compose.
  apply Forall_fmap. rewrite Forall_forall in *. intros rule Hin.
  apply list_elem_of_filter in Hin as [_ Hin]. exact (Hall rule Hin).
Qed.

(** C4. For every analysed element that is detected: a rule match of
    severity high makes the overall severity high, whatever the heuristic
    score; otherwise the highest severity among the rule matches is used
    (high > medium > low); without rule match the severity follows the
    heuristic confidence: high above 0.8, medium above 0.6, low otherwise. *)
Theorem C4_severity (w : World) (element : Element) :
  Forall (fun rule => validSeverity (Rule.severity rule))
         (RuleSet.rules (rules (this w))) ->
  (forall (ruleResults : list RuleMatch.t) (aiResult : option AIDetector.Result.t),
     "high" ∈ map RuleMatch.severity ruleResults ->
     determineSeverity ruleResults aiResult = "high")
  /\ match fst (analyzeElement element w) with
     | Detected r => severityRule r
     | NotDetected => True
     end.
Proof.
  intros Hvalid. split; [apply determineSeverity_high |].
  rewrite analyzeElement_run. simpl. unfold fuse.
  assert (Hsev : Forall validSeverity
            (map RuleMatch.severity (ruleResultsOf (this w) element))).
  { unfold ruleResultsOf. destruct (truthy _); [| constructor].
    by apply matchesOf_severities. }
  destruct (ruleResultsOf (this w) element) as [|m l] eqn:Hr; simpl.
  - destruct (aiPositive _) eqn:Hp; [| exact I].
    unfold severityRule. simpl. unfold aiPositive in Hp.
    destruct (aiResultOf (this w) element) as [ai|]; [| discriminate].
    split; [assumption |]. by apply determineSeverity_heuristic.
  - unfold severityRule. simpl Detection.ruleMatches. simpl Detection.severity.
    destruct (determineSeverity_max (m :: l) (aiResultOf (this w) element))
      as [Hin Hmax]; [done | assumption |].
    split; [assumption |].
    apply Forall_forall. intros s Hs. apply Hmax. assumption.
Qed.

(** ** Concrete elements and engines *)

(** The computed style of an unstyled control on a white page. *)
Definition plainStyle : ComputedStyle := {|
  opacity := Some 1%Q; fontSize := Some 16%Q;
  color := "rgb(0, 0, 0)"; backgroundColor := "rgb(255, 255, 255)";
  zIndex := None; position := "static"
|}.

(** [<button>text</button>] *)
Definition button (text : string) : Element := {|
  tagName := "BUTTON"; textContent := text; className := ""; attributes := [];
  href := None; inputType := "submit"; checked := false; labelText := None;
  styleCursor := ""; stylePointerEvents := ""; computedStyle := plainStyle;
  querySelector := fun _ => false; checkableInputs := [];
  ancestorClassNames := []
|}.

(** The same element with another text. *)
Definition withText (text : string) (e : Element) : Element := {|
  tagName := tagName e; textContent := text; className := className e;
  attributes := attributes e; href := href e; inputType := inputType e;
  checked := checked e; labelText := labelText e; styleCursor := styleCursor e;
  stylePointerEvents := stylePointerEvents e; computedStyle := computedStyle e;
  querySelector := querySelector e; checkableInputs := checkableInputs e;
  ancestorClassNames := ancestorClassNames e
|}.

(** A freshly constructed engine and an empty console. *)
Definition freshWorld : World := {| this := constructor; console := [] |}.

(** A custom rule whose structural predicate always throws. *)
Definition brokenRule : Rule.t := {|
  Rule.id := "custom-pattern"; Rule.category := "MISDIRECTION";
  Rule.name := "Custom Dark Pattern"; Rule.severity := "high";
  Rule.patterns := [];
  Rule.checkElement := Some (fun _ => Throw "TypeError")
|}.

Definition withRules (rs : list Rule.t) (w : World) : World := {|
  this := {| aiDetector := aiDetector (this w);
             rules := {| RuleSet.categories := RuleSet.categories (rules (this w));
                         RuleSet.rules := rs |};
             detectionResults := detectionResults (this w);
             config := config (this w) |};
  console := console w
|}.

Lemma standard_rules_valid :
  Forall (fun rule => validSeverity (Rule.severity rule))
         (RuleSet.rules DarkPatternRules).
Proof.
  repeat (constructor; [unfold validSeverity; simpl; auto |]). constructor.
Qed.

(** C4 at an urgency banner of the standard engine. *)
Lemma C4_severity_witness :
  Forall (fun rule => validSeverity (Rule.severity rule))
         (RuleSet.rules (rules (this freshWorld)))
  /\ detected (fst (analyzeElement (button "Hurry, only 3 left!") freshWorld)) = true
  /\ match fst (analyzeElement (button "Hurry, only 3 left!") freshWorld) with
     | Detected r => severityRule r
     | NotDetected => True
     end.
Proof.
  split; [exact standard_rules_valid |].
  split; [vm_compute; reflexivity |].
  exact (proj2 (C4_severity freshWorld (button "Hurry, only 3 left!")
                  standard_rules_valid)).
Defined.

(** ** Scenario 1 *)

(** What scenario 1 expects of an element: the confirmshaming rule
    matches, the severity is at least medium and the neutral-language advice
    is recommended. *)
Definition scenario1 (w : World) (e : Element) : Prop :=
  toMatch confirmshaming ∈ fst (applyRules e w)
  /\ exists r, fst (analyzeElement e w) = Detected r
       /\ (2 <= rank (Detection.severity r))%nat
       /\ "Use neutral language for decline options" ∈ Detection.recommendations r.

(** C3 fails as stated: a plain button with the text of the scenario is
    matched by no rule, and is not detected at all. *)
Lemma C3_counterexample :
  let e := button "No thanks, I hate saving money" in
  tagName e = "BUTTON"
  /\ textMatches confirmshaming e = false
  /\ isMatch confirmshaming e = false
  /\ fst (applyRules e freshWorld) = []
  /\ fst (analyzeElement e freshWorld) = NotDetected
  /\ ~ scenario1 freshWorld e.
Proof.
  repeat split; try (vm_compute; reflexivity).
  intros [_ [r [Hr _]]]. vm_compute in Hr. discriminate.
Qed.

Definition neutralAdvice : string := "Use neutral language for decline options".

Lemma adviceFor_elem (categories : list string) (category x : string)
    (advice : list string) :
  x ∈ adviceFor categories category advice <-> category ∈ categories /\ x ∈ advice.
Proof.
  unfold adviceFor, listIncludes. case_bool_decide.
  - tauto.
  - rewrite elem_of_nil. tauto.
Qed.

Lemma generateRecommendations_neutral (ruleResults : list RuleMatch.t)
    (aiResult : option AIDetector.Result.t) :
  neutralAdvice ∈ generateRecommendations ruleResults aiResult
  <-> "CONFIRMSHAMING" ∈ map RuleMatch.category ruleResults.
Proof.
  unfold generateRecommendations. rewrite uniq_elem, !elem_of_app, !adviceFor_elem.
  split.
  - intros [[_ H] | [[H _] | [[_ H] | [[_ H] | [[_ H] | H]]]]]; try assumption;
      try (exfalso; revert H; unfold neutralAdvice;
           rewrite !elem_of_cons, elem_of_nil; intuition discriminate).
    exfalso. destruct aiResult as [r|]; [| by apply elem_of_nil in H].
    apply list_elem_of_fmap in H as [reason [H _]]. discriminate H.
  - intros H. right. left. split; [assumption | left].
Qed.

Lemma standard_confirmshaming_only (rule : Rule.t) :
  rule ∈ RuleSet.rules DarkPatternRules ->
  Rule.category rule = "CONFIRMSHAMING" \/ Rule.id rule = "confirmshaming" ->
  rule = confirmshaming.
Proof.
  intros Hin Hc. simpl in Hin.
  repeat (apply elem_of_cons in Hin as [-> | Hin]);
    try reflexivity;
    try (destruct Hc as [Hc | Hc]; simpl in Hc; discriminate Hc).
  by apply elem_of_nil in Hin.
Qed.

Lemma confirmshaming_savings (e : Element) :
  textMatches confirmshaming (withText "No thanks, I hate savings" e) = true.
Proof. vm_compute. reflexivity. Qed.

Lemma confirmshaming_saving_money (e : Element) :
  isMatch confirmshaming (withText "No thanks, I hate saving money" e) = false.
Proof.
  assert (Ht : textMatches confirmshaming
                 (withText "No thanks, I hate saving money" e) = false)
    by (vm_compute; reflexivity).
  unfold isMatch. rewrite Ht.
  cbv beta iota zeta delta [confirmshaming Rule.checkElement orb].
  match goal with
  | |- (_ && ?t) = false => assert (Hs : t = false) by (vm_compute; reflexivity);
                            rewrite Hs
  end.
  apply andb_false_r.
Qed.

(** C3 (amended). With the text "No thanks, I hate savings" the
    confirmshaming rule matches through its pattern
    [i\s+hate\s+(money|savings|deals)], the severity is at least medium and
    the recommendations contain the neutral-language advice; with the text
    "No thanks, I hate saving money" the confirmshaming rule does not match
    and that advice is never recommended. *)
Theorem C3_scenario_amended (w : World) (e : Element) :
  RuleSet.rules (rules (this w)) = RuleSet.rules DarkPatternRules ->
  truthy (prop (config (this w)) "enableRuleBased") = true ->
  scenario1 w (withText "No thanks, I hate savings" e)
  /\ (let e' := withText "No thanks, I hate saving money" e in
      (toMatch confirmshaming ∉ fst (applyRules e' w))
      /\ match fst (analyzeElement e' w) with
         | Detected r => neutralAdvice ∉ Detection.recommendations r
         | NotDetected => True
         end).
Proof.
  intros Hrules Henabled. split.
  - set (e1 := withText "No thanks, I hate savings" e).
    assert (Hin : toMatch confirmshaming
                    ∈ matchesOf (RuleSet.rules DarkPatternRules) e1).
    { apply matchesOf_elem.
      - simpl. do 2 right. left.
      - unfold isMatch. unfold e1. by rewrite confirmshaming_savings. }
    unfold scenario1. rewrite applyRules_run, analyzeElement_run. simpl.
    rewrite Hrules. split; [assumption |].
    unfold ruleResultsOf. rewrite Henabled, Hrules. unfold fuse.
    destruct (matchesOf (RuleSet.rules DarkPatternRules) e1) as [|m l] eqn:Hm;
      [by apply elem_of_nil in Hin |].
    simpl. eexists. split; [reflexivity |]. simpl. split.
    + apply determineSeverity_medium.
      change "medium" with (RuleMatch.severity (toMatch confirmshaming)).
      by apply list_elem_of_fmap_2.
    + apply generateRecommendations_neutral.
      change "CONFIRMSHAMING" with (RuleMatch.category (toMatch confirmshaming)).
      by apply list_elem_of_fmap_2.
  - intros e'.
    assert (Hno : forall rule, rule ∈ RuleSet.rules DarkPatternRules ->
              isMatch rule e' = true ->
              Rule.category rule = "CONFIRMSHAMING" \/ Rule.id rule = "confirmshaming" ->
              False).
    { intros rule Hin Hm Hc.
      rewrite (standard_confirmshaming_only rule Hin Hc) in Hm.
      unfold e' in Hm. rewrite confirmshaming_saving_money in Hm. discriminate. }
    split.
    + rewrite applyRules_run. simpl. rewrite Hrules. unfold matchesOf.
      intros Hin. apply list_elem_of_fmap in Hin as [rule [Heq Hin]].
      apply list_elem_of_filter in Hin as [Hm Hin].
      apply (Hno rule Hin Hm). right.
      apply (f_equal RuleMatch.ruleId) in Heq. simpl in Heq. by rewrite <- Heq.
    + rewrite analyzeElement_run. simpl. unfold fuse.
      destruct (_ || _); [| exact I]. simpl.
      rewrite generateRecommendations_neutral.
      unfold ruleResultsOf. rewrite Henabled, Hrules. unfold matchesOf.
      rewrite <- list_fmap_compose. intros Hin.
      apply list_elem_of_fmap in Hin as [rule [Heq Hin]].
      apply list_elem_of_filter in Hin as [Hm Hin].
      apply (Hno rule Hin Hm). left. simpl in Heq. by rewrite <- Heq.
Qed.

(** The amended scenario on the standard engine. *)
Lemma C3_scenario_amended_witness :
  RuleSet.rules (rules (this freshWorld)) = RuleSet.rules DarkPatternRules
  /\ truthy (prop (config (this freshWorld)) "enableRuleBased") = true
  /\ scenario1 freshWorld (withText "No thanks, I hate savings" (button ""))
  /\ (toMatch confirmshaming
       ∉ fst (applyRules (withText "No thanks, I hate saving money" (button ""))
                freshWorld)).
Proof.
  assert (H1 : RuleSet.rules (rules (this freshWorld))
               = RuleSet.rules DarkPatternRules) by reflexivity.
  assert (H2 : truthy (prop (config (this freshWorld)) "enableRuleBased") = true)
    by (vm_compute; reflexivity).
  split; [exact H1 |]. split; [exact H2 |].
  destruct (C3_scenario_amended freshWorld (button "") H1 H2) as [Hs [Hn _]].
  split; [exact Hs | exact Hn].
Defined.

(** ** The scan *)

Definition analysisOf (d : DarkPatternDetector.t) (element : Element) : Analysis :=
  fuse element (ruleResultsOf d element) (aiResultOf d element).

(** The detections of a list of candidates, in order. *)
Definition detectionsOf (d : DarkPatternDetector.t) (es : list Element)
    : list Detection.t :=
  omap (fun element =>
          match analysisOf d element with
          | Detected r => Some r
          | NotDetected => None
          end) es.

Definition withResults (l : list Detection.t) (d : DarkPatternDetector.t)
    : DarkPatternDetector.t :=
  {| aiDetector := aiDetector d; rules := rules d;
     detectionResults := l; config := config d |}.

Definition scanWarnings (d : DarkPatternDetector.t) (es : list Element)
    : list Warning :=
  flat_map (analysisWarnings d) es.

Lemma setDetectionResults_run (l : list Detection.t) (w : World) :
  setDetectionResults l w =
  (tt, {| this := withResults l (this w); console := console w |}).
Proof. reflexivity. Qed.

Lemma scanLoop_run (es : list Element) (w : World) :
  scanLoop es w =
  (tt, {| this := withResults
                    (detectionResults (this w) ++ detectionsOf (this w) es)
                    (this w);
          console := console w ++ scanWarnings (this w) es |}).
Proof.
  revert w. induction es as [|e es IH]; intros [d c].
  - simpl. unfold ret. destruct d. unfold withResults. simpl.
    by rewrite !app_nil_r.
  - cbn [scanLoop]. unfold bind at 1. rewrite analyzeElement_run.
    cbn [this]. fold (analysisOf d e).
    unfold detectionsOf. cbn [omap list_omap]. fold (detectionsOf d es).
    unfold scanWarnings. cbn [flat_map]. fold (scanWarnings d es).
    destruct (analysisOf d e) as [|r]; unfold bind.
    + unfold ret at 1. rewrite IH. cbn [this console logged].
      by rewrite <- app_assoc.
    + unfold getThis at 1. rewrite setDetectionResults_run, IH.
      cbn [this console logged]. unfold withResults. cbn.
      by rewrite <- !app_assoc.
Qed.

(** The body of [generateSummary] on an engine. *)
Definition summaryOf (d : DarkPatternDetector.t) : Summary.t :=
  let counts :=
    fold_left countResult (detectionResults d)
      ({| BySeverity.high := 0; BySeverity.medium := 0; BySeverity.low := 0 |}, []) in
  {| Summary.totalDetections := List.length (detectionResults d);
     Summary.bySeverity := fst counts;
     Summary.byCategory := snd counts;
     Summary.topIssues :=
       map (fun entry => {|
              Issue.category := fst entry;
              Issue.count := snd entry;
              Issue.categoryName :=
                displayName (RuleSet.categories (rules d)) (fst entry)
            |}) (take 5 (sortDesc (snd counts))) |}.

Lemma generateSummary_run (w : World) :
  generateSummary w = (summaryOf (this w), w).
Proof.
  unfold generateSummary, summaryOf, bind, getThis.
  destruct (fold_left countResult _ _). reflexivity.
Qed.

Lemma scanPage_run (es : list Element) (w : World) :
  scanPage es w =
  ({| Report.totalElements := List.length es;
      Report.detections := detectionsOf (this w) es;
      Report.summary := summaryOf (withResults (detectionsOf (this w) es) (this w)) |},
   {| this := withResults (detectionsOf (this w) es) (this w);
      console := console w ++ scanWarnings (this w) es |}).
Proof.
  unfold scanPage, bind. rewrite setDetectionResults_run, scanLoop_run.
  rewrite generateSummary_run. reflexivity.
Qed.

(** ** The summary *)

Definition countSeverity (severity : string) (ds : list Detection.t) : nat :=
  List.length (filter (fun d => Detection.severity d = severity) ds).

Definition countCategory (category : string) (ms : list RuleMatch.t) : nat :=
  List.length (filter (fun m => RuleMatch.category m = category) ms).

(** Decreasing count. *)
Definition byCountDesc (a b : string * nat) : Prop := (snd b <= snd a)%nat.

Lemma fold_countResult (ds : list Detection.t) (c : BySeverity.t)
    (m : list (string * nat)) :
  fold_left countResult ds (c, m) =
  (fold_left (fun c d => incrSeverity (Detection.severity d) c) ds c,
   fold_left (fun m x => incrCategory (RuleMatch.category x) m)
             (flat_map Detection.ruleMatches ds) m).
Proof.
  revert c m. induction ds as [|d ds IH]; intros c m; simpl; [reflexivity |].
  unfold countResult at 2. simpl. rewrite IH. by rewrite fold_left_app.
Qed.

Lemma fold_incrSeverity (ds : list Detection.t) (c : BySeverity.t) :
  let c' := fold_left (fun c d => incrSeverity (Detection.severity d) c) ds c in
  BySeverity.high c' = (BySeverity.high c + countSeverity "high" ds)%nat
  /\ BySeverity.medium c' = (BySeverity.medium c + countSeverity "medium" ds)%nat
  /\ BySeverity.low c' = (BySeverity.low c + countSeverity "low" ds)%nat.
Proof.
  revert c. induction ds as [|d ds IH]; intros c; simpl.
  - unfold countSeverity. simpl. lia.
  - specialize (IH (incrSeverity (Detection.severity d) c)). simpl in IH.
    destruct IH as (Hh & Hm & Hl). rewrite Hh, Hm, Hl.
    unfold countSeverity. rewrite !filter_cons. unfold incrSeverity.
    destruct (String.eqb_spec (Detection.severity d) "high") as [-> | Hnh].
    { simpl. repeat split; lia. }
    destruct (String.eqb_spec (Detection.severity d) "medium") as [-> | Hnm].
    { simpl. repeat split; lia. }
    destruct (String.eqb_spec (Detection.severity d) "low") as [-> | Hnl].
    { simpl. repeat split; lia. }
    rewrite !decide_False by assumption. repeat split; lia.
Qed.

Lemma countSeverity_total (ds : list Detection.t) :
  Forall (fun d => validSeverity (Detection.severity d)) ds ->
  (countSeverity "high" ds + countSeverity "medium" ds + countSeverity "low" ds
   = List.length ds)%nat.
Proof.
  unfold countSeverity. induction 1 as [|d ds Hd _ IH]; [reflexivity |].
  rewrite !filter_cons.
  destruct Hd as [-> | [-> | ->]]; simpl; lia.
Qed.

Lemma detectionsOf_valid (d : DarkPatternDetector.t) (es : list Element) :
  Forall (fun r => validSeverity (Detection.severity r)) (detectionsOf d es).
Proof.
  unfold detectionsOf. apply Forall_forall. intros r Hr.
  apply list_elem_of_omap in Hr as [e [_ He]].
  unfold analysisOf, fuse in He.
  destruct (_ || _); [| discriminate].
  injection He as <-. simpl. apply determineSeverity_valid.
Qed.

Lemma lookupKey_incrCategory (c c' : string) (m : list (string * nat)) :
  lookupKey c (incrCategory c' m) =
  if String.eqb c' c then Some (S (default 0%nat (lookupKey c m)))
  else lookupKey c m.
Proof.
  induction m as [|[k n] m IH]; simpl.
  - destruct (String.eqb c' c); reflexivity.
  - destruct (String.eqb_spec k c') as [-> | Hk]; simpl.
    + destruct (String.eqb c' c); reflexivity.
    + rewrite IH.
      destruct (String.eqb_spec k c) as [-> | Hkc]; [| reflexivity].
      destruct (String.eqb_spec c' c) as [-> | _]; [done | reflexivity].
Qed.

Lemma fold_incrCategory_count (c : string) (ms : list RuleMatch.t)
    (m : list (string * nat)) :
  default 0%nat
    (lookupKey c (fold_left (fun m x => incrCategory (RuleMatch.category x) m) ms m))
  = (default 0%nat (lookupKey c m) + countCategory c ms)%nat.
Proof.
  revert m. unfold countCategory.
  induction ms as [|x ms IH]; intros m; simpl; [lia |].
  rewrite IH, lookupKey_incrCategory, filter_cons.
  destruct (String.eqb_spec (RuleMatch.category x) c) as [Heq | Hne].
  - rewrite decide_True by assumption. simpl. lia.
  - rewrite decide_False by assumption. lia.
Qed.

Lemma incrCategory_keys (c : string) (m : list (string * nat)) :
  map fst (incrCategory c m) =
  if bool_decide (c ∈ map fst m) then map fst m else map fst m ++ [c].
Proof.
  induction m as [|[k n] m IH]; simpl; [reflexivity |].
  destruct (String.eqb_spec k c) as [-> | Hk]; simpl.
  - rewrite bool_decide_eq_true_2 by left. reflexivity.
  - rewrite IH. case_bool_decide as Hin.
    + rewrite bool_decide_eq_true_2 by (by right). reflexivity.
    + rewrite bool_decide_eq_false_2; [reflexivity |].
      rewrite elem_of_cons. intros [-> | ?]; contradiction.
Qed.

Lemma fold_incrCategory_NoDup (ms : list RuleMatch.t) (m : list (string * nat)) :
  NoDup (map fst m) ->
  NoDup (map fst (fold_left (fun m x => incrCategory (RuleMatch.category x) m) ms m)).
Proof.
  revert m. induction ms as [|x ms IH]; intros m Hnd; simpl; [assumption |].
  apply IH. rewrite incrCategory_keys. case_bool_decide as Hin; [assumption |].
  apply NoDup_app. split; [assumption |]. split.
  - intros y Hy Hy'. apply list_elem_of_singleton in Hy'. by subst.
  - apply NoDup_singleton.
Qed.

Lemma insertDesc_perm (x : string * nat) (l : list (string * nat)) :
  insertDesc x l ≡ₚ x :: l.
Proof.
  induction l as [|y l IH]; simpl; [reflexivity |].
  destruct (snd x <? snd y)%nat; [| reflexivity].
  rewrite IH. apply Permutation_swap.
Qed.

Lemma sortDesc_perm (l : list (string * nat)) : sortDesc l ≡ₚ l.
Proof.
  induction l as [|x l IH]; simpl; [reflexivity |].
  by rewrite insertDesc_perm, IH.
Qed.

Lemma insertDesc_sorted (x : string * nat) (l : list (string * nat)) :
  StronglySorted byCountDesc l -> StronglySorted byCountDesc (insertDesc x l).
Proof.
  induction 1 as [|y l Hs IH Hy]; simpl.
  - repeat constructor.
  - destruct (Nat.ltb_spec (snd x) (snd y)) as [Hlt | Hge].
    + constructor; [assumption |].
      rewrite insertDesc_perm. constructor; [| assumption].
      unfold byCountDesc. lia.
    + constructor; [by constructor |].
      constructor; [unfold byCountDesc; lia |].
      eapply Forall_impl; [exact Hy |]. unfold byCountDesc. simpl. lia.
Qed.

Lemma sortDesc_sorted (l : list (string * nat)) :
  StronglySorted byCountDesc (sortDesc l).
Proof.
  induction l as [|x l IH]; simpl; [constructor | by apply insertDesc_sorted].
Qed.

(** C6. In the summary of a scan every detection is counted under exactly
    one severity; the category counts are the numbers of rule matches per
    category over the detections (a detection without rule match adds to a
    severity count and to no category count); the top issues are the five
    categories of highest count, fewer when there are fewer categories, in
    decreasing order of count, with display names taken from the category
    table. *)
Theorem C6_scan_summary (allElements : list Element) (w : World) :
  let report := fst (scanPage allElements w) in
  let s := Report.summary report in
  let ds := Report.detections report in
  let matches := flat_map Detection.ruleMatches ds in
  let counts := Summary.bySeverity s in
  let entries :=
    map (fun i => (Issue.category i, Issue.count i)) (Summary.topIssues s) in
  Summary.totalDetections s = List.length ds
  /\ Forall (fun d => validSeverity (Detection.severity d)) ds
  /\ BySeverity.high counts = countSeverity "high" ds
  /\ BySeverity.medium counts = countSeverity "medium" ds
  /\ BySeverity.low counts = countSeverity "low" ds
  /\ (BySeverity.high counts + BySeverity.medium counts + BySeverity.low counts
      = List.length ds)%nat
  /\ (forall c : string,
        default 0%nat (lookupKey c (Summary.byCategory s)) = countCategory c matches)
  /\ NoDup (map fst (Summary.byCategory s))
  /\ (exists rest,
        entries ++ rest ≡ₚ Summary.byCategory s
        /\ StronglySorted byCountDesc (entries ++ rest)
        /\ List.length entries = min 5 (List.length (Summary.byCategory s)))
  /\ Forall (fun i => Issue.categoryName i =
                        displayName (RuleSet.categories (rules (this w)))
                                    (Issue.category i))
            (Summary.topIssues s)
  /\ Forall (fun kv => displayName (RuleSet.categories DarkPatternRules) (fst kv)
                       = snd kv)
            (RuleSet.categories DarkPatternRules).
Proof.
  cbv zeta. rewrite scanPage_run. cbn [fst].
  cbn [Report.summary Report.detections].
  set (d := this w). set (ds := detectionsOf d allElements).
  unfold summaryOf. cbn [detectionResults withResults rules].
  rewrite fold_countResult.
  cbn [Summary.totalDetections Summary.bySeverity Summary.byCategory
       Summary.topIssues fst snd].
  set (byCat := fold_left _ (flat_map Detection.ruleMatches ds) []).
  pose proof (detectionsOf_valid d allElements) as Hvalid. fold ds in Hvalid.
  destruct (fold_incrSeverity ds
              {| BySeverity.high := 0; BySeverity.medium := 0; BySeverity.low := 0 |})
    as (Hh & Hm & Hl).
  cbn [BySeverity.high BySeverity.medium BySeverity.low] in Hh, Hm, Hl.
  cbn zeta in Hh, Hm, Hl. rewrite Nat.add_0_l in Hh, Hm, Hl.
  split; [reflexivity |]. split; [assumption |].
  split; [assumption |]. split; [assumption |]. split; [assumption |].
  split; [rewrite Hh, Hm, Hl; by apply countSeverity_total |].
  split; [intros c; unfold byCat; by rewrite fold_incrCategory_count |].
  split; [unfold byCat; apply fold_incrCategory_NoDup; constructor |].
  split; [| split].
  - exists (drop 5 (sortDesc byCat)).
    rewrite <- list_fmap_compose.
    assert (Hid : forall l : list (string * nat),
              (fun i => (Issue.category i, Issue.count i))
              ∘ (fun entry => {|
                   Issue.category := fst entry; Issue.count := snd entry;
                   Issue.categoryName :=
                     displayName (RuleSet.categories (rules d)) (fst entry) |})
              <$> l = l).
    { intros l. induction l as [|[k n] l IH]; [reflexivity |].
      cbn. f_equal. exact IH. }
    rewrite Hid, take_drop.
    split; [apply sortDesc_perm |]. split; [apply sortDesc_sorted |].
    rewrite length_take. by rewrite (Permutation_length (sortDesc_perm byCat)).
  - apply Forall_fmap, Forall_forall. intros entry _. reflexivity.
  - repeat constructor.
Qed.

(** ** Exceptions of structural predicates *)

(** The [console.warn] line of a rule whose predicate threw [err]. *)
Definition ruleWarning (rule : Rule.t) (err : string) : Warning :=
  {| message := String.append "Error checking rule " (String.append (Rule.id rule) ":");
     error := err |}.

(** What claim C7 says of a rule set [pre ++ rule :: post] whose rule
    [rule] throws [err] on the element. *)
Definition exceptionHandled (w : World) (element : Element)
    (pre : list Rule.t) (rule : Rule.t) (post : list Rule.t) (err : string)
    (rest : list Element) : Prop :=
  (* the rule is a non-match, after a warning *)
  matchRule rule element w = (false, logged [ruleWarning rule err] w)
  (* the other rules are evaluated as usual, before and after it *)
  /\ fst (applyRules element w) = matchesOf pre element ++ matchesOf post element
  /\ console (snd (applyRules element w)) =
       console w ++ warningsOfAll pre element ++ [ruleWarning rule err]
       ++ warningsOfAll post element
  /\ this (snd (applyRules element w)) = this w
  (* the analysis of the element is the one of the engine without the rule *)
  /\ fst (analyzeElement element w) =
       fst (analyzeElement element (withRules (pre ++ post) w))
  (* and a scan goes on with the remaining candidates *)
  /\ Report.totalElements (fst (scanPage (element :: rest) w)) = S (List.length rest)
  /\ Report.detections (fst (scanPage (element :: rest) w)) =
       detectionsOf (this w) [element] ++ detectionsOf (this w) rest.

Lemma predicateThrows_run (rule : Rule.t) (element : Element) (err : string) :
  predicateThrows rule element err ->
  isMatch rule element = false /\ warningsOf rule element = [ruleWarning rule err].
Proof.
  intros [Ht [check [Hc He]]]. unfold isMatch, warningsOf.
  rewrite Ht, Hc, He. split; reflexivity.
Qed.

Lemma detectionsOf_app (d : DarkPatternDetector.t) (es1 es2 : list Element) :
  detectionsOf d (es1 ++ es2) = detectionsOf d es1 ++ detectionsOf d es2.
Proof. unfold detectionsOf. apply omap_app. Qed.

(** C7. When the structural predicate of a rule throws on an element, the
    rule is a non-match and a warning is logged; rule evaluation goes on
    with the remaining rules; neither the analysis of the element nor the
    scan is aborted. *)
Theorem C7_predicate_exception (w : World) (element : Element)
    (pre : list Rule.t) (rule : Rule.t) (post : list Rule.t) (err : string)
    (rest : list Element) :
  RuleSet.rules (rules (this w)) = pre ++ rule :: post ->
  predicateThrows rule element err ->
  exceptionHandled w element pre rule post err rest.
Proof.
  intros Hrules Hthrow.
  destruct (predicateThrows_run rule element err Hthrow) as [Hm Hw].
  assert (Hmatches : matchesOf (pre ++ rule :: post) element
                     = matchesOf (pre ++ post) element).
  { rewrite !matchesOf_app. f_equal. unfold matchesOf.
    rewrite filter_cons, decide_False; [reflexivity |]. by rewrite Hm. }
  unfold exceptionHandled. rewrite applyRules_run, Hrules. cbn [fst snd].
  split; [| split; [| split; [| split; [| split; [| split]]]]].
  - by rewrite matchRule_run, Hm, Hw.
  - by rewrite Hmatches, matchesOf_app.
  - unfold logged. cbn [console]. rewrite warningsOfAll_app. f_equal. f_equal.
    unfold warningsOfAll at 1. cbn [flat_map]. by rewrite Hw.
  - reflexivity.
  - rewrite !analyzeElement_run. cbn [fst].
    unfold ruleResultsOf, aiResultOf, withRules. cbn [this config rules aiDetector RuleSet.rules].
    by rewrite Hrules, Hmatches.
  - by rewrite scanPage_run.
  - rewrite scanPage_run. cbn [fst Report.detections].
    apply (detectionsOf_app (this w) [element] rest).
Qed.

Definition brokenWorld : World :=
  withRules [urgencyCountdown; brokenRule; confirmshaming] freshWorld.

(** C7 on an engine with a custom rule whose predicate throws. *)
Lemma C7_predicate_exception_witness :
  let element := button "No thanks, I hate savings" in
  predicateThrows brokenRule element "TypeError"
  /\ exceptionHandled brokenWorld element [urgencyCountdown] brokenRule
       [confirmshaming] "TypeError" [button "Hurry, only 3 left!"]
  /\ fst (applyRules element brokenWorld) = [toMatch confirmshaming]
  /\ console (snd (applyRules element brokenWorld)) =
       [ruleWarning brokenRule "TypeError"].
Proof.
  intros element.
  assert (Ht : predicateThrows brokenRule element "TypeError").
  { split; [reflexivity |]. eexists. split; reflexivity. }
  split; [exact Ht |]. split.
  - exact (C7_predicate_exception brokenWorld element [urgencyCountdown] brokenRule
             [confirmshaming] "TypeError" [button "Hurry, only 3 left!"]
             eq_refl Ht).
  - split; vm_compute; reflexivity.
Defined.

(** ** Repeated analysis *)

Definition severityOf (a : Analysis) : option string :=
  match a with Detected r => Some (Detection.severity r) | NotDetected => None end.

Definition confidenceOf (a : Analysis) : option Q :=
  match a with Detected r => Some (Detection.confidence r) | NotDetected => None end.

(** C8. Analysing the same element twice, with the engine untouched in
    between, gives the same [detected], severity and confidence: the
    analysis leaves the engine (configuration, rules, results, threshold) as
    it found it, and its result is a function of the engine and of the
    element. *)
Theorem C8_analyze_twice (w : World) (element : Element) :
  let first := analyzeElement element w in
  let second := analyzeElement element (snd first) in
  this (snd first) = this w
  /\ this (snd second) = this w
  /\ fst second = fst first
  /\ detected (fst second) = detected (fst first)
  /\ severityOf (fst second) = severityOf (fst first)
  /\ confidenceOf (fst second) = confidenceOf (fst first).
Proof.
  cbv zeta. rewrite !analyzeElement_run. cbn [fst snd logged this].
  repeat split.
Qed.

(** ** Configuration *)

(** C10. [setConfig] merges the partial configuration into the current
    one: a key of the argument takes the argument's value, every other key
    keeps its value; rules, results, the heuristic detector and the console
    are left as they are. *)
Theorem C10_setConfig_frame (newConfig : gmap string JSValue) (w : World) :
  let w' := snd (setConfig newConfig w) in
  (forall key : string,
     config (this w') !! key =
     match newConfig !! key with
     | Some v => Some v
     | None => config (this w) !! key
     end)
  /\ rules (this w') = rules (this w)
  /\ detectionResults (this w') = detectionResults (this w)
  /\ aiDetector (this w') = aiDetector (this w)
  /\ console w' = console w.
Proof.
  cbv zeta. unfold setConfig, bind, getThis, setThis. cbn.
  split; [| repeat split].
  intros key. rewrite lookup_union.
  destruct (newConfig !! key), (config (this w) !! key); reflexivity.
Qed.

(** ** Examples *)

(** [<a onclick=...>Read more</a>] at opacity 0.3. *)
Definition fadedLink : Element := {|
  tagName := "A"; textContent := "Read more"; className := "";
  attributes := ["onclick"]; href := None; inputType := ""; checked := false;
  labelText := None; styleCursor := ""; stylePointerEvents := "";
  computedStyle := {| opacity := Some 0.3%Q; fontSize := Some 16%Q;
                      color := "rgb(0, 0, 0)";
                      backgroundColor := "rgb(255, 255, 255)";
                      zIndex := None; position := "static" |};
  querySelector := fun _ => false; checkableInputs := [];
  ancestorClassNames := []
|}.

Example regexp_examples :
  RegExp.test (RegExp.i (seq [lit "i"; ws; lit "hate"])) "No thanks, I hate it" = true
  /\ RegExp.test (RegExp.i (seq [lit "no"; opt (lit ","); ws; lit "i"]))
       "No thanks, I hate it" = false
  /\ RegExp.test (RegExp.cs (seq [num; lit ":"; num])) "ends in 12:30" = true
  /\ RegExp.test (RegExp.i (seq [lit "free"; any; lit "trial"]))
       "FREE 30-day Trial" = true
  /\ includes "tracker/ad" "ad" = true
  /\ trim "  a b  " = "a b"
  /\ toLowerCase "No Thanks" = "no thanks".
Proof. vm_compute. repeat split. Qed.

(** A heuristic-only detection: no rule matches, the low-opacity condition
    triggers alone, and the fused confidence is 0.4 * 0.85. *)
Example heuristic_only :
  match fst (analyzeElement fadedLink freshWorld) with
  | Detected r =>
      Detection.ruleMatches r = []
      /\ option_map AIDetector.Result.detectedPatterns (Detection.aiDetection r)
         = Some ["visual-obstruction"]
      /\ (Detection.confidence r == 0.34)%Q
      /\ Detection.severity r = "high"
  | NotDetected => False
  end.
Proof. vm_compute. repeat split. Qed.

(** Rule and heuristic together: 0.6 * 0.9 + 0.4 * 0.7. *)
Example rules_and_heuristic :
  match fst (analyzeElement (button "Hurry, only 3 left!") freshWorld) with
  | Detected r =>
      map RuleMatch.ruleId (Detection.ruleMatches r)
        = ["urgency-countdown"; "scarcity-stock"]
      /\ (Detection.confidence r == 0.82)%Q
      /\ Detection.severity r = "high"
  | NotDetected => False
  end.
Proof. vm_compute. repeat split. Qed.

(** A scan of four candidates, one of them clean. *)
Example scan_example :
  let report :=
    fst (scanPage [fadedLink; button "Hurry, only 3 left!";
                   button "No thanks, I hate savings"; button "OK"] freshWorld) in
  Report.totalElements report = 4%nat
  /\ Summary.totalDetections (Report.summary report) = 3%nat
  /\ Summary.bySeverity (Report.summary report)
     = {| BySeverity.high := 2; BySeverity.medium := 1; BySeverity.low := 0 |}
  /\ Summary.byCategory (Report.summary report)
     = [("URGENCY", 2%nat); ("CONFIRMSHAMING", 1%nat)]
  /\ map Issue.categoryName (Summary.topIssues (Report.summary report))
     = ["Urgency & Scarcity"; "Confirmshaming"].
Proof. vm_compute. repeat split. Qed.

(** * Further properties of the code *)

(** ** The suspicion threshold *)

Lemma Qclamp_spec (lo hi x : Q) :
  (lo <= hi)%Q ->
  (lo <= Qmax lo (Qmin hi x) <= hi)%Q
  /\ ((lo <= x <= hi)%Q -> Qmax lo (Qmin hi x) == x)
  /\ ((x <= lo)%Q -> Qmax lo (Qmin hi x) == lo)
  /\ ((hi <= x)%Q -> Qmax lo (Qmin hi x) == hi).
Proof.
  intros Hle.
  destruct (Q.min_spec hi x) as [[H1 E1] | [H1 E1]];
    destruct (Q.max_spec lo (Qmin hi x)) as [[H2 E2] | [H2 E2]];
    rewrite E1 in *; rewrite E2; repeat split; intros; lra.
Qed.

(** X1. [setSuspicionThreshold] stores a value of [[0, 1]]: the argument itself
    when it lies there, the nearer bound otherwise; setting the stored value
    again changes nothing. *)
Theorem X1_threshold_clamped (threshold : Q) (d : AIDetector.t) :
  let stored :=
    AIDetector.suspicionThreshold (AIDetector.setSuspicionThreshold threshold d) in
  (0 <= stored <= 1)%Q
  /\ (stored == if Qltb threshold 0 then 0
                else if Qltb 1 threshold then 1 else threshold)%Q
  /\ (AIDetector.suspicionThreshold
        (AIDetector.setSuspicionThreshold stored
           (AIDetector.setSuspicionThreshold threshold d)) == stored)%Q.
Proof.
  cbv zeta. cbn [AIDetector.setSuspicionThreshold AIDetector.suspicionThreshold].
  destruct (Qclamp_spec 0 1 threshold) as (Hr & Hin & Hlo & Hhi); [lra |].
  split; [exact Hr |]. split.
  - destruct (Qltb threshold 0) eqn:H0.
    + apply Qltb_lt in H0. apply Hlo. lra.
    + assert (0 <= threshold)%Q.
      { apply Qnot_lt_le. intros H. apply Qltb_lt in H. congruence. }
      destruct (Qltb 1 threshold) eqn:H1.
      * apply Qltb_lt in H1. apply Hhi. lra.
      * assert (threshold <= 1)%Q.
        { apply Qnot_lt_le. intros H'. apply Qltb_lt in H'. congruence. }
        apply Hin. lra.
  - destruct (Qclamp_spec 0 1 (Qmax 0 (Qmin 1 threshold))) as (_ & Hin' & _);
      [lra |].
    apply Hin'. exact Hr.
Qed.

(** The floor of the aggregate confidence: 0 when no condition triggers, at
    least 0.6 and at most 0.9 otherwise. *)
Lemma confidence_floor (f : Features.t) :
  match triggered f with
  | [] => AIDetector.Predictions.confidence (AIDetector.makePredictions f) = 0%Q
  | _ :: _ =>
      (0.6 <= AIDetector.Predictions.confidence (AIDetector.makePredictions f)
       <= 0.9)%Q
  end.
Proof.
  rewrite makePredictions_confidence.
  pose proof (triggered_scores f) as Hs.
  destruct (triggered f) as [|c l]; [reflexivity |].
  destruct (mean_bounds 0.6 0.9 (map score (c :: l))); [done | assumption |].
  split; assumption.
Qed.

Definition aiEnabled (w : World) : bool :=
  truthy (prop (config (this w)) "enableAIBased").

Definition rulesEnabled (w : World) : bool :=
  truthy (prop (config (this w)) "enableRuleBased").

Definition thresholdOf (w : World) : Q :=
  AIDetector.suspicionThreshold (aiDetector (this w)).

(** The world after [this.aiDetector.setSuspicionThreshold(threshold)]. *)
Definition withThreshold (threshold : Q) (w : World) : World := {|
  this := {| aiDetector :=
               AIDetector.setSuspicionThreshold threshold (aiDetector (this w));
             rules := rules (this w);
             detectionResults := detectionResults (this w);
             config := config (this w) |};
  console := console w
|}.

Lemma aiResultOf_enabled (w : World) (element : Element) :
  aiEnabled w = true ->
  aiResultOf (this w) element =
  Some (AIDetector.detect (aiDetector (this w)) element).
Proof. unfold aiEnabled, aiResultOf. by intros ->. Qed.

Lemma detect_positive (d : AIDetector.t) (element : Element) :
  AIDetector.Result.isDarkPattern (AIDetector.detect d element) =
  Qle_bool (AIDetector.suspicionThreshold d)
    (AIDetector.Predictions.confidence
       (AIDetector.makePredictions (AIDetector.extractFeatures element))).
Proof. reflexivity. Qed.

Lemma detect_confidence (d : AIDetector.t) (element : Element) :
  AIDetector.Result.confidence (AIDetector.detect d element) =
  AIDetector.Predictions.confidence
    (AIDetector.makePredictions (AIDetector.extractFeatures element)).
Proof. reflexivity. Qed.

(** X2. With the heuristic detector enabled and a threshold of 0 or below (as
    stored by [setSuspicionThreshold] for any argument that is not
    positive), every analysed element is a detection, whatever it looks
    like: a confidence of 0 already reaches the threshold. *)
Theorem X2_zero_threshold_detects_all (w : World) (element : Element) :
  aiEnabled w = true ->
  (thresholdOf w <= 0)%Q ->
  detected (fst (analyzeElement element w)) = true.
Proof.
  intros Hai Hthr. rewrite analyzeElement_run. cbn [fst]. unfold fuse.
  rewrite (aiResultOf_enabled w element Hai). cbn [aiPositive].
  rewrite detect_positive.
  pose proof (makePredictions_confidence_bounds
                (AIDetector.extractFeatures element)) as [Hlo _].
  assert (Hp : Qle_bool (AIDetector.suspicionThreshold (aiDetector (this w)))
                 (AIDetector.Predictions.confidence
                    (AIDetector.makePredictions
                       (AIDetector.extractFeatures element))) = true).
  { apply Qle_bool_iff. unfold thresholdOf in Hthr. lra. }
  rewrite Hp, orb_true_r. reflexivity.
Qed.

(** A clean button is reported once the threshold is set to a negative
    value, with fused confidence 0. *)
Lemma X2_zero_threshold_detects_all_witness :
  aiEnabled (withThreshold (-1) freshWorld) = true
  /\ (thresholdOf (withThreshold (-1) freshWorld) <= 0)%Q
  /\ detected (fst (analyzeElement (button "OK") freshWorld)) = false
  /\ detected (fst (analyzeElement (button "OK") (withThreshold (-1) freshWorld)))
     = true
  /\ match confidenceOf (fst (analyzeElement (button "OK")
                                (withThreshold (-1) freshWorld))) with
     | Some c => (c == 0)%Q
     | None => False
     end.
Proof.
  assert (H1 : aiEnabled (withThreshold (-1) freshWorld) = true)
    by (vm_compute; reflexivity).
  assert (H2 : (thresholdOf (withThreshold (-1) freshWorld) <= 0)%Q)
    by (vm_compute; discriminate).
  split; [exact H1 |]. split; [exact H2 |].
  split; [vm_compute; reflexivity |].
  split; [exact (X2_zero_threshold_detects_all _ (button "OK") H1 H2) |].
  vm_compute. reflexivity.
Defined.



(** ** The sentiment score *)

(** The phrase bank of [calculateSentiment]. *)
Definition sentimentPatterns : list RegExp.t := [
  RegExp.i (seq [dont; lit " miss"]); RegExp.i (lit "lose out");
  RegExp.i (lit "regret"); RegExp.i (lit "mistake");
  RegExp.i (lit "foolish"); RegExp.i (lit "stupid"); RegExp.i (lit "hate")
].

(** The number of patterns of a bank found in a text. *)
Definition countMatching (ps : list RegExp.t) (s : string) : nat :=
  List.length (filter (fun p => RegExp.test p s = true) ps).

Lemma fold_sentiment (ps : list RegExp.t) (s : string) (a : Q) :
  (fold_left (fun (score : Q) pattern =>
                if RegExp.test pattern s then (score - 0.2)%Q else score) ps a
   == a - 0.2 * lengthQ (filter (fun p => RegExp.test p s = true) ps))%Q.
Proof.
  revert a. induction ps as [|p ps IH]; intros a; cbn [fold_left].
  - change (lengthQ (filter _ [])) with 0%Q. ring.
  - rewrite IH, filter_cons. destruct (RegExp.test p s).
    + rewrite decide_True by done. rewrite lengthQ_cons. ring.
    + rewrite decide_False by done. reflexivity.
Qed.

Lemma lengthQ_le {A : Type} (l : list A) (n : nat) :
  (n <= List.length l)%nat -> (inject_Z (Z.of_nat n) <= lengthQ l)%Q.
Proof. intros H. unfold lengthQ. rewrite <- Zle_Qle. lia. Qed.

Lemma lengthQ_ge {A : Type} (l : list A) (n : nat) :
  (List.length l <= n)%nat -> (lengthQ l <= inject_Z (Z.of_nat n))%Q.
Proof. intros H. unfold lengthQ. rewrite <- Zle_Qle. lia. Qed.

(** X4. The sentiment score is minus 0.2 per phrase of the bank found in the
    text, not below -1; it is never positive, and it is below -0.3 exactly
    when at least two phrases are found.  Hence the manipulative-language
    condition of the scorer needs negative language and two such phrases. *)
Theorem X4_sentiment_score :
  (forall s : string,
     let score := AIDetector.calculateSentiment s in
     (score == Qmax (-1) (- (0.2) * lengthQ (filter (fun p => RegExp.test p s = true)
                                                  sentimentPatterns)))%Q
     /\ (-1 <= score <= 0)%Q
     /\ Qltb score (-0.3) = (2 <=? countMatching sentimentPatterns s)%nat)
  /\ (forall element : Element,
        let normalizedText := trim (toLowerCase (textContent element)) in
        existsb (fun c => String.eqb (patternName c) "manipulative-language")
                (triggered (AIDetector.extractFeatures element))
        = AIDetector.hasNegativeLanguage normalizedText
          && (2 <=? countMatching sentimentPatterns normalizedText)%nat).
Proof.
  assert (Hscore : forall s : string,
            let score := AIDetector.calculateSentiment s in
            (score == Qmax (-1) (- (0.2) * lengthQ (filter (fun p => RegExp.test p s = true)
                                                         sentimentPatterns)))%Q
            /\ (-1 <= score <= 0)%Q
            /\ Qltb score (-0.3) = (2 <=? countMatching sentimentPatterns s)%nat).
  { intros s score.
    set (n := lengthQ (filter (fun p => RegExp.test p s = true) sentimentPatterns)).
    assert (Hn0 : (0 <= n)%Q) by apply lengthQ_nonneg.
    assert (Hfold : (score == Qmax (-1) (Qmin 1 (0 - 0.2 * n)))%Q).
    { unfold score, AIDetector.calculateSentiment. cbv zeta.
      fold sentimentPatterns. rewrite fold_sentiment. reflexivity. }
    assert (Hmin : (Qmin 1 (0 - 0.2 * n) == - (0.2) * n)%Q).
    { destruct (Q.min_spec 1 (0 - 0.2 * n)) as [[H _] | [_ E]]; [lra |].
      rewrite E. ring. }
    rewrite Hmin in Hfold.
    split; [exact Hfold |].
    destruct (Q.max_spec (-1) (- (0.2) * n)) as [[Hlt E] | [Hle E]];
      rewrite E in Hfold.
    - split; [lra |]. unfold countMatching.
      destruct (Nat.leb_spec 2 (List.length (filter (fun p => RegExp.test p s = true)
                                                sentimentPatterns))) as [H2 | H2].
      + apply Qltb_lt. pose proof (lengthQ_le _ 2 H2) as Hq. fold n in Hq.
        change (inject_Z (Z.of_nat 2)) with 2%Q in Hq. lra.
      + apply not_true_iff_false. rewrite Qltb_lt.
        assert (Hq : (n <= inject_Z (Z.of_nat 1))%Q) by (apply lengthQ_ge; lia).
        change (inject_Z (Z.of_nat 1)) with 1%Q in Hq. lra.
    - split; [lra |]. unfold countMatching.
      destruct (Nat.leb_spec 2 (List.length (filter (fun p => RegExp.test p s = true)
                                                sentimentPatterns))) as [H2 | H2].
      + apply Qltb_lt. lra.
      + exfalso.
        assert (Hq : (n <= inject_Z (Z.of_nat 1))%Q) by (apply lengthQ_ge; lia).
        change (inject_Z (Z.of_nat 1)) with 1%Q in Hq. lra. }
  split; [exact Hscore |].
  intros element normalizedText.
  destruct (Hscore normalizedText) as (_ & _ & Hlt).
  unfold triggered, conditionTable. rewrite filter_cons.
  cbn [holds AIDetector.extractFeatures Features.text
       AIDetector.extractTextFeatures Features.hasNegativeLanguage
       Features.sentimentScore].
  fold normalizedText. rewrite Hlt.
  set (c1 := AIDetector.hasNegativeLanguage normalizedText
             && (2 <=? countMatching sentimentPatterns normalizedText)%nat).
  assert (Hrest : forall l : list Condition,
            Forall (fun c => String.eqb (patternName c) "manipulative-language" = false) l ->
            forall P (HP : forall c, Decision (P c)),
            existsb (fun c => String.eqb (patternName c) "manipulative-language")
                    (filter P l) = false).
  { intros l Hl P HP. induction Hl as [|c l Hc _ IH]; [reflexivity |].
    rewrite filter_cons. destruct (decide (P c)); [| exact IH].
    cbn [existsb]. by rewrite Hc, IH. }
  destruct c1.
  - rewrite decide_True by done. reflexivity.
  - rewrite decide_False by done. apply Hrest.
    repeat constructor.
Qed.

(** ** The contrast ratio *)

(** A computed style with the given foreground and background colours. *)
Definition withColors (fg bg : string) (st : ComputedStyle) : ComputedStyle := {|
  opacity := opacity st; fontSize := fontSize st;
  color := fg; backgroundColor := bg;
  zIndex := zIndex st; position := position st
|}.

Lemma getBrightness_nonneg (c : string) :
  match AIDetector.getBrightness c with
  | Some b => (0 <= b)%Q
  | None => True
  end.
Proof.
  unfold AIDetector.getBrightness.
  destruct (AIDetector.digitRuns None c) as [|r [|g [|b l]]]; try exact I; [lra |].
  assert (Hn : forall n : N, (0 <= AIDetector.ofN n)%Q).
  { intros n. unfold AIDetector.ofN. change 0%Q with (inject_Z 0).
    rewrite <- Zle_Qle. lia. }
  pose proof (Hn r). pose proof (Hn g). pose proof (Hn b).
  apply Qle_shift_div_l; [lra |]. nra.
Qed.

(** X5. The contrast ratio is defined for a colour pair exactly when it is
    defined for the swapped pair, and then both are equal and at least 1;
    a colour against itself has ratio 1.  A colour string without digits
    counts as brightness 128, one with one or two digit groups makes the
    ratio [NaN]. *)
Theorem X5_contrast_ratio (fg bg : string) (st : ComputedStyle) :
  match AIDetector.calculateContrastRatio (withColors fg bg st),
        AIDetector.calculateContrastRatio (withColors bg fg st) with
  | Some r, Some r' => (1 <= r)%Q /\ (r == r')%Q
  | None, None =>
      AIDetector.getBrightness fg = None \/ AIDetector.getBrightness bg = None
  | _, _ => False
  end
  /\ match AIDetector.calculateContrastRatio (withColors fg fg st) with
     | Some r => (r == 1)%Q
     | None => AIDetector.getBrightness fg = None
     end
  /\ (AIDetector.digitRuns None fg = [] ->
      AIDetector.getBrightness fg = Some 128%Q).
Proof.
  unfold AIDetector.calculateContrastRatio. cbn [withColors color backgroundColor].
  pose proof (getBrightness_nonneg fg) as Hfg.
  pose proof (getBrightness_nonneg bg) as Hbg.
  split; [| split].
  - destruct (AIDetector.getBrightness fg) as [f|], (AIDetector.getBrightness bg) as [b|];
      auto.
    assert (Hmax : (Qmax b f == Qmax f b)%Q) by apply Q.max_comm.
    assert (Hmin : (Qmin b f == Qmin f b)%Q) by apply Q.min_comm.
    split.
    + apply Qle_shift_div_l.
      * destruct (Q.min_spec b f) as [[_ E] | [_ E]]; rewrite E; lra.
      * destruct (Q.min_spec b f) as [[? E] | [? E]];
          destruct (Q.max_spec b f) as [[? E'] | [? E']]; rewrite E, E'; lra.
    + by rewrite Hmax, Hmin.
  - destruct (AIDetector.getBrightness fg) as [f|]; [| reflexivity].
    destruct (Q.min_spec f f) as [[? E] | [? E]];
      destruct (Q.max_spec f f) as [[? E'] | [? E']]; rewrite E, E';
      field; lra.
  - intros H. unfold AIDetector.getBrightness. by rewrite H.
Qed.

Lemma X5_contrast_ratio_witness :
  AIDetector.digitRuns None "transparent" = []
  /\ AIDetector.getBrightness "transparent" = Some 128%Q
  /\ AIDetector.getBrightness "rgba(0, 0, 0, 0)" = Some (0 / 1000)%Q
  /\ AIDetector.calculateContrastRatio (withColors "#f0f" "rgb(0, 0, 0)" plainStyle)
     = None.
Proof.
  assert (H : AIDetector.digitRuns None "transparent" = []) by reflexivity.
  split; [exact H |].
  split; [exact (proj2 (proj2 (X5_contrast_ratio "transparent" "" plainStyle)) H) |].
  split; vm_compute; reflexivity.
Defined.

(** ** Overlays *)

Lemma triggered_detected (w : World) (element : Element) :
  aiEnabled w = true ->
  (thresholdOf w <= 0.6)%Q ->
  triggered (AIDetector.extractFeatures element) <> [] ->
  detected (fst (analyzeElement element w)) = true.
Proof.
  intros Hai Hthr Ht. rewrite analyzeElement_run. cbn [fst]. unfold fuse.
  rewrite (aiResultOf_enabled w element Hai). cbn [aiPositive].
  rewrite detect_positive.
  pose proof (confidence_floor (AIDetector.extractFeatures element)) as Hfloor.
  destruct (triggered (AIDetector.extractFeatures element)); [done |].
  cbv beta iota in Hfloor.
  assert (Hp : Qle_bool (AIDetector.suspicionThreshold (aiDetector (this w)))
                 (AIDetector.Predictions.confidence
                    (AIDetector.makePredictions
                       (AIDetector.extractFeatures element))) = true).
  { apply Qle_bool_iff. unfold thresholdOf in Hthr. destruct Hfloor as [Hlo _].
    eapply Qle_trans; [exact Hthr | exact Hlo]. }
  rewrite Hp, orb_true_r. reflexivity.
Qed.

(** The row of the condition table for blocking elements. *)
Definition forcedContinuityRow : Condition := {|
  holds := fun f => Features.blocksUserAction (Features.behavioral f);
  score := 0.9; patternName := "forced-continuity";
  rationale := "Element blocks user from completing desired action"
|}.

(** X6. An overlay (fixed or absolute, z-index above 1000) whose inline
    pointer-events is not 'none' also blocks user action; with the
    heuristic detector enabled and a threshold of at most 0.6 it is
    therefore always detected, with the pattern forced-continuity. *)
Theorem X6_overlay_detected (w : World) (element : Element) :
  aiEnabled w = true ->
  (thresholdOf w <= 0.6)%Q ->
  AIDetector.isOverlay (computedStyle element) = true ->
  stylePointerEvents element <> "none" ->
  AIDetector.blocksUserAction element = true
  /\ "forced-continuity"
       ∈ AIDetector.Result.detectedPatterns
           (AIDetector.detect (aiDetector (this w)) element)
  /\ detected (fst (analyzeElement element w)) = true.
Proof.
  intros Hai Hthr Hov Hpe.
  assert (Hblock : AIDetector.blocksUserAction element = true).
  { unfold AIDetector.isOverlay in Hov. unfold AIDetector.blocksUserAction.
    apply andb_true_iff in Hov as [Hpos Hz]. rewrite Hpos.
    apply String.eqb_neq in Hpe. rewrite Hpe. cbn [negb andb].
    destruct (zIndex (computedStyle element)) as [z|].
    - change (default 0%Z (Some z)) with z in Hz.
      apply Z.ltb_lt in Hz. apply Z.ltb_lt. lia.
    - discriminate Hz. }
  assert (Hrow : forcedContinuityRow ∈ triggered (AIDetector.extractFeatures element)).
  { unfold triggered. apply list_elem_of_filter. split.
    - exact Hblock.
    - unfold conditionTable. do 6 right. left. }
  split; [exact Hblock |]. split.
  - unfold AIDetector.detect. cbn [AIDetector.Result.detectedPatterns].
    unfold AIDetector.makePredictions. rewrite collect_table.
    cbn [AIDetector.Predictions.patterns AIDetector.Triggered.patterns].
    apply uniq_elem.
    change "forced-continuity" with (patternName forcedContinuityRow).
    by apply list_elem_of_fmap_2.
  - apply triggered_detected; [assumption | assumption |].
    intros Hnil. rewrite Hnil in Hrow. by apply elem_of_nil in Hrow.
Qed.

(** A full-page overlay: position fixed, z-index 2000. *)
Definition pageOverlay : Element := {|
  tagName := "DIV"; textContent := "Subscribe to keep reading";
  className := "wall"; attributes := []; href := None; inputType := "";
  checked := false; labelText := None; styleCursor := "";
  stylePointerEvents := "";
  computedStyle := {| opacity := Some 1%Q; fontSize := Some 16%Q;
                      color := "rgb(0, 0, 0)";
                      backgroundColor := "rgb(255, 255, 255)";
                      zIndex := Some 2000%Z; position := "fixed" |};
  querySelector := fun _ => false; checkableInputs := [];
  ancestorClassNames := []
|}.

Lemma X6_overlay_detected_witness :
  aiEnabled freshWorld = true
  /\ (thresholdOf freshWorld <= 0.6)%Q
  /\ AIDetector.isOverlay (computedStyle pageOverlay) = true
  /\ stylePointerEvents pageOverlay <> "none"
  /\ fst (applyRules pageOverlay freshWorld) = []
  /\ detected (fst (analyzeElement pageOverlay freshWorld)) = true.
Proof.
  assert (H1 : aiEnabled freshWorld = true) by (vm_compute; reflexivity).
  assert (H2 : (thresholdOf freshWorld <= 0.6)%Q) by (vm_compute; discriminate).
  assert (H3 : AIDetector.isOverlay (computedStyle pageOverlay) = true)
    by reflexivity.
  assert (H4 : stylePointerEvents pageOverlay <> "none") by discriminate.
  repeat (split; [assumption |]).
  split; [vm_compute; reflexivity |].
  exact (proj2 (proj2 (X6_overlay_detected freshWorld pageOverlay H1 H2 H3 H4))).
Defined.

(** ** The range of the fused confidence *)


(** ** What the configuration does and does not change *)

(** The same engine with another configuration object. *)
Definition withConfig (c : gmap string JSValue) (w : World) : World := {|
  this := {| aiDetector := aiDetector (this w); rules := rules (this w);
             detectionResults := detectionResults (this w); config := c |};
  console := console w
|}.

Lemma setConfig_run (newConfig : gmap string JSValue) (w : World) :
  setConfig newConfig w = (tt, withConfig (newConfig ∪ config (this w)) w).
Proof. reflexivity. Qed.

Lemma analysis_config_flags (w : World) (c : gmap string JSValue)
    (element : Element) :
  truthy (prop c "enableRuleBased") = rulesEnabled w ->
  truthy (prop c "enableAIBased") = aiEnabled w ->
  analysisOf (this (withConfig c w)) element = analysisOf (this w) element
  /\ analysisWarnings (this (withConfig c w)) element
     = analysisWarnings (this w) element.
Proof.
  unfold rulesEnabled, aiEnabled. intros Hr Ha.
  unfold analysisOf, ruleResultsOf, aiResultOf, analysisWarnings, withConfig.
  cbn [this config rules aiDetector]. by rewrite Hr, Ha.
Qed.

Lemma detectionsOf_ext (d1 d2 : DarkPatternDetector.t) (es : list Element) :
  (forall e, analysisOf d1 e = analysisOf d2 e) ->
  detectionsOf d1 es = detectionsOf d2 es.
Proof.
  intros H. unfold detectionsOf. induction es as [|e es IH]; [reflexivity |].
  cbn [omap list_omap]. by rewrite H, IH.
Qed.

(** X8. Setting a configuration key other than [enableRuleBased] and
    [enableAIBased] (such as [minConfidence], [scanDepth] or
    [excludeSelectors]) changes neither the analysis of any element nor the
    report of a scan of a given candidate list: no threshold is applied to
    the detections. *)
Theorem X8_other_keys_ignored (w : World) (key : string) (v : JSValue)
    (element : Element) (allElements : list Element) :
  key <> "enableRuleBased" ->
  key <> "enableAIBased" ->
  let w' := snd (setConfig {[ key := v ]} w) in
  fst (analyzeElement element w') = fst (analyzeElement element w)
  /\ fst (scanPage allElements w') = fst (scanPage allElements w).
Proof.
  intros Hk1 Hk2. cbv zeta. rewrite setConfig_run. cbn [snd].
  set (c := {[ key := v ]} ∪ config (this w)).
  assert (Hflags : truthy (prop c "enableRuleBased") = rulesEnabled w
                   /\ truthy (prop c "enableAIBased") = aiEnabled w).
  { unfold c, prop, rulesEnabled, aiEnabled.
    rewrite !lookup_union, !lookup_singleton_ne by done.
    split; by rewrite (left_id None _). }
  destruct Hflags as [Hr Ha].
  assert (Han : forall e, analysisOf (this (withConfig c w)) e = analysisOf (this w) e).
  { intros e. by apply analysis_config_flags. }
  split.
  - rewrite !analyzeElement_run. cbn [fst]. apply (Han element).
  - rewrite !scanPage_run. cbn [fst].
    rewrite (detectionsOf_ext _ (this w) allElements Han). reflexivity.
Qed.

Lemma X8_other_keys_ignored_witness :
  "minConfidence" <> "enableRuleBased"
  /\ "minConfidence" <> "enableAIBased"
  /\ fst (analyzeElement fadedLink
            (snd (setConfig {[ "minConfidence" := VNum 0.99 ]} freshWorld)))
     = fst (analyzeElement fadedLink freshWorld)
  /\ detected (fst (analyzeElement fadedLink freshWorld)) = true.
Proof.
  assert (H1 : "minConfidence" <> "enableRuleBased") by discriminate.
  assert (H2 : "minConfidence" <> "enableAIBased") by discriminate.
  split; [exact H1 |]. split; [exact H2 |]. split.
  - exact (proj1 (X8_other_keys_ignored freshWorld "minConfidence" (VNum 0.99)
                    fadedLink [] H1 H2)).
  - vm_compute. reflexivity.
Defined.



(** ** Recommendations *)

(** The advice part of [generateRecommendations]. *)
Definition adviceOf (categories : list string) : list string :=
  adviceFor categories "URGENCY"
    ["Remove or verify artificial urgency claims";
     "Ensure scarcity claims are accurate and not misleading"]
  ++ adviceFor categories "CONFIRMSHAMING"
    ["Use neutral language for decline options";
     "Respect user choice without guilt-inducing language"]
  ++ adviceFor categories "SNEAKING"
    ["Make all costs and terms transparent upfront";
     "Remove pre-selected options that benefit the company"]
  ++ adviceFor categories "OBSTRUCTION"
    ["Make cancellation as easy as subscription";
     "Provide clear, accessible exit options"]
  ++ adviceFor categories "VISUAL_INTERFERENCE"
    ["Ensure equal visual prominence for all options";
     "Maintain adequate contrast and readability"].

(** The lines added for the heuristic reasons. *)
Definition aiLines (aiResult : option AIDetector.Result.t) : list string :=
  match aiResult with
  | Some r => map (fun reason => String.append "AI detected: " reason)
                  (AIDetector.Result.reasoning r)
  | None => []
  end.

(** The categories for which advice exists. *)
Definition advisedCategories : list string :=
  ["URGENCY"; "CONFIRMSHAMING"; "SNEAKING"; "OBSTRUCTION"; "VISUAL_INTERFERENCE"].

Lemma uniqFrom_ext (seen seen' l : list string) :
  (forall x, x ∈ l -> (x ∈ seen <-> x ∈ seen')) ->
  uniqFrom seen l = uniqFrom seen' l.
Proof.
  revert seen seen'. induction l as [|y l IH]; intros seen seen' H; [reflexivity |].
  cbn [uniqFrom].
  assert (Hy : y ∈ seen <-> y ∈ seen') by (apply H; left).
  do 2 case_bool_decide; try tauto.
  - apply IH. intros x Hx. apply H. by right.
  - f_equal. apply IH. intros x Hx. rewrite !elem_of_cons.
    assert (x ∈ seen <-> x ∈ seen') by (apply H; by right). tauto.
Qed.

Lemma uniqFrom_app (seen a b : list string) :
  NoDup a -> (forall x, x ∈ a -> x ∉ seen) ->
  uniqFrom seen (a ++ b) = a ++ uniqFrom (a ++ seen) b.
Proof.
  revert seen. induction a as [|y a IH]; intros seen Hnd Hs; [reflexivity |].
  apply NoDup_cons in Hnd as [Hy Hnd]. cbn [app uniqFrom].
  rewrite bool_decide_eq_false_2 by (apply Hs; left).
  f_equal. rewrite IH.
  - f_equal. apply uniqFrom_ext. intros x _.
    rewrite !elem_of_app, !elem_of_cons, !elem_of_app. tauto.
  - assumption.
  - intros x Hx. rewrite elem_of_cons. intros [-> | Hx']; [contradiction |].
    apply (Hs x); [by right | assumption].
Qed.

Lemma adviceOf_NoDup (categories : list string) : NoDup (adviceOf categories).
Proof.
  unfold adviceOf, adviceFor.
  repeat destruct (listIncludes categories _);
    apply (bool_decide_unpack _); vm_compute; exact I.
Qed.

Lemma adviceOf_not_ai (categories : list string) (reason : string) :
  String.append "AI detected: " reason ∉ adviceOf categories.
Proof.
  unfold adviceOf. rewrite !elem_of_app, !adviceFor_elem.
  rewrite !elem_of_cons, !elem_of_nil.
  intros H. repeat destruct H as [H | H]; try destruct H as [_ H];
    repeat destruct H as [H | H]; try discriminate H; try contradiction.
Qed.

Lemma generateRecommendations_split (ruleResults : list RuleMatch.t)
    (aiResult : option AIDetector.Result.t) :
  generateRecommendations ruleResults aiResult =
  adviceOf (map RuleMatch.category ruleResults) ++ uniq (aiLines aiResult).
Proof.
  transitivity (uniq (adviceOf (map RuleMatch.category ruleResults)
                      ++ aiLines aiResult)).
  - unfold generateRecommendations, adviceOf, aiLines.
    f_equal. by rewrite <- !app_assoc.
  - unfold uniq. rewrite uniqFrom_app.
    + f_equal. apply uniqFrom_ext. intros x Hx. rewrite app_nil_r, elem_of_nil.
      split; [| tauto]. intros Hin.
      unfold aiLines in Hx. destruct aiResult as [r|]; [| by apply elem_of_nil in Hx].
      apply list_elem_of_fmap in Hx as [reason [-> _]].
      by apply adviceOf_not_ai in Hin.
    + apply adviceOf_NoDup.
    + intros x _. apply not_elem_of_nil.
Qed.

(** X10. The recommendations are free of repetition; the advice of the matched
    categories comes first, in the fixed order urgency, confirmshaming,
    sneaking, obstruction, visual interference (two lines each, whatever
    the order and number of the matches), then the heuristic reasons in
    their order, each prefixed; only rule matches of an advised category
    contribute advice. *)
Theorem X10_recommendations_shape (ruleResults : list RuleMatch.t)
    (aiResult : option AIDetector.Result.t) :
  let categories := map RuleMatch.category ruleResults in
  let recommendations := generateRecommendations ruleResults aiResult in
  NoDup recommendations
  /\ recommendations = adviceOf categories ++ uniq (aiLines aiResult)
  /\ List.length (adviceOf categories)
     = (2 * List.length (filter (fun c => c ∈ categories) advisedCategories))%nat
  /\ (forall x, x ∈ uniq (aiLines aiResult)
                <-> exists reason, x = String.append "AI detected: " reason
                      /\ reason ∈ match aiResult with
                                  | Some r => AIDetector.Result.reasoning r
                                  | None => []
                                  end).
Proof.
  cbv zeta. split; [apply uniq_NoDup |]. split; [| split].
  - apply generateRecommendations_split.
  - unfold adviceOf, adviceFor, advisedCategories, listIncludes.
    rewrite !filter_cons, filter_nil.
    repeat case_bool_decide;
      repeat match goal with
             | |- context [decide ?P] => destruct (decide P); try contradiction
             end;
      reflexivity.
  - intros x. rewrite uniq_elem. unfold aiLines.
    destruct aiResult as [r|].
    + rewrite list_elem_of_fmap. reflexivity.
    + rewrite elem_of_nil. split; [tauto |]. intros [reason [_ H]].
      by apply elem_of_nil in H.
Qed.

(** X11. A detection whose rule matches all belong to categories without advice
    (misdirection, hidden costs, social proof, forced action) and that has
    no heuristic reason carries no recommendation at all. *)
Theorem X11_no_advice (ruleResults : list RuleMatch.t)
    (aiResult : option AIDetector.Result.t) :
  Forall (fun m => RuleMatch.category m ∉ advisedCategories) ruleResults ->
  aiLines aiResult = [] ->
  generateRecommendations ruleResults aiResult = [].
Proof.
  intros Hcat Hai.
  rewrite generateRecommendations_split.
  rewrite Hai. change (uniq []) with (@nil string). rewrite app_nil_r.
  assert (Hno : forall c, c ∈ advisedCategories ->
                  listIncludes (map RuleMatch.category ruleResults) c = false).
  { intros c Hc. unfold listIncludes. apply bool_decide_eq_false_2.
    intros Hin. apply list_elem_of_fmap in Hin as [m [-> Hm]].
    rewrite Forall_forall in Hcat. exact (Hcat m Hm Hc). }
  unfold adviceOf, adviceFor.
  rewrite !Hno; [reflexivity | | | | |];
    unfold advisedCategories; rewrite !elem_of_cons; tauto.
Qed.

(** The engine with the heuristic detector switched off. *)
Definition rulesOnlyWorld : World :=
  snd (setConfig {[ "enableAIBased" := VBool false ]} freshWorld).

Lemma X11_no_advice_witness :
  Forall (fun m => RuleMatch.category m ∉ advisedCategories) [toMatch disguisedAds]
  /\ aiLines None = []
  /\ generateRecommendations [toMatch disguisedAds] None = []
  /\ match fst (analyzeElement (button "Download the app") rulesOnlyWorld) with
     | Detected r =>
         map RuleMatch.ruleId (Detection.ruleMatches r) = ["disguised-ads"]
         /\ Detection.recommendations r = []
     | NotDetected => False
     end.
Proof.
  assert (H1 : Forall (fun m => RuleMatch.category m ∉ advisedCategories)
                 [toMatch disguisedAds]).
  { repeat constructor. unfold advisedCategories. cbn.
    rewrite !elem_of_cons, elem_of_nil. intuition discriminate. }
  assert (H2 : aiLines None = []) by reflexivity.
  split; [exact H1 |]. split; [exact H2 |].
  split; [exact (X11_no_advice [toMatch disguisedAds] None H1 H2) |].
  vm_compute. split; reflexivity.
Defined.

(** ** The rule set and its helpers *)

(** [getRulesByCategory], [getRulesBySeverity] and [getAllRuleIds] of
    darkPatternRules.js. *)
Definition getRulesByCategory (this : RuleSet.t) (category : string) : list Rule.t :=
  filter (fun rule => Rule.category rule = category) (RuleSet.rules this).

Definition getRulesBySeverity (this : RuleSet.t) (severity : string) : list Rule.t :=
  filter (fun rule => Rule.severity rule = severity) (RuleSet.rules this).

Definition getAllRuleIds (this : RuleSet.t) : list string :=
  map Rule.id (RuleSet.rules this).

Lemma filter_partition3 {A : Type} (f : A -> string) (a b c : string) (l : list A) :
  a <> b -> a <> c -> b <> c ->
  Forall (fun x => f x = a \/ f x = b \/ f x = c) l ->
  filter (fun x => f x = a) l ++ filter (fun x => f x = b) l
    ++ filter (fun x => f x = c) l ≡ₚ l.
Proof.
  intros Hab Hac Hbc. induction 1 as [|x l Hx _ IH]; [reflexivity |].
  rewrite !filter_cons.
  destruct Hx as [Hx | [Hx | Hx]]; rewrite Hx.
  - rewrite decide_True by done. rewrite !decide_False by done.
    cbn. by rewrite IH.
  - rewrite (decide_False (P := b = a)) by done.
    rewrite decide_True by done. rewrite decide_False by done.
    cbn [app]. rewrite <- Permutation_middle. by rewrite IH.
  - rewrite (decide_False (P := c = a)) by done.
    rewrite (decide_False (P := c = b)) by done.
    rewrite decide_True by done.
    rewrite app_assoc, <- Permutation_middle, <- app_assoc. by rewrite IH.
Qed.

(** X12. When every rule has one of the three severities, the rules of severity
    high, medium and low together are all the rules, each once; a query for
    any other severity or for a category no rule has is empty; and there
    are as many ids as rules. *)
Theorem X12_rules_by_severity (rs : RuleSet.t) :
  Forall (fun rule => validSeverity (Rule.severity rule)) (RuleSet.rules rs) ->
  getRulesBySeverity rs "high" ++ getRulesBySeverity rs "medium"
    ++ getRulesBySeverity rs "low" ≡ₚ RuleSet.rules rs
  /\ (forall severity, ~ validSeverity severity -> getRulesBySeverity rs severity = [])
  /\ (forall category, category ∉ map Rule.category (RuleSet.rules rs) ->
                       getRulesByCategory rs category = [])
  /\ List.length (getAllRuleIds rs) = List.length (RuleSet.rules rs).
Proof.
  intros Hvalid. split; [| split; [| split]].
  - unfold getRulesBySeverity. apply filter_partition3; try discriminate.
    exact Hvalid.
  - intros severity Hs. unfold getRulesBySeverity.
    induction Hvalid as [|rule l Hr _ IH]; [reflexivity |].
    rewrite filter_cons, decide_False; [exact IH |].
    intros <-. contradiction.
  - intros category Hc. unfold getRulesByCategory. clear Hvalid.
    induction (RuleSet.rules rs) as [|rule l IH]; [reflexivity |].
    rewrite fmap_cons, not_elem_of_cons in Hc. destruct Hc as [Hne Hc].
    rewrite filter_cons, decide_False; [by apply IH |].
    intros Heq. apply Hne. by rewrite Heq.
  - unfold getAllRuleIds. apply length_map.
Qed.

(** The rule table: seven rules of severity high, five medium, one low;
    no rule of category BAIT_AND_SWITCH. *)
Lemma X12_rules_by_severity_witness :
  Forall (fun rule => validSeverity (Rule.severity rule))
         (RuleSet.rules DarkPatternRules)
  /\ getRulesBySeverity DarkPatternRules "high"
       ++ getRulesBySeverity DarkPatternRules "medium"
       ++ getRulesBySeverity DarkPatternRules "low"
     ≡ₚ RuleSet.rules DarkPatternRules
  /\ map (fun s => List.length (getRulesBySeverity DarkPatternRules s))
         ["high"; "medium"; "low"] = [7; 5; 1]%nat
  /\ getRulesByCategory DarkPatternRules "BAIT_AND_SWITCH" = [].
Proof.
  split; [exact standard_rules_valid |].
  split; [exact (proj1 (X12_rules_by_severity DarkPatternRules standard_rules_valid)) |].
  split; reflexivity.
Defined.

(** ** Rule evaluation: one match per rule at most *)

Lemma filter_length_two {A : Type} (P Q : A -> Prop)
    `{forall x, Decision (P x)} `{forall x, Decision (Q x)} (l : list A) :
  (forall x, P x -> Q x -> False) ->
  (List.length (filter P l) + List.length (filter Q l) <= List.length l)%nat.
Proof.
  intros Hdisj. induction l as [|x l IH]; [reflexivity |].
  rewrite !filter_cons.
  destruct (decide (P x)), (decide (Q x)); cbn [List.length]; try lia.
  exfalso. eauto.
Qed.

Lemma warningsOf_length (rule : Rule.t) (element : Element) :
  List.length (warningsOf rule element)
  = if bool_decide (warningsOf rule element = []) then 0%nat else 1%nat.
Proof.
  unfold warningsOf. destruct (textMatches rule element); [reflexivity |].
  destruct (Rule.checkElement rule) as [check|]; [| reflexivity].
  destruct (check element); reflexivity.
Qed.

Lemma warningsOf_no_match (rule : Rule.t) (element : Element) :
  warningsOf rule element <> [] -> isMatch rule element = false.
Proof.
  unfold warningsOf, isMatch. destruct (textMatches rule element); [done |].
  destruct (Rule.checkElement rule) as [check|]; [| done].
  destruct (check element); done.
Qed.

(** X13. [applyRules] reports each rule at most once and in the order of the
    rule list: the ids of the matches are a sublist of the ids of the rules.
    A rule contributes a match, or one warning, or nothing, never both, so
    matches and new console lines together are at most as many as the
    rules.  The engine itself is left as it is. *)
Theorem X13_apply_rules_shape (w : World) (element : Element) :
  let matches := fst (applyRules element w) in
  let w' := snd (applyRules element w) in
  map RuleMatch.ruleId matches `sublist_of` getAllRuleIds (rules (this w))
  /\ (exists warnings,
        console w' = console w ++ warnings
        /\ (List.length matches + List.length warnings
            <= List.length (RuleSet.rules (rules (this w))))%nat)
  /\ this w' = this w.
Proof.
  cbv zeta. rewrite applyRules_run. cbn [fst snd logged this console].
  set (rs := RuleSet.rules (rules (this w))).
  split; [| split; [| reflexivity]].
  - unfold matchesOf, getAllRuleIds. fold rs.
    rewrite <- list_fmap_compose.
    change (RuleMatch.ruleId ∘ toMatch) with Rule.id.
    apply fmap_sublist, sublist_filter.
  - exists (warningsOfAll rs element). split; [reflexivity |].
    unfold matchesOf. rewrite length_map.
    assert (Hw : List.length (warningsOfAll rs element)
                 = List.length (filter (fun rule => warningsOf rule element <> []) rs)).
    { unfold warningsOfAll. induction rs as [|rule l IH]; [reflexivity |].
      cbn [flat_map]. rewrite length_app, IH, filter_cons, warningsOf_length.
      case_bool_decide as Hnil.
      - rewrite decide_False by (intros ?; contradiction). reflexivity.
      - rewrite decide_True by assumption. reflexivity. }
    rewrite Hw. apply filter_length_two.
    intros rule Hm Hwarn. apply warningsOf_no_match in Hwarn. congruence.
Qed.

(** ** Scans *)


(** ** Counts of the summary *)

(** Counting keys into an object: [acc[k] = (acc[k] || 0) + 1] for each
    key in turn. *)
Definition countKeys (ks : list string) (m : list (string * nat))
    : list (string * nat) :=
  fold_left (fun m k => incrCategory k m) ks m.

Definition total (m : list (string * nat)) : nat := foldr Nat.add 0%nat (map snd m).

Lemma fold_incrCategory_keys {A : Type} (f : A -> string) (l : list A)
    (m : list (string * nat)) :
  fold_left (fun m x => incrCategory (f x) m) l m = countKeys (map f l) m.
Proof.
  revert m. induction l as [|x l IH]; intros m; [reflexivity |]. apply IH.
Qed.

Lemma incrCategory_total (c : string) (m : list (string * nat)) :
  total (incrCategory c m) = S (total m).
Proof.
  unfold total. induction m as [|[k n] m IH]; [reflexivity |].
  cbn [incrCategory]. destruct (String.eqb k c); cbn; [reflexivity |].
  cbn in IH. rewrite IH. lia.
Qed.

Lemma incrCategory_positive (c : string) (m : list (string * nat)) :
  Forall (fun kv => 1 <= snd kv)%nat m ->
  Forall (fun kv => 1 <= snd kv)%nat (incrCategory c m).
Proof.
  induction 1 as [|[k n] m Hk Hm IH]; cbn [incrCategory].
  - constructor; [cbn; lia | constructor].
  - destruct (String.eqb k c).
    + constructor; [cbn; lia | exact Hm].
    + constructor; [exact Hk | exact IH].
Qed.

Lemma countKeys_spec (ks : list string) (m : list (string * nat)) :
  total (countKeys ks m) = (total m + List.length ks)%nat
  /\ (Forall (fun kv => 1 <= snd kv)%nat m ->
      Forall (fun kv => 1 <= snd kv)%nat (countKeys ks m))
  /\ (NoDup (map fst m) -> NoDup (map fst (countKeys ks m)))
  /\ (forall k, k ∈ map fst (countKeys ks m) <-> k ∈ map fst m \/ k ∈ ks)
  /\ (forall k, default 0%nat (lookupKey k (countKeys ks m))
                = (default 0%nat (lookupKey k m)
                   + List.length (filter (fun x => x = k) ks))%nat).
Proof.
  revert m. induction ks as [|c ks IH]; intros m.
  - unfold countKeys. cbn [fold_left List.length].
    split; [lia |]. split; [auto |]. split; [auto |]. split.
    + intros k. rewrite elem_of_nil. tauto.
    + intros k. rewrite filter_nil. cbn [List.length]. lia.
  - cbn [countKeys fold_left]. fold (countKeys ks (incrCategory c m)).
    destruct (IH (incrCategory c m)) as (Ht & Hp & Hn & Hk & Hl).
    split; [| split; [| split; [| split]]].
    + rewrite Ht, incrCategory_total. cbn [List.length]. lia.
    + intros H. by apply Hp, incrCategory_positive.
    + intros H. apply Hn. rewrite incrCategory_keys.
      case_bool_decide as Hin; [assumption |].
      apply NoDup_app. split; [assumption |]. split; [| apply NoDup_singleton].
      intros y Hy Hy'. apply list_elem_of_singleton in Hy'. by subst.
    + intros k. rewrite Hk, incrCategory_keys, elem_of_cons.
      case_bool_decide as Hin.
      * split; [tauto |]. intros [? | [-> | ?]]; auto.
      * rewrite elem_of_app, list_elem_of_singleton. tauto.
    + intros k. rewrite Hl, lookupKey_incrCategory, filter_cons.
      destruct (String.eqb_spec c k) as [Heq | Hne].
      * rewrite decide_True by assumption. cbn. lia.
      * rewrite decide_False by assumption. lia.
Qed.

(** X15. In the summary of a scan the category counts add up to the number of
    rule matches of the detections; a category is listed exactly when some
    rule match has it, so no listed count is zero; there are at most five
    top issues, each for a listed category with its count. *)
Theorem X15_category_counts (allElements : list Element) (w : World) :
  let report := fst (scanPage allElements w) in
  let s := Report.summary report in
  let matches := flat_map Detection.ruleMatches (Report.detections report) in
  total (Summary.byCategory s) = List.length matches
  /\ Forall (fun kv => 1 <= snd kv)%nat (Summary.byCategory s)
  /\ (forall c, c ∈ map fst (Summary.byCategory s)
                <-> c ∈ map RuleMatch.category matches)
  /\ (List.length (Summary.topIssues s) <= 5)%nat
  /\ Forall (fun i => (Issue.category i, Issue.count i) ∈ Summary.byCategory s)
            (Summary.topIssues s).
Proof.
  cbv zeta. rewrite scanPage_run.
  cbn [fst Report.summary Report.detections].
  unfold summaryOf. cbn [detectionResults withResults].
  rewrite fold_countResult.
  cbn [fst snd Summary.byCategory Summary.topIssues].
  rewrite fold_incrCategory_keys.
  set (matches := flat_map Detection.ruleMatches (detectionsOf (this w) allElements)).
  destruct (countKeys_spec (map RuleMatch.category matches) [])
    as (Ht & Hp & _ & Hk & _).
  split; [rewrite Ht; cbn; by rewrite length_map |].
  split; [apply Hp; constructor |].
  split; [intros c; rewrite Hk; cbn; rewrite elem_of_nil; tauto |].
  split.
  - rewrite length_map, length_take. lia.
  - apply Forall_fmap, Forall_forall. intros [k n] Hin. cbn.
    apply elem_of_take in Hin as (i & Hi & _).
    apply list_elem_of_lookup_2 in Hi.
    by rewrite sortDesc_perm in Hi.
Qed.


(** ** getStatistics *)

(** [x.toFixed(2)] on an exact number of moderate size: the nearest
    multiple of 1/100 (the larger one on a tie), sign first, at least one
    integer digit. *)
Definition hundredths (x : Q) : Z := Qfloor (Qabs x * 100 + 0.5).

Definition toFixed2 (x : Q) : string :=
  let n := hundredths x in
  String.append (if Qltb x 0 then "-" else "")
    (String.append (pretty (Z.to_N (n / 100)))
       (String.append "."
          (String.append (pretty (Z.to_N (n / 10 mod 10)))
                         (pretty (Z.to_N (n mod 10)))))).

Module Statistics.
Record t : Type := {
  total : nat;
  bySeverity : list (string * nat);      (* keys in insertion order *)
  avgConfidence : JSValue                (* a string of [toFixed], or 0 *)
}.
End Statistics.

Definition getStatistics : M Statistics.t :=
  d <- getThis ;;
  ret {|
    Statistics.total := List.length (detectionResults d);
    Statistics.bySeverity :=
      fold_left (fun acc r => incrCategory (Detection.severity r) acc)
                (detectionResults d) [];
    Statistics.avgConfidence :=
      if (0 <? List.length (detectionResults d))%nat
      then VStr (toFixed2
                   (fold_left (fun sum r => sum + Detection.confidence r)%Q
                              (detectionResults d) 0%Q
                    / lengthQ (detectionResults d)))
      else VNum 0
  |}.







(** ** getAllRelevantElements *)

(** The host document as the enumeration reads it.  Nodes are named by
    numbers, which stand for object identity. *)
Record Document : Type := {
  (* document.querySelectorAll(selector), in document order; throws on an
     invalid selector *)
  querySelectorAll : string -> Completion (list nat);
  (* el.matches(selector); throws on an invalid selector *)
  nodeMatches : nat -> string -> Completion bool;
  (* document.querySelectorAll('*') *)
  allNodes : list nat;
  (* the observations of the detector on a node *)
  elementOf : nat -> Element
}.

Definition interactiveSelectors : list string :=
  ["button"; "a"; "input"; "form"; "[onclick]"; "[role='button']"; ".button"; ".btn"].

Definition suspiciousSelectors : list string :=
  ["[class*='timer']"; "[class*='countdown']"; "[class*='urgent']";
   "[class*='limited']"; "[class*='modal']"; "[class*='popup']";
   "[class*='overlay']"].

Definition allSelectors : list string := interactiveSelectors ++ suspiciousSelectors.

(** [excludeSelectors.some(s => el.matches(s))]; reading [some] off a value
    that is not an array throws. *)
Fixpoint someMatches (doc : Document) (el : nat) (selectors : list string)
    : Completion bool :=
  match selectors with
  | [] => Normal false
  | s :: rest =>
      match nodeMatches doc el s with
      | Throw err => Throw err
      | Normal true => Normal true
      | Normal false => someMatches doc el rest
      end
  end.

Definition shouldExclude (doc : Document) (excludeSelectors : JSValue) (el : nat)
    : Completion bool :=
  match excludeSelectors with
  | VArr selectors => someMatches doc el selectors
  | _ => Throw "TypeError"
  end.

Definition nodeIncluded (elements : list nat) (el : nat) : bool :=
  bool_decide (el ∈ elements).

(** The body of [found.forEach]: the elements pushed so far, and whether an
    exception ended the loop. *)
Fixpoint addFound (doc : Document) (excludeSelectors : JSValue)
    (found : list nat) (elements : list nat) : list nat * bool :=
  match found with
  | [] => (elements, false)
  | el :: rest =>
      match shouldExclude doc excludeSelectors el with
      | Throw _ => (elements, true)
      | Normal excluded =>
          addFound doc excludeSelectors rest
            (if negb excluded && negb (nodeIncluded elements el)
             then elements ++ [el] else elements)
      end
  end.

Definition invalidSelector (selector : string) : M unit :=
  warn (String.append "Invalid selector: " selector) "".

Fixpoint addSelectors (doc : Document) (excludeSelectors : JSValue)
    (selectors : list string) (elements : list nat) : M (list nat) :=
  match selectors with
  | [] => ret elements
  | selector :: rest =>
      match querySelectorAll doc selector with
      | Throw _ =>
          invalidSelector selector ;;;
          addSelectors doc excludeSelectors rest elements
      | Normal found =>
          let '(elements', thrown) := addFound doc excludeSelectors found elements in
          (if thrown then invalidSelector selector else ret tt) ;;;
          addSelectors doc excludeSelectors rest elements'
      end
  end.

Definition manipulativeText : RegExp.t :=
  RegExp.i (alts [seq [lit "only"; ws; num; ws; lit "left"]; lit "hurry";
                  lit "limited"; seq [lit "act"; ws; lit "now"];
                  seq [dont; ws; lit "miss"]]).

Definition hasManipulativeText (doc : Document) (el : nat) : bool :=
  RegExp.test manipulativeText (toLowerCase (textContent (elementOf doc el))).

Definition addTextNodes (doc : Document) (nodes : list nat) (elements : list nat)
    : list nat :=
  fold_left (fun elements el =>
               if hasManipulativeText doc el && negb (nodeIncluded elements el)
               then elements ++ [el] else elements)
            nodes elements.

Definition getAllRelevantElements (doc : Document) : M (list nat) :=
  d <- getThis ;;
  elements <- addSelectors doc (prop (config d) "excludeSelectors") allSelectors [] ;;
  (* Also check elements with manipulative text *)
  ret (addTextNodes doc (allNodes doc) elements).

(** [scanPage], enumeration included. *)
Definition scanDocument (doc : Document) : M Report.t :=
  allElements <- getAllRelevantElements doc ;;
  scanPage (map (elementOf doc) allElements).

(** A node reaches the candidates through a selector when a query returns
    it and no exclusion selector matches it. *)
Definition foundBySelector (doc : Document) (excludeSelectors : JSValue) (el : nat)
    : Prop :=
  exists selector found,
    selector ∈ allSelectors
    /\ querySelectorAll doc selector = Normal found
    /\ el ∈ found
    /\ shouldExclude doc excludeSelectors el = Normal false.

Lemma addFound_spec (doc : Document) (ex : JSValue) (found elements : list nat) :
  let elements' := fst (addFound doc ex found elements) in
  (NoDup elements -> NoDup elements')
  /\ (forall el, el ∈ elements -> el ∈ elements')
  /\ (forall el, el ∈ elements' ->
        el ∈ elements \/ (el ∈ found /\ shouldExclude doc ex el = Normal false)).
Proof.
  revert elements. induction found as [|x found IH]; intros elements; cbn [addFound].
  - cbn. auto.
  - destruct (shouldExclude doc ex x) as [excluded|err] eqn:Hx; [| cbn; auto].
    destruct (IH (if negb excluded && negb (nodeIncluded elements x)
                  then elements ++ [x] else elements)) as (Hnd & Hmono & Hsrc).
    cbv zeta in *. split; [| split].
    + intros H. apply Hnd.
      destruct excluded; cbn [negb andb]; [assumption |].
      unfold nodeIncluded. case_bool_decide as Hin; cbn [negb]; [assumption |].
      apply NoDup_app. split; [assumption |]. split; [| apply NoDup_singleton].
      intros y Hy Hy'. apply list_elem_of_singleton in Hy'. by subst.
    + intros el Hel. apply Hmono.
      destruct (negb excluded && negb (nodeIncluded elements x)); [| assumption].
      apply elem_of_app. by left.
    + intros el Hel. apply Hsrc in Hel as [Hel | [Hel Hex]].
      * destruct excluded; cbn [negb andb] in Hel; [by left |].
        destruct (negb (nodeIncluded elements x)); [| by left].
        apply elem_of_app in Hel as [Hel | Hel]; [by left |].
        apply list_elem_of_singleton in Hel as ->. right. split; [left | assumption].
      * right. split; [by right | assumption].
Qed.

(** One selector of the enumeration: the elements afterwards and the
    warnings logged. *)
Definition stepSelector (doc : Document) (ex : JSValue) (selector : string)
    (elements : list nat) : list nat * list Warning :=
  let line := {| message := String.append "Invalid selector: " selector;
                 error := "" |} in
  match querySelectorAll doc selector with
  | Throw _ => (elements, [line])
  | Normal found =>
      (fst (addFound doc ex found elements),
       if snd (addFound doc ex found elements) then [line] else [])
  end.

Fixpoint runSelectors (doc : Document) (ex : JSValue) (selectors : list string)
    (elements : list nat) : list nat * list Warning :=
  match selectors with
  | [] => (elements, [])
  | selector :: rest =>
      let step := stepSelector doc ex selector elements in
      let run := runSelectors doc ex rest (fst step) in
      (fst run, snd step ++ snd run)
  end.

Lemma addSelectors_run (doc : Document) (ex : JSValue) (selectors : list string)
    (elements : list nat) (w : World) :
  addSelectors doc ex selectors elements w =
  (fst (runSelectors doc ex selectors elements),
   logged (snd (runSelectors doc ex selectors elements)) w).
Proof.
  revert elements w. induction selectors as [|s rest IH]; intros elements w.
  - cbn. by rewrite logged_nil.
  - cbn [addSelectors runSelectors]. unfold stepSelector.
    destruct (querySelectorAll doc s) as [found|err].
    + destruct (addFound doc ex found elements) as [elements1 thrown].
      unfold bind. cbn [fst snd].
      destruct thrown.
      * unfold invalidSelector, warn. rewrite IH. cbn [fst snd].
        by rewrite <- logged_app.
      * unfold ret at 1. rewrite IH. cbn [fst snd app]. reflexivity.
    + unfold bind, invalidSelector, warn. rewrite IH. cbn [fst snd].
      by rewrite <- logged_app.
Qed.

Lemma runSelectors_spec (doc : Document) (ex : JSValue) (selectors : list string)
    (elements : list nat) :
  let run := runSelectors doc ex selectors elements in
  (NoDup elements -> NoDup (fst run))
  /\ (forall el, el ∈ elements -> el ∈ fst run)
  /\ (forall el, el ∈ fst run ->
        el ∈ elements
        \/ exists selector found,
             selector ∈ selectors /\ querySelectorAll doc selector = Normal found
             /\ el ∈ found /\ shouldExclude doc ex el = Normal false)
  /\ (List.length (snd run) <= List.length selectors)%nat.
Proof.
  revert elements. induction selectors as [|s rest IH]; intros elements.
  - cbn. repeat split; auto.
  - cbn [runSelectors]. cbv zeta.
    set (step := stepSelector doc ex s elements).
    destruct (IH (fst step)) as (Hnd' & Hmono' & Hsrc' & Hlen'). cbv zeta in *.
    assert (Hstep : (NoDup elements -> NoDup (fst step))
                    /\ (forall el, el ∈ elements -> el ∈ fst step)
                    /\ (forall el, el ∈ fst step ->
                          el ∈ elements
                          \/ exists found, querySelectorAll doc s = Normal found
                               /\ el ∈ found
                               /\ shouldExclude doc ex el = Normal false)
                    /\ (List.length (snd step) <= 1)%nat).
    { unfold step, stepSelector.
      destruct (querySelectorAll doc s) as [found|err].
      - pose proof (addFound_spec doc ex found elements) as (Hnd & Hmono & Hsrc).
        cbv zeta in *. cbn [fst snd]. repeat split; auto.
        + intros el Hel. apply Hsrc in Hel as [Hel | [Hel Hex]]; [by left |].
          right. exists found. auto.
        + destruct (snd (addFound doc ex found elements)); cbn; lia.
      - cbn [fst snd]. repeat split; auto. }
    destruct Hstep as (Hnd & Hmono & Hsrc & Hlen).
    cbn [fst snd]. split; [| split; [| split]].
    + auto.
    + auto.
    + intros el Hel.
      apply Hsrc' in Hel as [Hel | (sel & fnd & Hsel & Hq & Hin & Hex)].
      * apply Hsrc in Hel as [Hel | (fnd & Hq & Hin & Hex)]; [by left |].
        right. exists s, fnd. repeat split; auto. left.
      * right. exists sel, fnd. repeat split; auto. by right.
    + rewrite length_app. cbn [List.length]. lia.
Qed.

Lemma addTextNodes_spec (doc : Document) (nodes elements : list nat) :
  let elements' := addTextNodes doc nodes elements in
  (NoDup elements -> NoDup elements')
  /\ (forall el, el ∈ elements -> el ∈ elements')
  /\ (forall el, el ∈ nodes -> hasManipulativeText doc el = true -> el ∈ elements')
  /\ (forall el, el ∈ elements' ->
        el ∈ elements \/ (el ∈ nodes /\ hasManipulativeText doc el = true)).
Proof.
  revert elements. induction nodes as [|x nodes IH]; intros elements.
  - cbn. repeat split; auto. intros el H. by apply elem_of_nil in H.
  - unfold addTextNodes. cbn [fold_left].
    set (e1 := if hasManipulativeText doc x && negb (nodeIncluded elements x)
               then elements ++ [x] else elements).
    fold (addTextNodes doc nodes e1).
    destruct (IH e1) as (Hnd & Hmono & Htext & Hsrc). cbv zeta in *.
    assert (He1 : forall el, el ∈ elements -> el ∈ e1).
    { intros el Hel. unfold e1. destruct (_ && _); [| assumption].
      apply elem_of_app. by left. }
    assert (Hx : hasManipulativeText doc x = true -> x ∈ e1).
    { intros Ht. unfold e1, nodeIncluded. rewrite Ht. cbn [andb].
      case_bool_decide; cbn [negb]; [assumption |].
      apply elem_of_app. right. left. }
    split; [| split; [| split]].
    + intros H. apply Hnd. unfold e1, nodeIncluded.
      destruct (hasManipulativeText doc x); cbn [andb]; [| assumption].
      case_bool_decide as Hin; cbn [negb]; [assumption |].
      apply NoDup_app. split; [assumption |]. split; [| apply NoDup_singleton].
      intros y Hy Hy'. apply list_elem_of_singleton in Hy'. by subst.
    + auto.
    + intros el Hel Ht. apply elem_of_cons in Hel as [-> | Hel]; auto.
    + intros el Hel. apply Hsrc in Hel as [Hel | [Hel Ht]].
      * unfold e1 in Hel.
        destruct (hasManipulativeText doc x) eqn:Hxt; cbn [andb] in Hel; [| by left].
        destruct (negb (nodeIncluded elements x)); [| by left].
        apply elem_of_app in Hel as [Hel | Hel]; [by left |].
        apply list_elem_of_singleton in Hel as ->. right. split; [left | assumption].
      * right. split; [by right | assumption].
Qed.

Lemma getAllRelevantElements_run (doc : Document) (w : World) :
  let ex := prop (config (this w)) "excludeSelectors" in
  getAllRelevantElements doc w =
  (addTextNodes doc (allNodes doc) (fst (runSelectors doc ex allSelectors [])),
   logged (snd (runSelectors doc ex allSelectors [])) w).
Proof.
  cbv zeta. unfold getAllRelevantElements, bind, getThis.
  rewrite addSelectors_run. reflexivity.
Qed.

Lemma getAllRelevantElements_spec (doc : Document) (w : World) :
  let ex := prop (config (this w)) "excludeSelectors" in
  let candidates := fst (getAllRelevantElements doc w) in
  let w' := snd (getAllRelevantElements doc w) in
  NoDup candidates
  /\ (forall el, el ∈ allNodes doc -> hasManipulativeText doc el = true ->
                 el ∈ candidates)
  /\ (forall el, el ∈ candidates ->
        foundBySelector doc ex el
        \/ (el ∈ allNodes doc /\ hasManipulativeText doc el = true))
  /\ this w' = this w
  /\ (exists warnings, console w' = console w ++ warnings
                       /\ (List.length warnings <= 15)%nat).
Proof.
  cbv zeta. rewrite getAllRelevantElements_run. cbn [fst snd logged this console].
  set (ex := prop (config (this w)) "excludeSelectors").
  destruct (runSelectors_spec doc ex allSelectors []) as (Hnd & _ & Hsrc & Hlen).
  destruct (addTextNodes_spec doc (allNodes doc)
              (fst (runSelectors doc ex allSelectors [])))
    as (Hnd' & _ & Htext & Hsrc').
  cbv zeta in *.
  split; [apply Hnd', Hnd; constructor |].
  split; [exact Htext |].
  split; [| split; [reflexivity |]].
  - intros el Hel. apply Hsrc' in Hel as [Hel | Hel]; [| by right].
    apply Hsrc in Hel as [Hel | (sel & found & H)]; [by apply elem_of_nil in Hel |].
    left. exists sel, found. exact H.
  - eexists. split; [reflexivity | exact Hlen].
Qed.


(** X18. The candidate list has no repetition.  It holds every node of the
    document whose text has a manipulative phrase, whether or not an
    exclusion selector matches the node: the exclusion is applied to the
    selector queries only.  Every other candidate was returned by the query
    of one of the fifteen selectors and matched no exclusion selector.  The
    enumeration logs at most one warning per selector and leaves the engine
    as it is. *)
Theorem X18_candidates (doc : Document) (w : World) :
  let ex := prop (config (this w)) "excludeSelectors" in
  let candidates := fst (getAllRelevantElements doc w) in
  let w' := snd (getAllRelevantElements doc w) in
  NoDup candidates
  /\ (forall el, el ∈ allNodes doc -> hasManipulativeText doc el = true ->
                 el ∈ candidates)
  /\ (forall el, el ∈ candidates ->
        foundBySelector doc ex el
        \/ (el ∈ allNodes doc /\ hasManipulativeText doc el = true))
  /\ this w' = this w
  /\ (exists warnings, console w' = console w ++ warnings
                       /\ (List.length warnings <= 15)%nat).
Proof. apply getAllRelevantElements_spec. Qed.

(** X19. When no selector query returns a node and no node of the document has
    a manipulative phrase, a scan of the document examines no element and
    reports no detection, zero counts and no issue. *)
Theorem X19_empty_page (doc : Document) (w : World) :
  Forall (fun selector =>
            match querySelectorAll doc selector with
            | Normal found => found = []
            | Throw _ => True
            end) allSelectors ->
  Forall (fun el => hasManipulativeText doc el = false) (allNodes doc) ->
  let report := fst (scanDocument doc w) in
  fst (getAllRelevantElements doc w) = []
  /\ Report.totalElements report = 0%nat
  /\ Report.detections report = []
  /\ Summary.totalDetections (Report.summary report) = 0%nat
  /\ Summary.bySeverity (Report.summary report)
     = {| BySeverity.high := 0; BySeverity.medium := 0; BySeverity.low := 0 |}
  /\ Summary.byCategory (Report.summary report) = []
  /\ Summary.topIssues (Report.summary report) = [].
Proof.
  intros Hsel Htext.
  assert (Hnil : fst (getAllRelevantElements doc w) = []).
  { destruct (getAllRelevantElements_spec doc w) as (_ & _ & Hsrc & _).
    cbv zeta in Hsrc.
    destruct (fst (getAllRelevantElements doc w)) as [|el l]; [reflexivity |].
    exfalso. destruct (Hsrc el ltac:(left)) as [(sel & found & Hin & Hq & Hel & _) | [Hel Ht]].
    - rewrite Forall_forall in Hsel. specialize (Hsel sel Hin).
      rewrite Hq in Hsel. subst. by apply elem_of_nil in Hel.
    - rewrite Forall_forall in Htext. rewrite (Htext el Hel) in Ht. discriminate. }
  cbv zeta. split; [exact Hnil |].
  unfold scanDocument, bind.
  destruct (getAllRelevantElements doc w) as [cands w1]. cbn [fst] in Hnil. subst cands.
  cbn [map]. rewrite scanPage_run. cbn. repeat split.
Qed.

(** A page without any node. *)
Definition emptyDocument : Document := {|
  querySelectorAll := fun _ => Normal [];
  nodeMatches := fun _ _ => Normal false;
  allNodes := [];
  elementOf := fun _ => button ""
|}.

Lemma X19_empty_page_witness :
  Forall (fun selector =>
            match querySelectorAll emptyDocument selector with
            | Normal found => found = []
            | Throw _ => True
            end) allSelectors
  /\ Forall (fun el => hasManipulativeText emptyDocument el = false)
            (allNodes emptyDocument)
  /\ Report.totalElements (fst (scanDocument emptyDocument freshWorld)) = 0%nat
  /\ Report.detections (fst (scanDocument emptyDocument freshWorld)) = [].
Proof.
  assert (H1 : Forall (fun selector =>
                         match querySelectorAll emptyDocument selector with
                         | Normal found => found = []
                         | Throw _ => True
                         end) allSelectors)
    by (apply Forall_forall; intros; reflexivity).
  assert (H2 : Forall (fun el => hasManipulativeText emptyDocument el = false)
                 (allNodes emptyDocument)) by constructor.
  split; [exact H1 |]. split; [exact H2 |].
  destruct (X19_empty_page emptyDocument freshWorld H1 H2) as (_ & Ht & Hd & _).
  split; [exact Ht | exact Hd].
Defined.

(** A page with a button, a link that an exclusion selector matches, and
    the engine's own badge carrying an urgent text: nodes 0, 1 and 2. *)
Definition samplePage : Document := {|
  querySelectorAll := fun selector =>
    if String.eqb selector "button" then Normal [0; 2]%nat
    else if String.eqb selector "a" then Normal [1; 0]%nat
    else if String.eqb selector ".btn" then Throw "SyntaxError"
    else Normal [];
  nodeMatches := fun el selector =>
    Normal (String.eqb selector ".dark-pattern-badge" && (el =? 2)%nat);
  allNodes := [0; 1; 2]%nat;
  elementOf := fun el =>
    match el with
    | 0%nat => button "OK"
    | 1%nat => fadedLink
    | _ => button "Hurry, only 3 left!"
    end
|}.

(** The badge is skipped by the selector pass and comes back through its
    text; the invalid selector costs one warning. *)
Example candidates_example :
  fst (getAllRelevantElements samplePage freshWorld) = [0; 1; 2]%nat
  /\ shouldExclude samplePage (VArr [".dark-pattern-badge"]) 2 = Normal true
  /\ map message (console (snd (getAllRelevantElements samplePage freshWorld)))
     = ["Invalid selector: .btn"]
  /\ Report.totalElements (fst (scanDocument samplePage freshWorld)) = 3%nat
  /\ List.length (Report.detections (fst (scanDocument samplePage freshWorld)))
     = 2%nat.
Proof. vm_compute. repeat split. Qed.

(** The statistics of the scan of four candidates of [scan_example]. *)
Example statistics_example :
  let w := snd (scanPage [fadedLink; button "Hurry, only 3 left!";
                          button "No thanks, I hate savings"; button "OK"]
                         freshWorld) in
  fst (getStatistics w)
  = {| Statistics.total := 3;
       Statistics.bySeverity := [("high", 2%nat); ("medium", 1%nat)];
       Statistics.avgConfidence := VStr "0.57" |}.
Proof. vm_compute. reflexivity. Qed.

(** ** The word-bag sentiment of analyzeTextSentiment *)

(** [s.split(/\s+/)]: the pieces between maximal runs of white space; the
    first or last piece is empty when the string starts or ends with white
    space, and the empty string gives one empty piece. *)
Fixpoint splitFrom (inSeparator : bool) (cur : string) (s : string) : list string :=
  match s with
  | EmptyString => [cur]
  | String c s' =>
      if RegExp.isSpace c then
        if inSeparator then splitFrom true cur s'
        else cur :: splitFrom true "" s'
      else splitFrom false (String.append cur (String c "")) s'
  end.

Definition splitWhitespace (s : string) : list string := splitFrom false "" s.

Definition negativeWords : list string :=
  ["hate"; "never"; "lose"; "miss"; "wrong"; "bad"; "poor"; "waste"].

Definition positiveWords : list string :=
  ["love"; "great"; "save"; "win"; "best"; "free"; "bonus"].

Definition wordScore (score : Q) (word : string) : Q :=
  let score := if listIncludes negativeWords word then (score - 1)%Q else score in
  if listIncludes positiveWords word then (score + 1)%Q else score.

Definition analyzeTextSentiment (text : string) : Q :=
  let words := splitWhitespace (toLowerCase text) in
  let score := fold_left wordScore words 0%Q in
  (score / Qmax (lengthQ words) 1)%Q.

Lemma splitFrom_nonempty (inSeparator : bool) (cur s : string) :
  splitFrom inSeparator cur s <> [].
Proof.
  revert inSeparator cur. induction s as [|c s IH]; intros b cur; cbn [splitFrom].
  - discriminate.
  - destruct (RegExp.isSpace c); [destruct b |]; [apply IH | discriminate | apply IH].
Qed.

Lemma fold_wordScore_bounds (words : list string) (a : Q) :
  (a - lengthQ words <= fold_left wordScore words a <= a + lengthQ words)%Q.
Proof.
  revert a. induction words as [|word words IH]; intros a.
  - change (lengthQ (@nil string)) with 0%Q. cbn [fold_left]. lra.
  - cbn [fold_left]. rewrite lengthQ_cons.
    pose proof (IH (wordScore a word)) as [Hlo Hhi].
    assert (Hstep : (a - 1 <= wordScore a word <= a + 1)%Q).
    { unfold wordScore.
      destruct (listIncludes negativeWords word),
               (listIncludes positiveWords word); lra. }
    lra.
Qed.

(** X20. The word-bag sentiment lies between -1 and 1.  The list of words is
    never empty, so the guard [Math.max(words.length, 1)] never replaces
    the length; a text without a listed word scores 0. *)
Theorem X20_word_sentiment (text : string) :
  let words := splitWhitespace (toLowerCase text) in
  (-1 <= analyzeTextSentiment text <= 1)%Q
  /\ (1 <= List.length words)%nat
  /\ (Qmax (lengthQ words) 1 == lengthQ words)%Q
  /\ (Forall (fun word => (word ∉ negativeWords) /\ (word ∉ positiveWords)) words ->
      analyzeTextSentiment text == 0)%Q.
Proof.
  cbv zeta. unfold analyzeTextSentiment.
  set (words := splitWhitespace (toLowerCase text)).
  assert (Hne : words <> []) by apply splitFrom_nonempty.
  assert (Hlen : (1 <= List.length words)%nat).
  { destruct words; [done | cbn; lia]. }
  assert (HlenQ : (1 <= lengthQ words)%Q).
  { pose proof (lengthQ_le words 1 Hlen) as H.
    change (inject_Z (Z.of_nat 1)) with 1%Q in H. exact H. }
  assert (Hmax : (Qmax (lengthQ words) 1 == lengthQ words)%Q).
  { destruct (Q.max_spec (lengthQ words) 1) as [[H _] | [_ E]]; [lra | exact E]. }
  pose proof (fold_wordScore_bounds words 0) as [Hlo Hhi].
  split; [| split; [exact Hlen | split; [exact Hmax |]]].
  - rewrite Hmax. split.
    + apply Qle_shift_div_l; lra.
    + apply Qle_shift_div_r; lra.
  - intros Hnone.
    assert (Hz : forall a, fold_left wordScore words a = a).
    { clear -Hnone. induction Hnone as [|word l [Hn Hp] _ IH]; intros a; [reflexivity |].
      cbn [fold_left]. unfold wordScore at 2, listIncludes.
      rewrite !bool_decide_eq_false_2 by assumption. apply IH. }
    rewrite Hz. unfold Qdiv. ring.
Qed.

Lemma X20_word_sentiment_witness :
  Forall (fun word => (word ∉ negativeWords) /\ (word ∉ positiveWords))
         (splitWhitespace (toLowerCase "No thanks, I hate, really"))
  /\ (analyzeTextSentiment "No thanks, I hate, really" == 0)%Q
  /\ splitWhitespace " a  b " = [""; "a"; "b"; ""]
  /\ (analyzeTextSentiment "I HATE to lose a free bonus" == - (0 / 7))%Q
  /\ (analyzeTextSentiment "never miss" == -1)%Q.
Proof.
  assert (H : Forall (fun word => (word ∉ negativeWords) /\ (word ∉ positiveWords))
                (splitWhitespace (toLowerCase "No thanks, I hate, really"))).
  { apply (bool_decide_unpack _). vm_compute. exact I. }
  split; [exact H |].
  split; [exact (proj2 (proj2 (proj2 (X20_word_sentiment _))) H) |].
  repeat split; vm_compute; reflexivity.
Defined.

(** ** Configuration calls compose *)

(** X21. Two calls of [setConfig] amount to one call with the merged argument,
    the later call winning on common keys; a call with an empty object
    changes nothing; repeating a call changes nothing more. *)
Theorem X21_setConfig_composes (a b : gmap string JSValue) (w : World) :
  snd (setConfig b (snd (setConfig a w))) = snd (setConfig (b ∪ a) w)
  /\ config (this (snd (setConfig ∅ w))) = config (this w)
  /\ snd (setConfig a (snd (setConfig a w))) = snd (setConfig a w).
Proof.
  rewrite !setConfig_run. cbn [snd]. unfold withConfig. cbn [this config console].
  split; [| split].
  - by rewrite (assoc_L (∪)).
  - apply (left_id_L ∅ (∪)).
  - by rewrite (assoc_L (∪)), (idemp_L (∪)).
Qed.

(** ** Rule-based detection switched off *)


(** ** The three feature scores *)

(** What [hasAnimation] reads beyond the observations of [Element]. *)
Record Motion : Type := {
  animation : string;                    (* styles.animation *)
  transition : string;                   (* styles.transition *)
  classList : list string
}.

Definition hasAnimation (m : Motion) : bool :=
  negb (String.eqb (animation m) "none")
  || negb (String.eqb (transition m) "none")
  || listIncludes (classList m) "animate"
  || listIncludes (classList m) "pulse"
  || listIncludes (classList m) "shake".

Definition addIf (cond : bool) (amount : Q) (score : Q) : Q :=
  if cond then (score + amount)%Q else score.

Definition detectVisualManipulation (element : Element) (motion : Motion) : Q :=
  let visual := AIDetector.extractVisualFeatures element in
  let score := 0%Q in
  let score := addIf (numLt (Features.opacity visual) 0.5) 0.3 score in
  let score := addIf (numLt (fontSize (computedStyle element)) 12) 0.2 score in
  let score := addIf (numLt (Features.contrastRatio visual) 3) 0.3 score in
  let score := addIf (hasAnimation motion) 0.2 score in
  Qmin 1 score.

Definition detectBehavioralNudges (element : Element) : Q :=
  let behavioral := AIDetector.extractBehavioralFeatures element in
  let score := 0%Q in
  let score := addIf (Features.hasPreselection behavioral) 0.3 score in
  let score := addIf (Features.hasTimeConstraint behavioral) 0.3 score in
  let score := addIf (Features.blocksUserAction behavioral) 0.4 score in
  Qmin 1 score.

Definition detectContextualAnomalies (element : Element) : Q :=
  let contextual := AIDetector.extractContextualFeatures element in
  let score := 0%Q in
  let score :=
    addIf (Features.isInModal contextual && Features.appearsOnLoad contextual)
          0.3 score in
  let score := addIf (Features.isInPopup contextual) 0.2 score in
  let score := addIf (Features.hasExitIntent contextual) 0.3 score in
  Qmin 1 score.

Ltac qcompute :=
  vm_compute; repeat split; try reflexivity; intros; try discriminate.

(** X23. The three feature scores lie in [[0, 1]].  The weights of each add up
    to at most 1 (visual 1, behavioural 1, contextual 0.8), so the final
    [Math.min(1, score)] never lowers a score; the contextual score never
    exceeds 0.8, and the behavioural score is 1 exactly when the element has
    a preselection, a time constraint and blocks user action. *)
Theorem X23_feature_scores (element : Element) (motion : Motion) :
  (0 <= detectVisualManipulation element motion <= 1)%Q
  /\ (0 <= detectBehavioralNudges element <= 1)%Q
  /\ (0 <= detectContextualAnomalies element <= 0.8)%Q
  /\ Qeq_bool (detectBehavioralNudges element) 1
     = AIDetector.hasPreselection element
       && AIDetector.hasTimeConstraint element
       && AIDetector.blocksUserAction element
  /\ (detectBehavioralNudges element
      == addIf (AIDetector.blocksUserAction element) 0.4
           (addIf (AIDetector.hasTimeConstraint element) 0.3
              (addIf (AIDetector.hasPreselection element) 0.3 0)))%Q.
Proof.
  unfold detectVisualManipulation, detectBehavioralNudges, detectContextualAnomalies.
  cbv zeta.
  cbn [AIDetector.extractVisualFeatures AIDetector.extractBehavioralFeatures
       AIDetector.extractContextualFeatures Features.opacity Features.contrastRatio
       Features.hasPreselection Features.hasTimeConstraint Features.blocksUserAction
       Features.isInModal Features.appearsOnLoad Features.isInPopup
       Features.hasExitIntent].
  split; [| split; [| split; [| split]]].
  - destruct (numLt (opacity (computedStyle element)) 0.5),
             (numLt (fontSize (computedStyle element)) 12),
             (numLt (AIDetector.calculateContrastRatio (computedStyle element)) 3),
             (hasAnimation motion); qcompute.
  - destruct (AIDetector.hasPreselection element),
             (AIDetector.hasTimeConstraint element),
             (AIDetector.blocksUserAction element); qcompute.
  - destruct (AIDetector.ancestorHasClass element "modal" "dialog"
              && hasAttribute element "data-onload"),
             (AIDetector.ancestorHasClass element "popup" "overlay"),
             (hasAttribute element "data-exit-intent"); qcompute.
  - destruct (AIDetector.hasPreselection element),
             (AIDetector.hasTimeConstraint element),
             (AIDetector.blocksUserAction element); qcompute.
  - destruct (AIDetector.hasPreselection element),
             (AIDetector.hasTimeConstraint element),
             (AIDetector.blocksUserAction element); qcompute.
Qed.
